(** * RLPPTM test-station management

    A shallow embedding of [modules/templates/RLPPTM/models/org.py]:
    the provider verification / commissioning workflow ([TestProvider],
    [TestProviderModel]) and the test-station approval workflow
    ([TestStation], [TestStationModel]), followed by the properties of
    the workflow that the design specification states.

    Conventions of the embedding
    - a database table is the list of its rows in storage order; a query
      is a boolean predicate on rows, [select(...).first()] is [find],
      a bulk [update] is [map];
    - a nullable column is an [option]; workflow codes that the tables
      restrict with [IS_IN_SET] are enumerations;
    - an update dictionary ([update = {}], later passed to
      [update_record]) is a record of optional assignments, one per key
      the code may set;
    - a method that can raise returns an [outcome];
    - [current.request.utcnow] and [current.auth.s3_has_role] are read
      from a [request] value; notifications and screen messages, which
      write nothing to the database, are left out. *)

From Stdlib Require Import ZArith List String Ascii Bool Lia DecimalString Sorted.
Import ListNotations.

Local Open Scope Z_scope.

(* ================================================================== *)
(** ** Python values and helpers *)

(** The values that reach [get_dhash]: [None], booleans, integers,
    strings, and the one-element list of strings that
    [TestProvider.vhash] passes. *)
Inductive pyval : Type :=
| PyNone
| PyBool (b : bool)
| PyInt (z : Z)
| PyStr (s : string)
| PyStrList (items : list string).

(** Python truth value testing. *)
Definition truthy (v : pyval) : bool :=
  match v with
  | PyNone => false
  | PyBool b => b
  | PyInt z => negb (z =? 0)
  | PyStr s => negb (s =? "")%string
  | PyStrList items => match items with [] => false | _ :: _ => true end
  end.

(** [repr] of a string without quotes, backslashes or control
    characters (the only strings the workflow puts in a list). *)
Definition py_repr_str (s : string) : string :=
  ("'" ++ s ++ "'")%string.

(** [str(v)]. *)
Definition py_str (v : pyval) : string :=
  match v with
  | PyNone => "None"
  | PyBool true => "True"
  | PyBool false => "False"
  | PyInt z => NilZero.string_of_int (Z.to_int z)
  | PyStr s => s
  | PyStrList items =>
      ("[" ++ String.concat ", " (map py_repr_str items) ++ "]")%string
  end.

Definition of_opt {A : Type} (inj : A -> pyval) (o : option A) : pyval :=
  match o with
  | Some a => inj a
  | None => PyNone
  end.

(** Truth value of a nullable string column. *)
Definition str_truthy (o : option string) : bool := truthy (of_opt PyStr o).

(** Truth value of a nullable record reference. *)
Definition ref_truthy (o : option Z) : bool := truthy (of_opt PyInt o).

Definition opt_eqb {A : Type} (eqb : A -> A -> bool) (x y : option A) : bool :=
  match x, y with
  | Some a, Some b => eqb a b
  | None, None => true
  | _, _ => false
  end.

(** Equality of nullable references, as [field == value] builds it
    (a [None] operand becomes [IS NULL]). *)
Definition ref_eqb : option Z -> option Z -> bool := opt_eqb Z.eqb.

Definition ostr_eqb : option string -> option string -> bool :=
  opt_eqb String.eqb.

(** SQL ordering comparisons: a NULL operand never satisfies them. *)
Definition sql_le (x y : option Z) : bool :=
  match x, y with
  | Some a, Some b => a <=? b
  | _, _ => false
  end.

Definition sql_ge (x y : option Z) : bool := sql_le y x.

Definition is_some {A : Type} (o : option A) : bool :=
  match o with Some _ => true | None => false end.

Definition is_none {A : Type} (o : option A) : bool := negb (is_some o).

(** [dict.get(key)] / [dict[key] = value] on an insertion-ordered
    dictionary kept as an association list. *)
Section Dict.
Context {K V : Type} (eqb : K -> K -> bool).

Fixpoint dict_get (d : list (K * V)) (k : K) : option V :=
  match d with
  | [] => None
  | (k', v) :: rest => if eqb k' k then Some v else dict_get rest k
  end.

Fixpoint dict_set (d : list (K * V)) (k : K) (v : V) : list (K * V) :=
  match d with
  | [] => [(k, v)]
  | (k', v') :: rest =>
      if eqb k' k then (k', v) :: rest else (k', v') :: dict_set rest k v
  end.
End Dict.

(** [sorted] on integer keys. *)
Fixpoint insert_sorted (x : Z) (l : list Z) : list Z :=
  match l with
  | [] => [x]
  | y :: rest => if x <=? y then x :: l else y :: insert_sorted x rest
  end.

Definition sorted (l : list Z) : list Z := fold_right insert_sorted [] l.

(** [str.strip()]: removes leading and trailing ASCII whitespace. *)
Definition is_space (c : ascii) : bool :=
  let n := nat_of_ascii c in
  ((9 <=? n) && (n <=? 13) || (n =? 32))%nat.

Fixpoint lstrip (s : string) : string :=
  match s with
  | EmptyString => EmptyString
  | String c rest => if is_space c then lstrip rest else s
  end.

Fixpoint string_rev (s acc : string) : string :=
  match s with
  | EmptyString => acc
  | String c rest => string_rev rest (String c acc)
  end.

Definition strip (s : string) : string :=
  string_rev (lstrip (string_rev (lstrip s) EmptyString)) EmptyString.

(** Exceptions the workflow can raise, and the result of a call that
    may raise. *)
Inductive exn : Type := AttributeError | TypeError | RuntimeError.

Inductive outcome (A : Type) : Type :=
| Return (a : A)
| Raise (e : exn).

Arguments Return {A} a.
Arguments Raise {A} e.

Definition bind {A B : Type} (m : outcome A) (k : A -> outcome B) : outcome B :=
  match m with
  | Return a => k a
  | Raise e => Raise e
  end.

Notation "x <- m ;; k" := (bind m (fun x => k))
  (at level 61, m at next level, right associativity).
Notation "' p <- m ;; k" := (bind m (fun x => let p := x in k))
  (at level 61, p pattern, m at next level, right associativity).

(** One more than the largest key in use: the key of an inserted row. *)
Definition next_id (ids : list Z) : Z := 1 + fold_right Z.max 0 ids.

(* ================================================================== *)
(** ** get_dhash *)

Section Hashing.
(** [hashlib.sha256(s.encode("utf-8")).hexdigest().lower()], from the
    Python standard library. *)
Variable sha256_hexdigest : string -> string.

(** The string that is hashed: [str(v) if v else "***"], joined
    by ["#"]. *)
Definition dstr (values : list pyval) : string :=
  String.concat "#"
    (map (fun v => if truthy v then py_str v else "***"%string) values).

Definition get_dhash (values : list pyval) : string :=
  sha256_hexdigest (dstr values).
End Hashing.

(* ================================================================== *)
(** ** Workflow codes *)

(** [org_verification.orgtype]: N/A, ACCEPT, N/V, VERIFIED. *)
Inductive orgtype_status : Type :=
| OT_NA | OT_ACCEPT | OT_NV | OT_VERIFIED.

(** [org_verification.mgrinfo]: N/A, ACCEPT, REVISE, COMPLETE. *)
Inductive mgrinfo_status : Type :=
| MI_NA | MI_ACCEPT | MI_REVISE | MI_COMPLETE.

(** [org_commission.status]. *)
Inductive commission_status : Type :=
| CURRENT | SUSPENDED | REVOKED | EXPIRED.

(** [org_site_approval.status]. *)
Inductive approval_status : Type :=
| REVISE | READY | REVIEW | APPROVED.

(** The review dimensions [mpav], [hygiene], [layout]. *)
Inductive review_status : Type :=
| RV_REVISE | RV_REVIEW | RV_APPROVED.

(** [org_site_approval.public]. *)
Inductive yesno : Type := Y | N.

Definition orgtype_eqb (a b : orgtype_status) : bool :=
  match a, b with
  | OT_NA, OT_NA | OT_ACCEPT, OT_ACCEPT
  | OT_NV, OT_NV | OT_VERIFIED, OT_VERIFIED => true
  | _, _ => false
  end.

Definition mgrinfo_eqb (a b : mgrinfo_status) : bool :=
  match a, b with
  | MI_NA, MI_NA | MI_ACCEPT, MI_ACCEPT
  | MI_REVISE, MI_REVISE | MI_COMPLETE, MI_COMPLETE => true
  | _, _ => false
  end.

Definition commission_status_eqb (a b : commission_status) : bool :=
  match a, b with
  | CURRENT, CURRENT | SUSPENDED, SUSPENDED
  | REVOKED, REVOKED | EXPIRED, EXPIRED => true
  | _, _ => false
  end.

Definition approval_status_eqb (a b : approval_status) : bool :=
  match a, b with
  | REVISE, REVISE | READY, READY
  | REVIEW, REVIEW | APPROVED, APPROVED => true
  | _, _ => false
  end.

Definition review_eqb (a b : review_status) : bool :=
  match a, b with
  | RV_REVISE, RV_REVISE | RV_REVIEW, RV_REVIEW
  | RV_APPROVED, RV_APPROVED => true
  | _, _ => false
  end.

Definition yesno_eqb (a b : yesno) : bool :=
  match a, b with
  | Y, Y | N, N => true
  | _, _ => false
  end.

(** [status in ("CURRENT", "SUSPENDED")]. *)
Definition active_status (s : commission_status) : bool :=
  match s with
  | CURRENT | SUSPENDED => true
  | REVOKED | EXPIRED => false
  end.

(* ================================================================== *)
(** ** Tables *)

(** [org_verification]: one row per organisation, created lazily. *)
Module org_verification.
Record row : Type := Row {
  id : Z;
  organisation_id : option Z;
  dhash : option string;
  orgtype : orgtype_status;
  mgrinfo : option mgrinfo_status;
  accepted : bool;
  deleted : bool
}.
End org_verification.

(** [org_commission]; dates are day numbers. *)
Module org_commission.
Record row : Type := Row {
  id : Z;
  organisation_id : option Z;
  date : option Z;
  end_date : option Z;
  status : commission_status;
  prev_status : option commission_status;
  status_date : option Z;
  status_reason : option string;
  deleted : bool
}.
End org_commission.

(** [org_site_approval]: the current approval details of a site. *)
Module org_site_approval.
Record row : Type := Row {
  id : Z;
  organisation_id : option Z;
  site_id : Z;
  dhash : option string;
  status : approval_status;
  mpav : review_status;
  hygiene : review_status;
  layout : review_status;
  public : yesno;
  public_reason : option string;
  advice : option string;
  deleted : bool
}.
End org_site_approval.

(** [org_site_approval_status]: the approval history of a site. *)
Module org_site_approval_status.
Record row : Type := Row {
  id : Z;
  site_id : Z;
  timestmp : Z;
  status : approval_status;
  mpav : review_status;
  hygiene : review_status;
  layout : review_status;
  public : yesno;
  public_reason : option string;
  advice : option string;
  deleted : bool
}.
End org_site_approval_status.

(** The columns of [org_facility] that the workflow reads. *)
Module org_facility.
Record row : Type := Row {
  id : Z;
  site_id : Z;
  organisation_id : option Z;
  location_id : option Z;
  deleted : bool
}.
End org_facility.

(** The columns of [gis_location] that [TestStation.vhash] reads. *)
Module gis_location.
Record row : Type := Row {
  id : Z;
  parent : option Z;
  addr_street : option string;
  addr_postcode : option string;
  deleted : bool
}.
End gis_location.

(** [org_organisation_organisation_type]: organisation/type links. *)
Module org_organisation_organisation_type.
Record row : Type := Row {
  organisation_id : option Z;
  organisation_type_id : Z;
  deleted : bool
}.
End org_organisation_organisation_type.

(** [org_organisation_type_tag]. *)
Module org_organisation_type_tag.
Record row : Type := Row {
  organisation_type_id : Z;
  tag : option string;
  value : option string;
  deleted : bool
}.
End org_organisation_type_tag.

(** The rows of the staff query of [check_mgrinfo]: a staff record
    ([hrm_human_resource]) joined with its person ([pr_person]) and
    left-joined with its REGFORM, CRC, SCP and DHASH tags. A tag column
    is [None] when the tag row is missing, else the tag's value.
    [has_contact] is the result of the contact-detail query for the
    person. [date_of_birth] holds [dob.isoformat()]. *)
Module hrm_human_resource.
Record row : Type := Row {
  id : Z;
  organisation_id : option Z;
  org_contact : bool;
  status : Z;
  deleted : bool;
  first_name : option string;
  last_name : option string;
  date_of_birth : option string;
  has_contact : bool;
  reg_tag : option string;
  crc_tag : option string;
  scp_tag : option string;
  dsh_tag : option string
}.
End hrm_human_resource.

(** The database. [teststations] lists the organisations for which
    [is_org_group(organisation_id, TESTSTATIONS)] holds (a helper and a
    constant of the template that this module imports). *)
Record database : Type := Database {
  verification_rows : list org_verification.row;
  commission_rows : list org_commission.row;
  approval_rows : list org_site_approval.row;
  history_rows : list org_site_approval_status.row;
  facility_rows : list org_facility.row;
  location_rows : list gis_location.row;
  type_link_rows : list org_organisation_organisation_type.row;
  type_tag_rows : list org_organisation_type_tag.row;
  staff_rows : list hrm_human_resource.row;
  teststations : list Z
}.

Definition set_verification_rows (db : database)
    (rows : list org_verification.row) : database :=
  Database rows (commission_rows db) (approval_rows db) (history_rows db)
    (facility_rows db) (location_rows db) (type_link_rows db)
    (type_tag_rows db) (staff_rows db) (teststations db).

Definition set_commission_rows (db : database)
    (rows : list org_commission.row) : database :=
  Database (verification_rows db) rows (approval_rows db) (history_rows db)
    (facility_rows db) (location_rows db) (type_link_rows db)
    (type_tag_rows db) (staff_rows db) (teststations db).

Definition set_approval_rows (db : database)
    (rows : list org_site_approval.row) : database :=
  Database (verification_rows db) (commission_rows db) rows (history_rows db)
    (facility_rows db) (location_rows db) (type_link_rows db)
    (type_tag_rows db) (staff_rows db) (teststations db).

Definition set_history_rows (db : database)
    (rows : list org_site_approval_status.row) : database :=
  Database (verification_rows db) (commission_rows db) (approval_rows db) rows
    (facility_rows db) (location_rows db) (type_link_rows db)
    (type_tag_rows db) (staff_rows db) (teststations db).

Definition set_staff_rows (db : database)
    (rows : list hrm_human_resource.row) : database :=
  Database (verification_rows db) (commission_rows db) (approval_rows db)
    (history_rows db) (facility_rows db) (location_rows db)
    (type_link_rows db) (type_tag_rows db) rows (teststations db).

(** The request: [utcnow] in seconds, whether the user has the
    ORG_GROUP_ADMIN role, and the default of [org_commission.date]
    (declared as [s3_date(default="now")]). *)
Record request : Type := Request {
  utcnow : Z;
  org_group_admin : bool;
  commission_date_default : option Z
}.

(** [current.request.utcnow.date()]. *)
Definition today (current : request) : Z := utcnow current / 86400.

(** Optional assignments to a verification record: the dictionaries
    built by [verification_defaults], [vhash] and
    [update_verification]. *)
Record verification_update : Type := VerificationUpdate {
  vu_orgtype : option orgtype_status;
  vu_mgrinfo : option (option mgrinfo_status);
  vu_accepted : option bool;
  vu_dhash : option string
}.

(** [bool(update)] for such a dictionary. *)
Definition verification_update_nonempty (u : verification_update) : bool :=
  is_some (vu_orgtype u) || is_some (vu_mgrinfo u) ||
  is_some (vu_accepted u) || is_some (vu_dhash u).

Definition or_else {A : Type} (o : option A) (a : A) : A :=
  match o with Some x => x | None => a end.

(** [verification.update_record] with the assignments of [u]. *)
Definition apply_verification_update (u : verification_update)
    (v : org_verification.row) : org_verification.row :=
  org_verification.Row
    (org_verification.id v)
    (org_verification.organisation_id v)
    (match vu_dhash u with Some h => Some h | None => org_verification.dhash v end)
    (or_else (vu_orgtype u) (org_verification.orgtype v))
    (or_else (vu_mgrinfo u) (org_verification.mgrinfo v))
    (or_else (vu_accepted u) (org_verification.accepted v))
    (org_verification.deleted v).

(** [orgtype in ("ACCEPT", "VERIFIED")]. *)
Definition orgtype_ok (s : orgtype_status) : bool :=
  match s with
  | OT_ACCEPT | OT_VERIFIED => true
  | OT_NA | OT_NV => false
  end.

(** [mgrinfo in ("ACCEPT", "COMPLETE")]; [mgrinfo] is [None] when
    [check_mgrinfo] returned without a status. *)
Definition mgrinfo_ok (s : option mgrinfo_status) : bool :=
  match s with
  | Some MI_ACCEPT | Some MI_COMPLETE => true
  | _ => false
  end.

(* ================================================================== *)
(** ** TestProvider: properties and the verification record *)

Module TestProviderData.
Section Provider.
Variable sha256_hexdigest : string -> string.
Variable current : request.

(** The rows of the type/tag query of [types]: the links of the
    organisation, each left-joined with the tags of its type. *)
Definition type_tag_query (db : database) (organisation_id : option Z)
  : list (Z * option string * option string) :=
  flat_map
    (fun l =>
       if ref_eqb (org_organisation_organisation_type.organisation_id l)
                  organisation_id
          && negb (org_organisation_organisation_type.deleted l)
       then
         let type_id := org_organisation_organisation_type.organisation_type_id l in
         let tags :=
           filter (fun t =>
                     (org_organisation_type_tag.organisation_type_id t =? type_id)
                     && negb (org_organisation_type_tag.deleted t))
                  (type_tag_rows db) in
         match tags with
         | [] => [(type_id, None, None)]
         | _ :: _ =>
             map (fun t => (type_id,
                            org_organisation_type_tag.tag t,
                            org_organisation_type_tag.value t)) tags
         end
       else [])
    (type_link_rows db).

(** [types]: [{type_id: {tag: value}}]. *)
Definition types (db : database) (organisation_id : option Z)
  : list (Z * list (string * option string)) :=
  fold_left
    (fun acc row =>
       let '(type_id, tag, value) := row in
       let tags := or_else (dict_get Z.eqb acc type_id) [] in
       let tags' :=
         match tag with
         | Some name =>
             if str_truthy tag then dict_set String.eqb tags name value
             else tags
         | None => tags
         end in
       dict_set Z.eqb acc type_id tags')
    (type_tag_query db organisation_id) [].

(** [any(types[t].get(tag) == "Y" for t in types)]. *)
Definition any_type_tag (db : database) (organisation_id : option Z)
    (tag : string) : bool :=
  existsb
    (fun entry =>
       match dict_get String.eqb (snd entry) tag with
       | Some (Some v) => (v =? "Y")%string
       | _ => false
       end)
    (types db organisation_id).

Definition commercial (db : database) (organisation_id : option Z) : bool :=
  any_type_tag db organisation_id "Commercial".

Definition verifreq (db : database) (organisation_id : option Z) : bool :=
  any_type_tag db organisation_id "VERIFREQ".

Definition minforeq (db : database) (organisation_id : option Z) : bool :=
  any_type_tag db organisation_id "MINFOREQ".

(** [current_commission]: the commission with status CURRENT that is
    valid today, the latest start date first (a missing start date
    last, the earlier row on a tie). *)
Definition current_commission_query (organisation_id : option Z)
    (c : org_commission.row) : bool :=
  ref_eqb (org_commission.organisation_id c) organisation_id
  && commission_status_eqb (org_commission.status c) CURRENT
  && (is_none (org_commission.date c)
      || sql_le (org_commission.date c) (Some (today current)))
  && (is_none (org_commission.end_date c)
      || sql_ge (org_commission.end_date c) (Some (today current)))
  && negb (org_commission.deleted c).

Definition starts_later (c best : org_commission.row) : bool :=
  match org_commission.date c, org_commission.date best with
  | Some a, Some b => b <? a
  | Some _, None => true
  | None, _ => false
  end.

Definition current_commission (db : database) (organisation_id : option Z)
  : option org_commission.row :=
  fold_left
    (fun best c =>
       if current_commission_query organisation_id c then
         match best with
         | None => Some c
         | Some b => if starts_later c b then Some c else best
         end
       else best)
    (commission_rows db) None.

(** [lookup_verification()] with the default query. *)
Definition lookup_verification (db : database) (organisation_id : option Z)
  : option org_verification.row :=
  find (fun v => ref_eqb (org_verification.organisation_id v) organisation_id
                 && negb (org_verification.deleted v))
       (verification_rows db).

(** [lookup_verification(table.id == record_id)]. *)
Definition lookup_verification_by_id (db : database) (record_id : Z)
  : option org_verification.row :=
  find (fun v => org_verification.id v =? record_id) (verification_rows db).

(** [reset_all(tags)]: every tag that exists is set to N/A. *)
Definition reset_tag (tag : option string) : option string :=
  match tag with
  | Some _ => Some "N/A"%string
  | None => None
  end.

Definition reset_all (m : hrm_human_resource.row) : hrm_human_resource.row :=
  hrm_human_resource.Row
    (hrm_human_resource.id m) (hrm_human_resource.organisation_id m)
    (hrm_human_resource.org_contact m) (hrm_human_resource.status m)
    (hrm_human_resource.deleted m) (hrm_human_resource.first_name m)
    (hrm_human_resource.last_name m) (hrm_human_resource.date_of_birth m)
    (hrm_human_resource.has_contact m)
    (reset_tag (hrm_human_resource.reg_tag m))
    (reset_tag (hrm_human_resource.crc_tag m))
    (reset_tag (hrm_human_resource.scp_tag m))
    (hrm_human_resource.dsh_tag m).

Definition set_dsh_tag (m : hrm_human_resource.row) (tag : option string)
  : hrm_human_resource.row :=
  hrm_human_resource.Row
    (hrm_human_resource.id m) (hrm_human_resource.organisation_id m)
    (hrm_human_resource.org_contact m) (hrm_human_resource.status m)
    (hrm_human_resource.deleted m) (hrm_human_resource.first_name m)
    (hrm_human_resource.last_name m) (hrm_human_resource.date_of_birth m)
    (hrm_human_resource.has_contact m)
    (hrm_human_resource.reg_tag m) (hrm_human_resource.crc_tag m)
    (hrm_human_resource.scp_tag m) tag.

Definition tag_approved (tag : option string) : bool :=
  ostr_eqb tag (Some "APPROVED"%string).

(** The body of the loop of [check_mgrinfo] for one manager: the
    manager's row after the checks, and whether the documentation of
    this manager is complete. *)
Definition check_manager (m : hrm_human_resource.row)
  : hrm_human_resource.row * bool :=
  let vhash :=
    get_dhash sha256_hexdigest
      [of_opt PyStr (hrm_human_resource.first_name m);
       of_opt PyStr (hrm_human_resource.last_name m);
       of_opt PyStr (hrm_human_resource.date_of_birth m)] in
  let verified := is_some (hrm_human_resource.dsh_tag m) in
  (* Must have DoB *)
  let '(m1, accepted1) :=
    if is_some (hrm_human_resource.date_of_birth m) then (m, true)
    else (reset_all m, false) in
  (* Must have at least one contact detail *)
  let accepted2 := accepted1 && hrm_human_resource.has_contact m in
  (* Do the data still match the verification hash? *)
  let '(m3, accepted3) :=
    if accepted2 && verified
         && negb (ostr_eqb (hrm_human_resource.dsh_tag m) (Some vhash))
    then
      if org_group_admin current then (set_dsh_tag m1 (Some vhash), accepted2)
      else (reset_all m1, false)
    else (m1, accepted2) in
  (* Check approval status for documentation *)
  if accepted3
     && tag_approved (hrm_human_resource.reg_tag m3)
     && tag_approved (hrm_human_resource.crc_tag m3)
     && tag_approved (hrm_human_resource.scp_tag m3)
  then
    ((if verified then m3 else set_dsh_tag m3 (Some vhash)), true)
  else
    ((if verified then set_dsh_tag m3 None else m3), false).

Definition is_org_group (db : database) (organisation_id : option Z) : bool :=
  match organisation_id with
  | Some o => existsb (Z.eqb o) (teststations db)
  | None => false
  end.

Definition manager_query (organisation_id : option Z)
    (m : hrm_human_resource.row) : bool :=
  ref_eqb (hrm_human_resource.organisation_id m) organisation_id
  && hrm_human_resource.org_contact m
  && (hrm_human_resource.status m =? 1)
  && negb (hrm_human_resource.deleted m).

(** [check_mgrinfo()]: [None] outside the TESTSTATIONS group, else
    N/A, REVISE or COMPLETE. *)
Definition check_mgrinfo (db : database) (organisation_id : option Z)
  : option mgrinfo_status * database :=
  if negb (is_org_group db organisation_id) then (None, db)
  else
    let selected := manager_query organisation_id in
    if existsb selected (staff_rows db) then
      let rows :=
        map (fun m => if selected m then fst (check_manager m) else m)
            (staff_rows db) in
      let complete :=
        existsb (fun m => selected m && snd (check_manager m))
                (staff_rows db) in
      (Some (if complete then MI_COMPLETE else MI_REVISE),
       set_staff_rows db rows)
    else (Some MI_NA, db).

(** [verification_defaults()]: the defaults and the database after
    the manager check, if one was needed. *)
Definition verification_defaults (db : database) (organisation_id : option Z)
  : verification_update * database :=
  let orgtype :=
    match types db organisation_id with
    | _ :: _ => if verifreq db organisation_id then OT_NV else OT_ACCEPT
    | [] => OT_NA
    end in
  let '(mgrinfo, db') :=
    if minforeq db organisation_id then check_mgrinfo db organisation_id
    else (Some MI_ACCEPT, db) in
  let accepted := orgtype_ok orgtype && mgrinfo_ok mgrinfo in
  (VerificationUpdate (Some orgtype) (Some mgrinfo) (Some accepted) None,
   db').

(** [add_verification_defaults()]: the inserted row and the
    database. The row is returned as inserted; looking it up by its
    new key gives the same row ([add_verification_defaults_stored]). *)
Definition add_verification_defaults (db : database)
    (organisation_id : option Z)
  : org_verification.row * database :=
  let '(data, db1) := verification_defaults db organisation_id in
  let record_id := next_id (map org_verification.id (verification_rows db1)) in
  let inserted :=
    apply_verification_update data
      (org_verification.Row record_id organisation_id None OT_NA
         (Some MI_NA) false false) in
  (inserted,
   set_verification_rows db1 (verification_rows db1 ++ [inserted])).

(** The [verification] property of a fresh [TestProvider]. *)
Definition verification (db : database) (organisation_id : option Z)
  : org_verification.row * database :=
  match lookup_verification db organisation_id with
  | Some v => (v, db)
  | None => add_verification_defaults db organisation_id
  end.

(** The string hashed by [vhash]: the sorted type IDs, joined. *)
Definition types_string (db : database) (organisation_id : option Z) : string :=
  String.concat "|"
    (map (fun x => py_str (PyInt x))
         (sorted (map fst (types db organisation_id)))).

(** [vhash()], given the verification record of the provider. *)
Definition vhash (db : database) (organisation_id : option Z)
    (v : org_verification.row)
  : (option verification_update * string) * database :=
  let vh :=
    get_dhash sha256_hexdigest
      [PyStrList [types_string db organisation_id]] in
  if negb (ostr_eqb (Some vh) (org_verification.dhash v)) then
    let '(defaults, db') := verification_defaults db organisation_id in
    ((Some (VerificationUpdate (vu_orgtype defaults) (vu_mgrinfo defaults)
                               (vu_accepted defaults) (Some vh)),
      vh), db')
  else ((None, vh), db).
End Provider.
End TestProviderData.

(* ================================================================== *)
(** ** TestStation *)

(** Optional assignments to an approval record: the dictionaries built
    by [TestStation.vhash], [approval_workflow], [update_approval] and
    [update_all]. *)
Record approval_update : Type := ApprovalUpdate {
  au_public : option yesno;
  au_status : option approval_status;
  au_mpav : option review_status;
  au_hygiene : option review_status;
  au_layout : option review_status;
  au_public_reason : option (option string);
  au_dhash : option (option string)
}.

(** [{}]. *)
Definition no_update : approval_update :=
  ApprovalUpdate None None None None None None None.

Definition set_au_public (u : approval_update) (v : option yesno)
  : approval_update :=
  ApprovalUpdate v (au_status u) (au_mpav u) (au_hygiene u) (au_layout u)
    (au_public_reason u) (au_dhash u).

Definition set_au_public_reason (u : approval_update)
    (v : option (option string)) : approval_update :=
  ApprovalUpdate (au_public u) (au_status u) (au_mpav u) (au_hygiene u)
    (au_layout u) v (au_dhash u).

Definition set_au_dhash (u : approval_update) (v : option (option string))
  : approval_update :=
  ApprovalUpdate (au_public u) (au_status u) (au_mpav u) (au_hygiene u)
    (au_layout u) (au_public_reason u) v.

(** [approval.update_record] with the assignments of [u]. *)
Definition apply_approval_update (u : approval_update)
    (a : org_site_approval.row) : org_site_approval.row :=
  org_site_approval.Row
    (org_site_approval.id a)
    (org_site_approval.organisation_id a)
    (org_site_approval.site_id a)
    (or_else (au_dhash u) (org_site_approval.dhash a))
    (or_else (au_status u) (org_site_approval.status a))
    (or_else (au_mpav u) (org_site_approval.mpav a))
    (or_else (au_hygiene u) (org_site_approval.hygiene a))
    (or_else (au_layout u) (org_site_approval.layout a))
    (or_else (au_public u) (org_site_approval.public a))
    (or_else (au_public_reason u) (org_site_approval.public_reason a))
    (org_site_approval.advice a)
    (org_site_approval.deleted a).

(** [public_reason in ("NEW", "COMMISSION", "REVISE", "REVIEW")]. *)
Definition automatic_reason (reason : option string) : bool :=
  match reason with
  | Some r =>
      ((r =? "NEW") || (r =? "COMMISSION") || (r =? "REVISE")
       || (r =? "REVIEW"))%string
  | None => false
  end.

(** The methods take the site ID of the station, as in
    [TestStation(site_id)]; the construction from a facility ID is not
    modelled. Site IDs are record keys, hence not zero. *)
Module TestStation.
Section Station.
Variable sha256_hexdigest : string -> string.
Variable current : request.

(** The [record] property of [TestStation(site_id)]: the facility. *)
Definition record (db : database) (site_id : Z) : option org_facility.row :=
  find (fun f => (org_facility.site_id f =? site_id)
                 && negb (org_facility.deleted f))
       (facility_rows db).

(** The [organisation_id] property. *)
Definition organisation_id (db : database) (site_id : Z) : option Z :=
  match record db site_id with
  | Some f => org_facility.organisation_id f
  | None => None
  end.

(** [lookup_approval()] with the default query. *)
Definition lookup_approval (db : database) (site_id : Z)
  : option org_site_approval.row :=
  find (fun a => (org_site_approval.site_id a =? site_id)
                 && negb (org_site_approval.deleted a))
       (approval_rows db).

(** [lookup_approval(table.id == record_id)]. *)
Definition lookup_approval_by_id (db : database) (record_id : Z)
  : option org_site_approval.row :=
  find (fun a => org_site_approval.id a =? record_id) (approval_rows db).

(** [add_approval_defaults()]: the inserted row and the database. The
    row is returned as inserted; looking it up by its new key gives the
    same row ([add_approval_defaults_stored]). *)
Definition add_approval_defaults (db : database) (site_id : Z)
  : org_site_approval.row * database :=
  let record_id := next_id (map org_site_approval.id (approval_rows db)) in
  let inserted :=
    org_site_approval.Row record_id (organisation_id db site_id) site_id
      None REVISE RV_REVISE RV_REVISE RV_REVISE N (Some "NEW"%string)
      None false in
  (inserted, set_approval_rows db (approval_rows db ++ [inserted])).

(** The [approval] property of a fresh [TestStation(site_id)]. *)
Definition approval (db : database) (site_id : Z)
  : org_site_approval.row * database :=
  match lookup_approval db site_id with
  | Some a => (a, db)
  | None => add_approval_defaults db site_id
  end.

(** The location hash of [vhash]. *)
Definition location_hash (db : database) (facility : org_facility.row)
  : string :=
  match
    find (fun l => ref_eqb (Some (gis_location.id l))
                           (org_facility.location_id facility)
                   && negb (gis_location.deleted l))
         (location_rows db)
  with
  | Some location =>
      get_dhash sha256_hexdigest
        [PyInt (gis_location.id location);
         of_opt PyInt (gis_location.parent location);
         of_opt PyStr (gis_location.addr_street location);
         of_opt PyStr (gis_location.addr_postcode location)]
  | None =>
      get_dhash sha256_hexdigest [PyNone; PyNone; PyNone; PyNone]
  end.

Definition demote (value : review_status) : option review_status :=
  match value with
  | RV_APPROVED => Some RV_REVIEW
  | _ => None
  end.

(** The update of [vhash] when relevant data have changed. *)
Definition integrity_update (a : org_site_approval.row) : approval_update :=
  let status :=
    if review_eqb (org_site_approval.mpav a) RV_REVISE
       || review_eqb (org_site_approval.hygiene a) RV_REVISE
       || review_eqb (org_site_approval.layout a) RV_REVISE
    then REVISE else REVIEW in
  ApprovalUpdate (Some N) (Some status)
    (demote (org_site_approval.mpav a))
    (demote (org_site_approval.hygiene a))
    (demote (org_site_approval.layout a))
    None None.

(** The check of [vhash] against the current dhash. *)
Definition integrity_check (a : org_site_approval.row) (vh : string)
  : option approval_update :=
  if approval_status_eqb (org_site_approval.status a) APPROVED
     && str_truthy (org_site_approval.dhash a)
     && negb (ostr_eqb (org_site_approval.dhash a) (Some vh))
     && negb (org_group_admin current)
  then Some (integrity_update a)
  else None.

(** [vhash()], given the approval record of the station; raises when
    the facility record is missing. *)
Definition vhash (db : database) (site_id : Z) (a : org_site_approval.row)
  : outcome (option approval_update * string) :=
  match record db site_id with
  | None => Raise AttributeError
  | Some facility =>
      let vh := location_hash db facility in
      Return (integrity_check a vh, vh)
  end.

Definition all_tags (a : org_site_approval.row) (v : review_status) : bool :=
  review_eqb (org_site_approval.mpav a) v
  && review_eqb (org_site_approval.hygiene a) v
  && review_eqb (org_site_approval.layout a) v.

Definition any_tags (a : org_site_approval.row) (v : review_status) : bool :=
  review_eqb (org_site_approval.mpav a) v
  || review_eqb (org_site_approval.hygiene a) v
  || review_eqb (org_site_approval.layout a) v.

Definition revise_to_review (value : review_status) : option review_status :=
  match value with
  | RV_REVISE => Some RV_REVIEW
  | _ => None
  end.

(** [approval_workflow()]: the update and the notify flag. *)
Definition approval_workflow (tags : org_site_approval.row)
  : approval_update * bool :=
  let upd public status :=
    ApprovalUpdate public status None None None None None in
  match org_site_approval.status tags with
  | REVISE =>
      if all_tags tags RV_APPROVED then (upd (Some Y) (Some APPROVED), true)
      else if any_tags tags RV_REVIEW then (upd (Some N) (Some REVIEW), false)
      else (upd (Some N) None, false)
  | READY =>
      if all_tags tags RV_APPROVED then
        (ApprovalUpdate (Some N) (Some REVIEW) (Some RV_REVIEW)
           (Some RV_REVIEW) (Some RV_REVIEW) None None, false)
      else
        (ApprovalUpdate (Some N) (Some REVIEW)
           (revise_to_review (org_site_approval.mpav tags))
           (revise_to_review (org_site_approval.hygiene tags))
           (revise_to_review (org_site_approval.layout tags))
           None None, false)
  | REVIEW =>
      if all_tags tags RV_APPROVED then (upd (Some Y) (Some APPROVED), true)
      else if any_tags tags RV_REVIEW then (upd (Some N) None, false)
      else if any_tags tags RV_REVISE then (upd (Some N) (Some REVISE), true)
      else (no_update, false)
  | APPROVED =>
      if any_tags tags RV_REVIEW then (upd (Some N) (Some REVIEW), false)
      else if any_tags tags RV_REVISE then (upd (Some N) (Some REVISE), true)
      else (no_update, false)
  end.

(** "Set/unset reason for public-status". *)
Definition set_public_reason (a : org_site_approval.row) (commissioned : bool)
    (update : approval_update) : approval_update :=
  match au_public update with
  | Some N =>
      match au_status update with
      | Some REVISE => set_au_public_reason update (Some (Some "REVISE"%string))
      | _ => set_au_public_reason update (Some (Some "REVIEW"%string))
      end
  | other =>
      if is_some other || yesno_eqb (org_site_approval.public a) Y then
        if commissioned then set_au_public_reason update (Some None)
        else set_au_public_reason (set_au_public update (Some N))
               (Some (Some "COMMISSION"%string))
      else update
  end.

(** "Public=N with non-automatic reason must not be overwritten". *)
Definition keep_manual_unlisting (a : org_site_approval.row)
    (update : approval_update) : approval_update :=
  if yesno_eqb (org_site_approval.public a) N
     && negb (automatic_reason (org_site_approval.public_reason a))
  then set_au_public_reason (set_au_public update None) None
  else update.

(** "Set data hash when approved". *)
Definition set_data_hash (a : org_site_approval.row) (vh : string)
    (update : approval_update) : approval_update :=
  let status := or_else (au_status update) (org_site_approval.status a) in
  set_au_dhash update
    (Some (if approval_status_eqb status APPROVED then Some vh else None)).

(** The last entry of the history of a site: the latest timestamp
    first (the earlier row on a tie). *)
Definition last_entry (db : database) (site_id : Z)
  : option org_site_approval_status.row :=
  fold_left
    (fun best h =>
       if (org_site_approval_status.site_id h =? site_id)
          && negb (org_site_approval_status.deleted h)
       then
         match best with
         | None => Some h
         | Some b =>
             if org_site_approval_status.timestmp b
                <? org_site_approval_status.timestmp h
             then Some h else best
         end
       else best)
    (history_rows db) None.

(** [any(prev[fn] != approval[fn] for fn in status_fields)]. *)
Definition status_changed (prev : org_site_approval_status.row)
    (a : org_site_approval.row) : bool :=
  negb (approval_status_eqb (org_site_approval_status.status prev)
                            (org_site_approval.status a))
  || negb (review_eqb (org_site_approval_status.mpav prev)
                      (org_site_approval.mpav a))
  || negb (review_eqb (org_site_approval_status.hygiene prev)
                      (org_site_approval.hygiene a))
  || negb (review_eqb (org_site_approval_status.layout prev)
                      (org_site_approval.layout a))
  || negb (yesno_eqb (org_site_approval_status.public prev)
                     (org_site_approval.public a))
  || negb (ostr_eqb (org_site_approval_status.public_reason prev)
                    (org_site_approval.public_reason a))
  || negb (ostr_eqb (org_site_approval_status.advice prev)
                    (org_site_approval.advice a)).

(** A history row with the status fields of the approval record. *)
Definition snapshot (id site_id timestmp : Z) (deleted : bool)
    (a : org_site_approval.row) : org_site_approval_status.row :=
  org_site_approval_status.Row id site_id timestmp
    (org_site_approval.status a) (org_site_approval.mpav a)
    (org_site_approval.hygiene a) (org_site_approval.layout a)
    (org_site_approval.public a) (org_site_approval.public_reason a)
    (org_site_approval.advice a) deleted.

(** [update_approval_history()], given the approval record of the
    station. *)
Definition update_approval_history (db : database) (site_id : Z)
    (a : org_site_approval.row) : database :=
  let prev := last_entry db site_id in
  let changed :=
    match prev with
    | None => true
    | Some p => status_changed p a
    end in
  if changed then
    let timestmp := utcnow current in
    match prev with
    | Some p =>
        if org_site_approval_status.timestmp p =? timestmp then
          (* update existing history entry *)
          set_history_rows db
            (map (fun h =>
                    if org_site_approval_status.id h
                       =? org_site_approval_status.id p
                    then snapshot (org_site_approval_status.id h) site_id
                           (org_site_approval_status.timestmp h)
                           (org_site_approval_status.deleted h) a
                    else h)
                 (history_rows db))
        else
          set_history_rows db
            (history_rows db ++
             [snapshot
                (next_id (map org_site_approval_status.id (history_rows db)))
                site_id timestmp false a])
    | None =>
        set_history_rows db
          (history_rows db ++
           [snapshot
              (next_id (map org_site_approval_status.id (history_rows db)))
              site_id timestmp false a])
    end
  else db.

(** [approval.update_record]: the row with the key of the record. *)
Definition update_record (db : database) (record_id : Z)
    (update : approval_update) : database :=
  set_approval_rows db
    (map (fun a => if org_site_approval.id a =? record_id
                   then apply_approval_update update a else a)
         (approval_rows db)).

(** The update that [update_approval] writes, from the approval
    record, the integrity check, the location hash and the
    commission flag; and the notify flag. *)
Definition approval_update_of (a : org_site_approval.row)
    (integrity : option approval_update) (vh : string)
    (commissioned : bool) : approval_update * bool :=
  let '(update, notify) :=
    match integrity with
    | Some u => (u, false)
    | None => approval_workflow a
    end in
  let update := set_public_reason a commissioned update in
  let update := keep_manual_unlisting a update in
  (set_data_hash a vh update, notify).

(** [update_approval(commissioned)] for [TestStation(site_id)];
    [commissioned = None] is the omitted argument. The update always
    holds the key [dhash], so the record is always written and the
    history always checked. *)
Definition update_approval (db : database) (site_id : Z)
    (commissioned : option bool) : outcome database :=
  let '(a, db1) := approval db site_id in
  match record db1 site_id with
  | None => Raise AttributeError
  | Some facility =>
      let commissioned :=
        match commissioned with
        | Some b => b
        | None =>
            if ref_truthy (org_facility.organisation_id facility) then
              is_some (TestProviderData.current_commission current db1
                         (org_facility.organisation_id facility))
            else false
        end in
      ' (integrity, vh) <- vhash db1 site_id a ;;
      let '(update, _) := approval_update_of a integrity vh commissioned in
      let db2 := update_record db1 (org_site_approval.id a) update in
      Return (update_approval_history db2 site_id
                (apply_approval_update update a))
  end.

(** The rows that [update_all] changes. *)
Definition update_all_query (organisation_id : option Z) (public : yesno)
    (reason : option string) (a : org_site_approval.row) : bool :=
  ref_eqb (org_site_approval.organisation_id a) organisation_id
  && negb (yesno_eqb (org_site_approval.public a) public)
  && match public with
     | Y =>
         approval_status_eqb (org_site_approval.status a) APPROVED
         && review_eqb (org_site_approval.mpav a) RV_APPROVED
         && review_eqb (org_site_approval.hygiene a) RV_APPROVED
         && review_eqb (org_site_approval.layout a) RV_APPROVED
         && ostr_eqb (org_site_approval.public_reason a) reason
     | N => true
     end
  && negb (org_site_approval.deleted a).

(** [update_all(organisation_id, public, reason)]: the number of
    updated rows and the database. [public] and [reason] are given and
    [reason] is one code, as in all calls of this module; a list of
    reason codes is not modelled. *)
Definition update_all (db : database) (organisation_id : option Z)
    (public : yesno) (reason : option string) : outcome (Z * database) :=
  if yesno_eqb public N && negb (str_truthy reason) then Raise RuntimeError
  else
    let query := update_all_query organisation_id public reason in
    let update :=
      match public with
      | Y => ApprovalUpdate (Some Y) None None None None (Some None) None
      | N => ApprovalUpdate (Some N) None None None None (Some reason) None
      end in
    let rows := filter query (approval_rows db) in
    let db1 :=
      set_approval_rows db
        (map (fun a => if query a then apply_approval_update update a else a)
             (approval_rows db)) in
    let db2 :=
      fold_left
        (fun d row =>
           let site_id := org_site_approval.site_id row in
           let '(a, d1) := approval d site_id in
           update_approval_history d1 site_id a)
        rows db1 in
    Return (Z.of_nat (List.length rows), db2).
End Station.
End TestStation.

(* ================================================================== *)
(** ** TestProvider: commission cascade and verification update *)

(** [status], [status_date] and [status_reason] of a commission as the
    bulk updates of [suspend_commission] / [reinstate_commission]
    write them. *)
Definition set_commission_status (c : org_commission.row)
    (status : commission_status) (status_date : option Z)
    (status_reason : option string) : org_commission.row :=
  org_commission.Row
    (org_commission.id c) (org_commission.organisation_id c)
    (org_commission.date c) (org_commission.end_date c)
    status (org_commission.prev_status c) status_date status_reason
    (org_commission.deleted c).

Module TestProvider.
Include TestProviderData.
Section Cascade.
Variable sha256_hexdigest : string -> string.
Variable current : request.

Definition suspend_query (organisation_id : option Z)
    (c : org_commission.row) : bool :=
  ref_eqb (org_commission.organisation_id c) organisation_id
  && commission_status_eqb (org_commission.status c) CURRENT
  && negb (org_commission.deleted c).

(** [suspend_commission(reason)]. *)
Definition suspend_commission (db : database) (organisation_id : option Z)
    (reason : string) : outcome database :=
  if negb (truthy (PyStr reason)) then Raise RuntimeError
  else
    let db1 :=
      set_commission_rows db
        (map (fun c =>
                if suspend_query organisation_id c
                then set_commission_status c SUSPENDED
                       (Some (today current)) (Some reason)
                else c)
             (commission_rows db)) in
    ' (_, db2) <- TestStation.update_all current db1 organisation_id N
                    (Some "COMMISSION"%string) ;;
    Return db2.

Definition reinstate_query (organisation_id : option Z) (reason : string)
    (c : org_commission.row) : bool :=
  ref_eqb (org_commission.organisation_id c) organisation_id
  && commission_status_eqb (org_commission.status c) SUSPENDED
  && ostr_eqb (org_commission.status_reason c) (Some reason)
  && negb (org_commission.deleted c).

(** [reinstate_commission(reason)]. *)
Definition reinstate_commission (db : database) (organisation_id : option Z)
    (reason : string) : outcome database :=
  if negb (truthy (PyStr reason)) then Raise RuntimeError
  else
    let db1 :=
      set_commission_rows db
        (map (fun c =>
                if reinstate_query organisation_id reason c
                then set_commission_status c CURRENT
                       (Some (today current)) None
                else c)
             (commission_rows db)) in
    ' (_, db2) <- TestStation.update_all current db1 organisation_id Y
                    (Some "COMMISSION"%string) ;;
    Return db2.

(** [verification.update_record]: the row with the key of the
    record. *)
Definition update_record (db : database) (record_id : Z)
    (update : verification_update) : database :=
  set_verification_rows db
    (map (fun v => if org_verification.id v =? record_id
                   then apply_verification_update update v else v)
         (verification_rows db)).

(** The first part of [update_verification]: the update of the
    verification record. Returns the record as read, the update
    (if any), the [accepted] flag that drives the cascade, and the
    database before the record is written. *)
Definition verification_update_of (db : database)
    (organisation_id : option Z)
  : (org_verification.row * option verification_update * bool) * database :=
  let '(v, db1) := verification sha256_hexdigest current db organisation_id in
  let '((changed, _), db2) :=
    vhash sha256_hexdigest current db1 organisation_id v in
  match changed with
  | Some update => ((v, Some update, org_verification.accepted v), db2)
  | None =>
      let orgtype := org_verification.orgtype v in
      let '(mgrinfo, db3) :=
        if minforeq db2 organisation_id
        then check_mgrinfo sha256_hexdigest current db2 organisation_id
        else (Some MI_ACCEPT, db2) in
      let accepted := orgtype_ok orgtype && mgrinfo_ok mgrinfo in
      let update :=
        VerificationUpdate None
          (if opt_eqb mgrinfo_eqb mgrinfo (org_verification.mgrinfo v)
           then None else Some mgrinfo)
          (if Bool.eqb accepted (org_verification.accepted v)
           then None else Some accepted)
          None in
      ((v, (if verification_update_nonempty update then Some update
            else None), accepted), db3)
  end.

(** [update_verification()]. *)
Definition update_verification (db : database) (organisation_id : option Z)
  : outcome database :=
  let '((v, update, accepted), db1) :=
    verification_update_of db organisation_id in
  let db2 :=
    match update with
    | Some u => update_record db1 (org_verification.id v) u
    | None => db1
    end in
  if accepted then reinstate_commission db2 organisation_id "N/V"
  else suspend_commission db2 organisation_id "N/V".
End Cascade.
End TestProvider.

(* ================================================================== *)
(** ** TestProviderModel: the commission form callbacks *)

(** [form.vars] of a commission form: a field is [None] when it is not
    in the form. *)
Record commission_form_vars : Type := CommissionFormVars {
  fv_organisation_id : option (option Z);
  fv_date : option (option Z);
  fv_end_date : option (option Z);
  fv_status : option commission_status;
  fv_status_reason : option (option string)
}.

(** A commission form: the key of the record ([get_form_record_id]),
    if any, and the form variables. *)
Record commission_form : Type := CommissionForm {
  form_record_id : option Z;
  form_vars : commission_form_vars
}.

(** [data] of [commission_onvalidation]. *)
Record commission_data : Type := CommissionData {
  data_organisation_id : option Z;
  data_date : option Z;
  data_end_date : option Z;
  data_status : commission_status
}.

Definition form_errors : Type := list (string * string).

Module TestProviderModel.
Section Callbacks.
Variable sha256_hexdigest : string -> string.
Variable current : request.

Definition lookup_commission (db : database) (record_id : Z)
  : option org_commission.row :=
  find (fun c => org_commission.id c =? record_id) (commission_rows db).

(** "Get record data": the form variables, else the stored values of
    the record (when the form has a record), else the table
    defaults. Raises when the record of the form is missing. *)
Definition form_data (db : database) (form : commission_form)
  : outcome commission_data :=
  let vars := form_vars form in
  let load :=
    is_none (fv_organisation_id vars) || is_none (fv_date vars)
    || is_none (fv_end_date vars) || is_none (fv_status vars) in
  let defaults :=
    CommissionData None (commission_date_default current) None CURRENT in
  let pick {A : Type} (v : option A) (stored : A) : A := or_else v stored in
  let merge (stored : commission_data) : commission_data :=
    CommissionData
      (pick (fv_organisation_id vars) (data_organisation_id stored))
      (pick (fv_date vars) (data_date stored))
      (pick (fv_end_date vars) (data_end_date stored))
      (pick (fv_status vars) (data_status stored)) in
  if load && ref_truthy (form_record_id form) then
    match lookup_commission db (or_else (form_record_id form) 0) with
    | Some c =>
        Return (merge (CommissionData (org_commission.organisation_id c)
                         (org_commission.date c)
                         (org_commission.end_date c)
                         (org_commission.status c)))
    | None => Raise TypeError
    end
  else Return (merge defaults).

(** The query for overlapping active commissions. *)
Definition overlap_query (record_id : option Z) (data : commission_data)
    (c : org_commission.row) : bool :=
  (if ref_truthy record_id
   then negb (ref_eqb (Some (org_commission.id c)) record_id) else true)
  && active_status (org_commission.status c)
  && ref_eqb (org_commission.organisation_id c) (data_organisation_id data)
  && (is_none (org_commission.end_date c)
      || sql_ge (org_commission.end_date c) (data_date data))
  && (if is_some (data_end_date data)
      then sql_le (org_commission.date c) (data_end_date data) else true)
  && negb (org_commission.deleted c).

Definition set_error (errors : form_errors) (field message : string)
  : form_errors :=
  dict_set String.eqb errors field message.

(** [commission_onvalidation(form)]: the form errors and the
    database (the verification record of the provider is created when
    it is read and does not exist). *)
Definition commission_onvalidation (db : database) (form : commission_form)
  : outcome (form_errors * database) :=
  let vars := form_vars form in
  data <- form_data db form ;;
  let organisation_id := data_organisation_id data in
  let start := data_date data in
  let end_ := data_end_date data in
  let status := data_status data in
  if is_some (fv_end_date vars)
     && is_some start && is_some end_ && sql_le end_ start
  then
    Return (set_error [] "end_date" "End date must be after start date", db)
  else if active_status status
          && existsb (overlap_query (form_record_id form) data)
                     (commission_rows db)
  then
    let error := "Date interval overlaps existing commission"%string in
    let e1 := if is_some (fv_date vars) then set_error [] "date" error
              else [] in
    let e2 := if is_some (fv_end_date vars) then set_error e1 "end_date" error
              else e1 in
    let e3 := if is_none (fv_date vars) && is_none (fv_end_date vars)
              then set_error e2 "status" error else e2 in
    Return (e3, db)
  else if is_some (fv_status vars) then
    (* CURRENT only allowed when org verification valid *)
    let '(e1, db1) :=
      if commission_status_eqb status CURRENT then
        let '(v, db') :=
          TestProvider.verification sha256_hexdigest current db
            organisation_id in
        if negb (org_verification.accepted v)
        then (set_error [] "status" "Organisation not verified", db')
        else ([], db')
      else ([], db) in
    (* CURRENT/SUSPENDED only allowed before end date *)
    if is_some end_ && sql_le end_ (Some (today current))
       && active_status status
    then Return (set_error e1 "status" "Invalid status past end date", db1)
    else
      (* SUSPENDED requires a reason *)
      let reason :=
        match fv_status_reason vars with
        | Some (Some r) => if truthy (PyStr r) then r else ""%string
        | _ => ""%string
        end in
      if commission_status_eqb status SUSPENDED
         && is_some (fv_status_reason vars)
         && (String.length (strip reason) <? 3)%nat
      then Return (set_error e1 "status_reason"
                     "Reason required for suspended-status", db1)
      else Return (e1, db1)
  else Return ([], db).

(** The update of [commission_onaccept] before the status change is
    stamped: status and status reason. Raises when the comparison of
    a missing end date with today is evaluated. *)
Definition onaccept_update (accepted : bool) (today : Z)
    (c : org_commission.row)
  : outcome (option commission_status * option (option string)) :=
  if accepted then
    match org_commission.end_date c with
    | None => Raise TypeError
    | Some end_date =>
        if end_date <? today then Return (Some EXPIRED, Some None)
        else Return (None, None)
    end
  else if commission_status_eqb (org_commission.status c) CURRENT then
    Return (Some SUSPENDED, Some (Some "N/V"%string))
  else
    match org_commission.status c with
    | CURRENT | REVOKED | EXPIRED => Return (None, Some None)
    | SUSPENDED => Return (None, None)
    end.

(** [commission_onaccept(form)]. *)
Definition commission_onaccept (db : database) (form : commission_form)
  : outcome database :=
  if negb (ref_truthy (form_record_id form)) then Return db
  else
    match lookup_commission db (or_else (form_record_id form) 0) with
    | None => Return db
    | Some c =>
        let organisation_id := org_commission.organisation_id c in
        let '(v, db1) :=
          TestProvider.verification sha256_hexdigest current db
            organisation_id in
        ' (u_status, u_reason) <-
           onaccept_update (org_verification.accepted v) (today current) c ;;
        let new_status := or_else u_status (org_commission.status c) in
        let status_change :=
          negb (opt_eqb commission_status_eqb (Some new_status)
                        (org_commission.prev_status c)) in
        let db2 :=
          if is_some u_status || is_some u_reason then
            set_commission_rows db1
              (map (fun r =>
                      if org_commission.id r =? org_commission.id c then
                        org_commission.Row
                          (org_commission.id r)
                          (org_commission.organisation_id r)
                          (org_commission.date r)
                          (org_commission.end_date r)
                          (or_else u_status (org_commission.status r))
                          (if status_change then Some new_status
                           else org_commission.prev_status r)
                          (if status_change then Some (today current)
                           else org_commission.status_date r)
                          (or_else u_reason (org_commission.status_reason r))
                          (org_commission.deleted r)
                      else r)
                   (commission_rows db1))
          else db1 in
        if status_change then
          let public :=
            if commission_status_eqb new_status CURRENT then Y else N in
          ' (_, db3) <- TestStation.update_all current db2 organisation_id
                          public (Some "COMMISSION"%string) ;;
          Return db3
        else Return db2
    end.
End Callbacks.
End TestProviderModel.

(* ================================================================== *)
(** ** TestStationModel: the approval form callback *)

(** The key of the saved approval record ([get_form_record_id]). *)
Definition approval_form : Type := option Z.

Module TestStationModel.
(** [site_approval_onaccept(form)]. *)
Definition site_approval_onaccept (db : database) (form : approval_form)
  : database :=
  if negb (ref_truthy form) then db
  else
    let record_id := or_else form 0 in
    match
      find (fun a => (org_site_approval.id a =? record_id)
                     && negb (org_site_approval.deleted a))
           (approval_rows db)
    with
    | None => db
    | Some record =>
        (* Set/remove public-reason as required *)
        let reason1 :=
          if yesno_eqb (org_site_approval.public record) N
             && negb (str_truthy (org_site_approval.public_reason record))
          then Some (Some "OVERRIDE"%string) else None in
        let reason2 :=
          if yesno_eqb (org_site_approval.public record) Y
          then Some None else reason1 in
        (* Set organisation_id if missing *)
        let ts_organisation_id :=
          TestStation.organisation_id db (org_site_approval.site_id record) in
        let organisation :=
          if negb (ref_eqb (org_site_approval.organisation_id record)
                           ts_organisation_id)
          then Some ts_organisation_id else None in
        if is_some reason2 || is_some organisation then
          set_approval_rows db
            (map (fun a =>
                    if org_site_approval.id a
                       =? org_site_approval.id record
                    then
                      org_site_approval.Row
                        (org_site_approval.id a)
                        (or_else organisation
                           (org_site_approval.organisation_id a))
                        (org_site_approval.site_id a)
                        (org_site_approval.dhash a)
                        (org_site_approval.status a)
                        (org_site_approval.mpav a)
                        (org_site_approval.hygiene a)
                        (org_site_approval.layout a)
                        (org_site_approval.public a)
                        (or_else reason2
                           (org_site_approval.public_reason a))
                        (org_site_approval.advice a)
                        (org_site_approval.deleted a)
                    else a)
                 (approval_rows db))
        else db
    end.
End TestStationModel.

(* ================================================================== *)
(** ** Status options *)

(** A value that is compared with a status option or looked up in
    [selectable]: a status code, or a [(code, label)] tuple. *)
Inductive option_item : Type :=
| ItemCode (code : string)
| ItemTuple (code label : string).

(** [==] on such values: a tuple never equals a string. *)
Definition item_eqb (x y : option_item) : bool :=
  match x, y with
  | ItemCode c, ItemCode c' => (c =? c')%string
  | ItemTuple c l, ItemTuple c' l' => ((c =? c') && (l =? l'))%string
  | _, _ => false
  end.

(** The argument [selectable]: [False], [True], or a sequence of
    status codes. *)
Inductive selectable : Type :=
| SelectFalse
| SelectTrue
| SelectCodes (codes : list string).

(** [TestProviderModel.orgtype_status_opts(selectable)]; a label is
    the string given to [T]. An empty sequence is falsy. *)
Definition orgtype_status_opts (s : selectable) : list (string * string) :=
  let opts := [("N/A", "not specified"); ("ACCEPT", "not required");
               ("N/V", "not verified"); ("VERIFIED", "verified")]%string in
  match s with
  | SelectFalse | SelectCodes [] => opts
  | SelectTrue =>
      (* Default selectable options *)
      filter (fun o =>
                existsb (item_eqb (ItemTuple (fst o) (snd o)))
                  [ItemCode "N/V"; ItemCode "VERIFIED"])
             opts
  | SelectCodes codes =>
      filter (fun o =>
                existsb (item_eqb (ItemTuple (fst o) (snd o)))
                  (map ItemCode codes))
             opts
  end.

(** [TestProviderModel.commission_status_opts(selectable)]. *)
Definition commission_status_opts (s : selectable)
  : list (string * string) :=
  let opts := [("CURRENT", "current"); ("SUSPENDED", "suspended");
               ("REVOKED", "revoked"); ("EXPIRED", "expired")]%string in
  match s with
  | SelectFalse | SelectCodes [] => opts
  | SelectTrue =>
      (* Default selectable options *)
      filter (fun o =>
                existsb (item_eqb (ItemCode (fst o)))
                  [ItemCode "CURRENT"; ItemCode "SUSPENDED";
                   ItemCode "REVOKED"])
             opts
  | SelectCodes codes =>
      filter (fun o =>
                existsb (item_eqb (ItemCode (fst o))) (map ItemCode codes))
             opts
  end.

(* ================================================================== *)
(** ** TestStation instances *)

(** A [TestStation] instance with the attributes it caches. The
    properties return their value and the instance after the call;
    [TestStation] above follows the methods for a given site ID. *)
Module TestStationObject.

(** The attributes of a [TestStation] instance. *)
Record station : Type := Station {
  _approval : option org_site_approval.row;
  _site_id : option Z;
  _facility_id : option Z;
  _record : option org_facility.row
}.

(** [TestStation(site_id, facility_id)]. *)
Definition init (site_id facility_id : option Z) : station :=
  if ref_truthy site_id then Station None site_id None None
  else Station None None facility_id None.

(** The [record] property: the facility, read once. *)
Definition record (db : database) (self : station)
  : option org_facility.row * station :=
  match _record self with
  | Some r => (Some r, self)
  | None =>
      let query f :=
        (if ref_truthy (_site_id self)
         then ref_eqb (Some (org_facility.site_id f)) (_site_id self)
         else ref_eqb (Some (org_facility.id f)) (_facility_id self))
        && negb (org_facility.deleted f) in
      match find query (facility_rows db) with
      | Some r =>
          (Some r,
           Station (_approval self) (Some (org_facility.site_id r))
             (Some (org_facility.id r)) (Some r))
      | None => (None, self)
      end
  end.

(** The [site_id] property; when the instance has no site ID the
    record is read, and [record.site_id if site_id else None] is
    returned for the local [site_id], which is falsy. *)
Definition site_id (db : database) (self : station)
  : option Z * station :=
  let site_id := _site_id self in
  if negb (ref_truthy site_id) then
    let '(record, self') := record db self in
    ((if ref_truthy site_id
      then option_map org_facility.site_id record else None), self')
  else (site_id, self).

(** The [facility_id] property. *)
Definition facility_id (db : database) (self : station)
  : option Z * station :=
  let facility_id := _facility_id self in
  if negb (ref_truthy facility_id) then
    let '(record, self') := record db self in
    (option_map org_facility.id record, self')
  else (facility_id, self).

(** The [organisation_id] property. *)
Definition organisation_id (db : database) (self : station)
  : option Z * station :=
  let '(record, self') := record db self in
  (match record with
   | Some r => org_facility.organisation_id r
   | None => None
   end, self').
End TestStationObject.

(* ================================================================== *)
(** ** workflow_tag_represent *)

(** The value of a workflow tag: [None], a boolean or a string. *)
Inductive tag_value : Type :=
| TagNone
| TagBool (b : bool)
| TagStr (s : string).

(** Equality of dictionary keys. *)
Definition tag_eqb (x y : tag_value) : bool :=
  match x, y with
  | TagNone, TagNone => true
  | TagBool a, TagBool b => Bool.eqb a b
  | TagStr a, TagStr b => (a =? b)%string
  | _, _ => false
  end.

(** The [DIV] that [represent] builds: its classes, the class of the
    icon (if any) and the label. *)
Record workflow_label : Type := WorkflowLabel {
  label_classes : list string;
  label_icon : option string;
  label_text : string
}.

Definition icons : list (tag_value * string) :=
  [(TagStr "REVISE", "fa fa-exclamation-triangle");
   (TagStr "REJECT", "fa fa-exclamation-triangle");
   (TagStr "REVIEW", "fa fa-hourglass");
   (TagStr "N/V", "fa fa-hourglass");
   (TagStr "APPROVED", "fa fa-check");
   (TagStr "ACCEPT", "fa fa-check");
   (TagStr "VERIFIED", "fa fa-check");
   (TagStr "COMPLETE", "fa fa-check");
   (TagStr "N/A", "fa fa-minus-circle");
   (TagStr "N", "fa fa-minus-circle");
   (TagBool false, "fa fa-minus-circle");
   (TagStr "Y", "fa fa-check");
   (TagBool true, "fa fa-check")]%string.

Definition css_classes : list (tag_value * string) :=
  [(TagStr "REVISE", "workflow-red");
   (TagStr "REJECT", "workflow-red");
   (TagStr "REVIEW", "workflow-amber");
   (TagStr "N/V", "workflow-amber");
   (TagStr "APPROVED", "workflow-green");
   (TagStr "ACCEPT", "workflow-green");
   (TagStr "VERIFIED", "workflow-green");
   (TagStr "COMPLETE", "workflow-green");
   (TagStr "N/A", "workflow-grey");
   (TagStr "N", "workflow-red");
   (TagBool false, "workflow-red");
   (TagStr "Y", "workflow-green");
   (TagBool true, "workflow-green")]%string.

(** [workflow_tag_represent(options, none)(value)]; [options] is the
    dictionary [{value: label}]. *)
Definition workflow_tag_represent (options : list (string * string))
    (none : option string) (value : tag_value) : workflow_label :=
  let value :=
    match value with
    | TagNone =>
        if str_truthy none then TagStr (or_else none ""%string) else value
    | _ => value
    end in
  let color := dict_get tag_eqb css_classes value in
  let icon := dict_get tag_eqb icons value in
  let text :=
    match value with
    | TagStr s => or_else (dict_get String.eqb options s) "-"
    | _ => "-"
    end%string in
  WorkflowLabel
    ("approve-workflow"%string
     :: match color with Some c => [c] | None => [] end)
    icon text.

(** [dict(binary_opts, none="N")]. *)
Definition binary_options : list (string * string) :=
  [("N", "No"); ("Y", "Yes"); ("none", "N")]%string.

(** [binary_represent], the representation of
    [org_site_approval.public]. *)
Definition binary_represent : tag_value -> workflow_label :=
  workflow_tag_represent binary_options None.

(* ================================================================== *)
(** * Specification

    The predicates in which the properties are stated. *)

(** Two values are interchangeable for [get_dhash] when they are equal
    or both falsy. *)
Definition same_truthy_value (v w : pyval) : Prop :=
  v = w \/ (truthy v = false /\ truthy w = false).

(** The organisation has no organisation-type associations. *)
Definition no_type_links (db : database) (organisation_id : option Z) : Prop :=
  forall l, In l (type_link_rows db) ->
    ref_eqb (org_organisation_organisation_type.organisation_id l)
            organisation_id
    && negb (org_organisation_organisation_type.deleted l) = false.

(** The tables other than the approval records and their history. *)
Definition same_provider_tables (db db' : database) : Prop :=
  verification_rows db' = verification_rows db
  /\ commission_rows db' = commission_rows db
  /\ facility_rows db' = facility_rows db
  /\ location_rows db' = location_rows db
  /\ type_link_rows db' = type_link_rows db
  /\ type_tag_rows db' = type_tag_rows db
  /\ staff_rows db' = staff_rows db
  /\ teststations db' = teststations db.

(** [accepted == (orgtype in {ACCEPT, VERIFIED}) and
    (mgrinfo in {ACCEPT, COMPLETE})]. *)
Definition acceptance_invariant (v : org_verification.row) : Prop :=
  org_verification.accepted v
  = orgtype_ok (org_verification.orgtype v)
    && mgrinfo_ok (org_verification.mgrinfo v).

(** The record that [site_approval_onaccept] re-reads. *)
Definition saved_approval (db : database) (record_id : Z)
  : option org_site_approval.row :=
  find (fun a => (org_site_approval.id a =? record_id)
                 && negb (org_site_approval.deleted a))
       (approval_rows db).

(** The commission flag that [update_approval] uses. *)
Definition commissioned_flag (current : request) (db : database)
    (facility : org_facility.row) (commissioned : option bool) : bool :=
  match commissioned with
  | Some b => b
  | None =>
      if ref_truthy (org_facility.organisation_id facility) then
        is_some (TestProvider.current_commission current db
                   (org_facility.organisation_id facility))
      else false
  end.

(** The approval record after [update_approval], from the record
    before, the location hash and the commission flag. *)
Definition approval_step (current : request) (a : org_site_approval.row)
    (vh : string) (commissioned : bool) : org_site_approval.row :=
  apply_approval_update
    (fst (TestStation.approval_update_of a
            (TestStation.integrity_check current a vh) vh commissioned)) a.

(** A review dimension after the integrity downgrade. *)
Definition demoted (v : review_status) : review_status :=
  match v with
  | RV_APPROVED => RV_REVIEW
  | RV_REVIEW => RV_REVIEW
  | RV_REVISE => RV_REVISE
  end.

(** The status after the integrity downgrade. *)
Definition downgraded_status (a : org_site_approval.row) : approval_status :=
  match org_site_approval.mpav a, org_site_approval.hygiene a,
        org_site_approval.layout a with
  | RV_REVISE, _, _ | _, RV_REVISE, _ | _, _, RV_REVISE => REVISE
  | _, _, _ => REVIEW
  end.

(** Whether the verification of the provider is accepted, as
    [commission_onaccept] reads it. *)
Definition provider_accepted (sha256_hexdigest : string -> string)
    (current : request) (db : database) (organisation_id : option Z) : bool :=
  org_verification.accepted
    (fst (TestProvider.verification sha256_hexdigest current db
            organisation_id)).

(** The intervals [[s1, e1]] and [[s2, e2]] overlap; a missing start
    date does not bound the interval from below (as in
    [current_commission]), a missing end date is +infinity. *)
Definition interval_overlap (s1 e1 s2 e2 : option Z) : Prop :=
  match s1, e2 with Some s, Some e => s <= e | _, _ => True end
  /\ match s2, e1 with Some s, Some e => s <= e | _, _ => True end.

(** No two non-deleted commissions of an organisation with status
    CURRENT or SUSPENDED have overlapping intervals. *)
Definition no_overlap (rows : list org_commission.row) : Prop :=
  forall c1 c2,
    In c1 rows -> In c2 rows ->
    org_commission.id c1 <> org_commission.id c2 ->
    org_commission.deleted c1 = false ->
    org_commission.deleted c2 = false ->
    active_status (org_commission.status c1) = true ->
    active_status (org_commission.status c2) = true ->
    org_commission.organisation_id c1 = org_commission.organisation_id c2 ->
    ~ interval_overlap
        (org_commission.date c1) (org_commission.end_date c1)
        (org_commission.date c2) (org_commission.end_date c2).

(** The overlap query of [commission_onvalidation] can see the stored
    commission: a comparison with a missing date matches nothing, so
    the form needs a start date unless the stored commission is
    open-ended, and the stored commission needs a start date unless
    the form is open-ended. *)
Definition dates_comparable (c : org_commission.row) (data : commission_data)
  : Prop :=
  (org_commission.end_date c = None \/ data_date data <> None)
  /\ (data_end_date data = None \/ org_commission.date c <> None).

(** A rewrite of commission rows that keeps keys, organisations, dates
    and deletion flags and activates no commission. *)
Definition activates_nothing (rows : list org_commission.row)
    (f : org_commission.row -> org_commission.row) : Prop :=
  forall c, In c rows ->
    org_commission.id (f c) = org_commission.id c
    /\ org_commission.organisation_id (f c) = org_commission.organisation_id c
    /\ org_commission.date (f c) = org_commission.date c
    /\ org_commission.end_date (f c) = org_commission.end_date c
    /\ org_commission.deleted (f c) = org_commission.deleted c
    /\ (active_status (org_commission.status (f c)) = true ->
        active_status (org_commission.status c) = true).

(** Modelled from the spec: the write of the surrounding CRUD framework
    between [commission_onvalidation] and [commission_onaccept], which
    is not part of this module. A form without validation errors is
    saved: its record (the record of the form, else a new record) gets
    the form data, and the other records stay as they are. *)
Definition commission_saved (form : commission_form) (data : commission_data)
    (rows rows' : list org_commission.row) : Prop :=
  exists c',
    In c' rows'
    /\ (form_record_id form = Some (org_commission.id c')
        \/ (form_record_id form = None
            /\ ~ In (org_commission.id c') (map org_commission.id rows)))
    /\ org_commission.organisation_id c' = data_organisation_id data
    /\ org_commission.date c' = data_date data
    /\ org_commission.end_date c' = data_end_date data
    /\ org_commission.status c' = data_status data
    /\ forall c, In c rows' ->
         c = c' \/ (In c rows /\ org_commission.id c <> org_commission.id c').

(** A non-deleted commission with status CURRENT whose interval covers
    today; a missing start or end date does not bound the interval. *)
Definition commission_covers (current : request) (c : org_commission.row)
  : Prop :=
  org_commission.status c = CURRENT
  /\ org_commission.deleted c = false
  /\ match org_commission.date c with
     | Some d => d <= today current
     | None => True
     end
  /\ match org_commission.end_date c with
     | Some e => today current <= e
     | None => True
     end.

(** Every public site belongs to an organisation with a CURRENT
    commission that covers today. *)
Definition commission_gate (current : request) (db : database) : Prop :=
  forall a, In a (approval_rows db) ->
    org_site_approval.deleted a = false ->
    org_site_approval.public a = Y ->
    exists c, In c (commission_rows db)
      /\ org_commission.organisation_id c = org_site_approval.organisation_id a
      /\ commission_covers current c.

(** The history of a site: its non-deleted rows, in storage order. *)
Definition site_history (rows : list org_site_approval_status.row)
    (site_id : Z) : list org_site_approval_status.row :=
  filter (fun h => (org_site_approval_status.site_id h =? site_id)
                   && negb (org_site_approval_status.deleted h))
         rows.

(** Keys are unique, no row is dated after [now], and the timestamps
    of every site strictly increase in storage order. *)
Definition history_ordered (now : Z)
    (rows : list org_site_approval_status.row) : Prop :=
  NoDup (map org_site_approval_status.id rows)
  /\ Forall (fun h => org_site_approval_status.timestmp h <= now) rows
  /\ forall site_id,
       StronglySorted Z.lt
         (map org_site_approval_status.timestmp (site_history rows site_id)).

(** Rows are only added at the end. *)
Definition appended_only (before after : list org_site_approval_status.row)
  : Prop :=
  exists added, after = before ++ added.

(** The row that overwrites a history row of the same instant. *)
Definition overwrite (site_id : Z) (a : org_site_approval.row) (key : Z)
    (h : org_site_approval_status.row) : org_site_approval_status.row :=
  if org_site_approval_status.id h =? key
  then TestStation.snapshot (org_site_approval_status.id h) site_id
         (org_site_approval_status.timestmp h)
         (org_site_approval_status.deleted h) a
  else h.

(** The history after an operation: ordered as before, and not
    shorter. *)
Definition history_kept (now : Z) (db db' : database) : Prop :=
  history_ordered now (history_rows db')
  /\ (List.length (history_rows db) <= List.length (history_rows db'))%nat.

(** The status that the three review dimensions stand for. *)
Definition status_of_dimensions (a : org_site_approval.row)
  : approval_status :=
  if TestStation.all_tags a RV_APPROVED then APPROVED
  else if TestStation.any_tags a RV_REVIEW then REVIEW
  else REVISE.

(** The record is approved in its status and in all three review
    dimensions. *)
Definition fully_approved (a : org_site_approval.row) : Prop :=
  org_site_approval.status a = APPROVED
  /\ org_site_approval.mpav a = RV_APPROVED
  /\ org_site_approval.hygiene a = RV_APPROVED
  /\ org_site_approval.layout a = RV_APPROVED.

(** [form_vars.get("status_reason") or ""]. *)
Definition form_reason (vars : commission_form_vars) : string :=
  match fv_status_reason vars with
  | Some (Some r) => r
  | _ => ""%string
  end.

(** The commission record as [commission_onaccept] writes it. *)
Definition onaccept_written (today : Z) (c : org_commission.row)
    (u_status : option commission_status)
    (u_reason : option (option string)) : org_commission.row :=
  let new_status := or_else u_status (org_commission.status c) in
  let status_change :=
    negb (opt_eqb commission_status_eqb (Some new_status)
            (org_commission.prev_status c)) in
  if is_some u_status || is_some u_reason then
    org_commission.Row
      (org_commission.id c) (org_commission.organisation_id c)
      (org_commission.date c) (org_commission.end_date c)
      new_status
      (if status_change then Some new_status
       else org_commission.prev_status c)
      (if status_change then Some today else org_commission.status_date c)
      (or_else u_reason (org_commission.status_reason c))
      (org_commission.deleted c)
  else c.

(** The assignments of [update_all]. *)
Definition update_all_values (public : yesno) (reason : option string)
  : approval_update :=
  match public with
  | Y => ApprovalUpdate (Some Y) None None None None (Some None) None
  | N => ApprovalUpdate (Some N) None None None None (Some reason) None
  end.

(** The hash of the person data of a manager, as [check_mgrinfo]
    computes it. *)
Definition manager_hash (sha256_hexdigest : string -> string)
    (m : hrm_human_resource.row) : string :=
  get_dhash sha256_hexdigest
    [of_opt PyStr (hrm_human_resource.first_name m);
     of_opt PyStr (hrm_human_resource.last_name m);
     of_opt PyStr (hrm_human_resource.date_of_birth m)].

(** The documentation of a manager is complete. *)
Definition documentation_approved (m : hrm_human_resource.row) : Prop :=
  hrm_human_resource.reg_tag m = Some "APPROVED"%string
  /\ hrm_human_resource.crc_tag m = Some "APPROVED"%string
  /\ hrm_human_resource.scp_tag m = Some "APPROVED"%string.

(** A documentation tag is left as it is, or reset. *)
Definition kept_or_reset (before after : option string) : Prop :=
  after = before \/ (before <> None /\ after = Some "N/A"%string).

(** [check_mgrinfo] changes tags only. *)
Definition same_person (m m' : hrm_human_resource.row) : Prop :=
  hrm_human_resource.id m' = hrm_human_resource.id m
  /\ hrm_human_resource.organisation_id m'
     = hrm_human_resource.organisation_id m
  /\ hrm_human_resource.org_contact m' = hrm_human_resource.org_contact m
  /\ hrm_human_resource.status m' = hrm_human_resource.status m
  /\ hrm_human_resource.deleted m' = hrm_human_resource.deleted m
  /\ hrm_human_resource.first_name m' = hrm_human_resource.first_name m
  /\ hrm_human_resource.last_name m' = hrm_human_resource.last_name m
  /\ hrm_human_resource.date_of_birth m'
     = hrm_human_resource.date_of_birth m
  /\ hrm_human_resource.has_contact m' = hrm_human_resource.has_contact m.

(** What [check_mgrinfo] does to a staff row. *)
Definition tags_checked (m m' : hrm_human_resource.row) : Prop :=
  same_person m m'
  /\ kept_or_reset (hrm_human_resource.reg_tag m)
       (hrm_human_resource.reg_tag m')
  /\ kept_or_reset (hrm_human_resource.crc_tag m)
       (hrm_human_resource.crc_tag m')
  /\ kept_or_reset (hrm_human_resource.scp_tag m)
       (hrm_human_resource.scp_tag m').

(** A manager with a verification hash: the documentation is approved
    and the hash is the one of the person data. *)
Definition verified_manager (sha256_hexdigest : string -> string)
    (m : hrm_human_resource.row) : Prop :=
  hrm_human_resource.dsh_tag m = Some (manager_hash sha256_hexdigest m)
  /\ documentation_approved m
  /\ hrm_human_resource.date_of_birth m <> None
  /\ hrm_human_resource.has_contact m = true.

(** The hash of the organisation types of a provider, as [vhash]
    computes it. *)
Definition provider_hash (sha256_hexdigest : string -> string)
    (db : database) (organisation_id : option Z) : string :=
  get_dhash sha256_hexdigest
    [PyStrList [TestProvider.types_string db organisation_id]].

(** The organisation types and their tags are the same. *)
Definition same_types (db db' : database) : Prop :=
  type_link_rows db' = type_link_rows db
  /\ type_tag_rows db' = type_tag_rows db.

(** The type status that [verification_defaults] computes. *)
Definition default_orgtype (db : database) (organisation_id : option Z)
  : orgtype_status :=
  match TestProvider.types db organisation_id with
  | _ :: _ =>
      if TestProvider.verifreq db organisation_id then OT_NV else OT_ACCEPT
  | [] => OT_NA
  end.

(** The record is de-listed with a reason that [update_approval] does
    not set itself. *)
Definition manually_unlisted (a : org_site_approval.row) : bool :=
  yesno_eqb (org_site_approval.public a) N
  && negb (automatic_reason (org_site_approval.public_reason a)).


(** The last history entry of the site agrees with the approval record
    of the site. *)
Definition history_in_sync (db : database) (site_id : Z) : Prop :=
  exists a e,
    TestStation.lookup_approval db site_id = Some a
    /\ TestStation.last_entry db site_id = Some e
    /\ TestStation.status_changed e a = false.

(** The facility with the given key. *)
Definition facility_by_id (db : database) (facility_id : Z)
  : option org_facility.row :=
  find (fun f => (org_facility.id f =? facility_id)
                 && negb (org_facility.deleted f))
       (facility_rows db).

(* ================================================================== *)
(** * Sample data

    The digest is a parameter of the development; examples use the
    identity, which like SHA-256 is assumed to be collision-free. *)

(** The digest of the examples. *)
Definition plain_digest (s : string) : string := s.

(** A request on day 100 by a user without the ORG_GROUP_ADMIN role. *)
Definition sample_request : request := Request (100 * 86400) false (Some 100).

Definition empty_database : database :=
  Database [] [] [] [] [] [] [] [] [] [].

(** A record de-listed through the form without a reason. *)
Definition delisted_approval : org_site_approval.row :=
  org_site_approval.Row 5 (Some 1) 9 None APPROVED RV_APPROVED RV_APPROVED
    RV_APPROVED N None None false.

(** Site 9 of organisation 1 at location 3; the site was approved when
    the street was "Hauptstr. 1". *)
Definition moved_site_database : database :=
  Database [] []
    [org_site_approval.Row 5 (Some 1) 9 (Some "7#***#Hauptstr. 1#55116"%string)
       APPROVED RV_APPROVED RV_APPROVED RV_APPROVED Y None None false]
    []
    [org_facility.Row 4 9 (Some 1) (Some 7) false]
    [gis_location.Row 7 None (Some "Bahnhofstr. 2"%string)
       (Some "55116"%string) false]
    [] [] [] [].

(** Organisation 1 is not verified; its commission 3 was suspended
    for that reason and ended on day 50. *)
Definition unverified_provider_database : database :=
  Database
    [org_verification.Row 1 (Some 1) None OT_NV (Some MI_ACCEPT) false false]
    [org_commission.Row 3 (Some 1) (Some 10) (Some 50) SUSPENDED
       (Some SUSPENDED) (Some 40) (Some "N/V"%string) false]
    [] [] [] [] [] [] [] [].

(** The same commission of a verified organisation. *)
Definition verified_provider_database : database :=
  Database
    [org_verification.Row 1 (Some 1) None OT_VERIFIED (Some MI_ACCEPT) true
       false]
    [org_commission.Row 3 (Some 1) (Some 10) (Some 50) SUSPENDED
       (Some SUSPENDED) (Some 40) (Some "N/V"%string) false]
    [] [] [] [] [] [] [] [].

(** Organisation 1 is not verified; its commission 3 ended on day 50
    and still has the status CURRENT. *)
Definition unverified_current_database : database :=
  Database
    [org_verification.Row 1 (Some 1) None OT_NV (Some MI_ACCEPT) false false]
    [org_commission.Row 3 (Some 1) (Some 10) (Some 50) CURRENT
       (Some CURRENT) (Some 10) None false]
    [] [] [] [] [] [] [] [].

Definition saved_commission_3 : commission_form :=
  CommissionForm (Some 3) (CommissionFormVars None None None None None).

(** Organisation 1 holds an open-ended commission from day 10 on. *)
Definition commissioned_database : database :=
  Database [] 
    [org_commission.Row 1 (Some 1) (Some 10) None CURRENT (Some CURRENT)
       (Some 10) None false]
    [] [] [] [] [] [] [] [].

(** A new commission for organisation 1 from day 20 to day 30. *)
Definition overlapping_form : commission_form :=
  CommissionForm None
    (CommissionFormVars (Some (Some 1)) (Some (Some 20)) (Some (Some 30))
       (Some CURRENT) None).

(** Site 9 of organisation 1: the approver has approved all three
    dimensions; the organisation holds no commission. *)
Definition uncommissioned_database : database :=
  Database [] []
    [org_site_approval.Row 5 (Some 1) 9 None REVIEW RV_APPROVED RV_APPROVED
       RV_APPROVED N (Some "REVIEW"%string) None false]
    []
    [org_facility.Row 4 9 (Some 1) None false]
    [] [] [] [] [].

(** Organisation 1 is verified; its approved site 9 is not listed
    because the organisation is not commissioned. A commission from
    day 200 to day 300 has just been saved. *)
Definition future_commission_database : database :=
  Database
    [org_verification.Row 1 (Some 1) None OT_VERIFIED (Some MI_ACCEPT) true
       false]
    [org_commission.Row 1 (Some 1) (Some 200) (Some 300) CURRENT None None
       None false]
    [org_site_approval.Row 5 (Some 1) 9 None APPROVED RV_APPROVED RV_APPROVED
       RV_APPROVED N (Some "COMMISSION"%string) None false]
    []
    [org_facility.Row 4 9 (Some 1) None false]
    [] [] [] [] [].

(** Organisation 1 holds a commission; its approved site 9 is listed. *)
Definition commissioned_site_database : database :=
  Database []
    [org_commission.Row 1 (Some 1) (Some 10) None CURRENT (Some CURRENT)
       (Some 10) None false]
    [org_site_approval.Row 5 (Some 1) 9 None REVIEW RV_APPROVED RV_APPROVED
       RV_APPROVED N (Some "REVIEW"%string) None false]
    []
    [org_facility.Row 4 9 (Some 1) None false]
    [] [] [] [] [].

(** Site 9 under review: the approver has set the MPAV qualification
    to REVISE and approved the other two dimensions. *)
Definition revise_database : database :=
  Database [] []
    [org_site_approval.Row 5 (Some 1) 9 None REVIEW RV_REVISE RV_APPROVED
       RV_APPROVED N (Some "REVIEW"%string) None false]
    []
    [org_facility.Row 4 9 (Some 1) None false]
    [] [] [] [] [].

(** Site 9 was approved at another address; since then the approver
    has set the MPAV qualification to REVISE in the form. *)
Definition moved_revise_database : database :=
  Database [] []
    [org_site_approval.Row 5 (Some 1) 9 (Some "7#***#Hauptstr. 1#55116"%string)
       APPROVED RV_REVISE RV_APPROVED RV_APPROVED Y None None false]
    []
    [org_facility.Row 4 9 (Some 1) (Some 7) false]
    [gis_location.Row 7 None (Some "Bahnhofstr. 2"%string)
       (Some "55116"%string) false]
    [] [] [] [].

(** The same user one minute later. *)
Definition later_request : request :=
  Request (100 * 86400 + 60) false (Some 100).

(** A request on day 100 by a user with the ORG_GROUP_ADMIN role. *)
Definition admin_request : request := Request (100 * 86400) true (Some 100).

(** Site 9 of the commissioned organisation 1 is fully approved, but
    was de-listed by hand. *)
Definition overridden_site_database : database :=
  Database []
    [org_commission.Row 1 (Some 1) (Some 10) None CURRENT (Some CURRENT)
       (Some 10) None false]
    [org_site_approval.Row 5 (Some 1) 9 None APPROVED RV_APPROVED RV_APPROVED
       RV_APPROVED N (Some "OVERRIDE"%string) None false]
    []
    [org_facility.Row 4 9 (Some 1) None false]
    [] [] [] [] [].

(** A new commission of organisation 1 from day 110 to day 120. *)
Definition later_commission_form : commission_form :=
  CommissionForm None
    (CommissionFormVars (Some (Some 1)) (Some (Some 110)) (Some (Some 120))
       (Some CURRENT) None).

(** Organisation 1 holds a commission; its approved site 9 is listed. *)
Definition listed_site_database : database :=
  Database []
    [org_commission.Row 1 (Some 1) (Some 10) None CURRENT (Some CURRENT)
       (Some 10) None false]
    [org_site_approval.Row 5 (Some 1) 9 None APPROVED RV_APPROVED RV_APPROVED
       RV_APPROVED Y None None false]
    []
    [org_facility.Row 4 9 (Some 1) None false]
    [] [] [] [] [].

(** The same site, not listed since the organisation had no
    commission. *)
Definition unlisted_site_database : database :=
  Database []
    [org_commission.Row 1 (Some 1) (Some 10) None CURRENT (Some CURRENT)
       (Some 10) None false]
    [org_site_approval.Row 5 (Some 1) 9 None APPROVED RV_APPROVED RV_APPROVED
       RV_APPROVED N (Some "COMMISSION"%string) None false]
    []
    [org_facility.Row 4 9 (Some 1) None false]
    [] [] [] [] [].

(** Organisation 1 was verified when it had type 4; it now has type 5,
    which requires verification. *)
Definition retyped_provider_database : database :=
  Database
    [org_verification.Row 1 (Some 1) (Some "['4']"%string) OT_VERIFIED
       (Some MI_ACCEPT) true false]
    [org_commission.Row 1 (Some 1) (Some 10) None CURRENT (Some CURRENT)
       (Some 10) None false]
    [] [] [] []
    [org_organisation_organisation_type.Row (Some 1) 5 false]
    [org_organisation_type_tag.Row 5 (Some "VERIFREQ"%string)
       (Some "Y"%string) false]
    [] [].

(** The approval record of site 9 does not name the organisation of
    the facility. *)
Definition unassigned_approval_database : database :=
  Database [] []
    [org_site_approval.Row 5 None 9 None REVISE RV_REVISE RV_REVISE
       RV_REVISE N (Some "NEW"%string) None false]
    []
    [org_facility.Row 4 9 (Some 1) None false]
    [] [] [] [] [].

(** Organisation 1 is verified and holds a commission without start
    date that ends on day 200. *)
Definition open_start_database : database :=
  Database
    [org_verification.Row 1 (Some 1) None OT_VERIFIED (Some MI_ACCEPT) true
       false]
    [org_commission.Row 1 (Some 1) None (Some 200) CURRENT (Some CURRENT)
       (Some 10) None false]
    [] [] [] [] [] [] [] [].

(** The same commission with the start date day 10. *)
Definition dated_start_database : database :=
  Database
    [org_verification.Row 1 (Some 1) None OT_VERIFIED (Some MI_ACCEPT) true
       false]
    [org_commission.Row 1 (Some 1) (Some 10) (Some 200) CURRENT (Some CURRENT)
       (Some 10) None false]
    [] [] [] [] [] [] [] [].

(** A request on day 115. *)
Definition day_115_request : request := Request (115 * 86400) false (Some 115).


(* ================================================================== *)
(** * Properties *)

(** ** General lemmas *)

Lemma find_map_stable {A : Type} (p : A -> bool) (f : A -> A) (l : list A) :
  (forall x, p (f x) = p x) ->
  find p (map f l) = option_map f (find p l).
Proof.
  intros Hp. induction l as [|x l IH]; simpl; [reflexivity|].
  rewrite Hp. destruct (p x); [reflexivity|exact IH].
Qed.

Lemma find_app_none {A : Type} (p : A -> bool) (l l' : list A) :
  find p l = None -> find p (l ++ l') = find p l'.
Proof.
  induction l as [|x l IH]; simpl; [reflexivity|].
  destruct (p x); [discriminate|exact IH].
Qed.

Lemma find_app_some {A : Type} (p : A -> bool) (l l' : list A) (x : A) :
  find p l = Some x -> find p (l ++ l') = Some x.
Proof.
  induction l as [|y l IH]; simpl; [discriminate|].
  destruct (p y); [trivial|exact IH].
Qed.

Lemma fold_max_ge (ids : list Z) (x : Z) :
  In x ids -> x <= fold_right Z.max 0 ids.
Proof.
  induction ids as [|y ids IH]; simpl; [tauto|].
  intros [->|Hin]; [lia|]. specialize (IH Hin). lia.
Qed.

Lemma next_id_fresh (ids : list Z) (x : Z) : In x ids -> x <> next_id ids.
Proof.
  intros Hin. apply fold_max_ge in Hin. unfold next_id. lia.
Qed.

Lemma opt_eqb_true {A : Type} (eqb : A -> A -> bool) (x y : option A) :
  (forall a b, eqb a b = true -> a = b) ->
  opt_eqb eqb x y = true -> x = y.
Proof.
  intros Heq. destruct x, y; simpl; try discriminate; auto.
  intros H. f_equal. auto.
Qed.

Lemma mgrinfo_eqb_true (a b : mgrinfo_status) : mgrinfo_eqb a b = true -> a = b.
Proof. destruct a, b; simpl; congruence. Qed.

Lemma ostr_eqb_true (x y : option string) : ostr_eqb x y = true -> x = y.
Proof. apply opt_eqb_true. intros a b. apply String.eqb_eq. Qed.

Lemma ostr_eqb_refl (x : option string) : ostr_eqb x x = true.
Proof. destruct x; simpl; [apply String.eqb_refl|reflexivity]. Qed.

Lemma ref_eqb_true (x y : option Z) : ref_eqb x y = true -> x = y.
Proof. apply opt_eqb_true. intros a b. apply Z.eqb_eq. Qed.

Lemma ref_eqb_refl (x : option Z) : ref_eqb x x = true.
Proof. destruct x; simpl; [apply Z.eqb_refl|reflexivity]. Qed.

Lemma ref_truthy_some (z : Z) : z <> 0 -> ref_truthy (Some z) = true.
Proof.
  intros Hz. unfold ref_truthy, of_opt, truthy.
  destruct (Z.eqb_spec z 0); [contradiction|reflexivity].
Qed.

(* ------------------------------------------------------------------ *)
(** ** get_dhash sees only the truthy values *)

Lemma dstr_same_truthy (vs ws : list pyval) :
  Forall2 same_truthy_value vs ws -> dstr vs = dstr ws.
Proof.
  intros H. unfold dstr. f_equal.
  induction H as [|v w vs ws Hvw _ IH]; simpl; [reflexivity|].
  f_equal; [|exact IH].
  destruct Hvw as [->|[Hv Hw]]; [reflexivity|].
  rewrite Hv, Hw. reflexivity.
Qed.

(** C10. [get_dhash] depends only on the truthy values of its
    arguments: two argument sequences of equal length whose elements
    are pairwise equal or both falsy get the same hash. Hence no
    comparison of a stored dhash with the computed one, and in
    particular the integrity check of [TestStation.vhash], tells the
    two sequences apart. *)
Theorem get_dhash_truthy_values_only
    (sha256_hexdigest : string -> string) (vs ws : list pyval) :
  Forall2 same_truthy_value vs ws ->
  get_dhash sha256_hexdigest vs = get_dhash sha256_hexdigest ws
  /\ (forall stored : option string,
        ostr_eqb stored (Some (get_dhash sha256_hexdigest vs))
        = ostr_eqb stored (Some (get_dhash sha256_hexdigest ws)))
  /\ (forall (current : request) (a : org_site_approval.row),
        TestStation.integrity_check current a (get_dhash sha256_hexdigest vs)
        = TestStation.integrity_check current a
            (get_dhash sha256_hexdigest ws)).
Proof.
  intros H. unfold get_dhash. rewrite (dstr_same_truthy vs ws H).
  repeat split; reflexivity.
Qed.

(** A street address changing from [None] to the empty string, and a
    parent changing from [None] to [0], leave the hash as it was. *)
Lemma get_dhash_truthy_values_only_witness :
  Forall2 same_truthy_value
    [PyInt 7; PyNone; PyNone; PyStr "55116"]
    [PyInt 7; PyInt 0; PyStr ""; PyStr "55116"]
  /\ get_dhash plain_digest [PyInt 7; PyNone; PyNone; PyStr "55116"]
     = get_dhash plain_digest [PyInt 7; PyInt 0; PyStr ""; PyStr "55116"].
Proof.
  assert (H : Forall2 same_truthy_value
                [PyInt 7; PyNone; PyNone; PyStr "55116"]
                [PyInt 7; PyInt 0; PyStr ""; PyStr "55116"]).
  { repeat constructor; solve [left; reflexivity | right; split; reflexivity]. }
  split; [exact H|].
  exact (proj1 (get_dhash_truthy_values_only plain_digest _ _ H)).
Defined.

(* ------------------------------------------------------------------ *)
(** ** Verification defaults *)

Lemma no_type_links_types (db : database) (organisation_id : option Z) :
  no_type_links db organisation_id ->
  TestProvider.types db organisation_id = [].
Proof.
  intros H. unfold TestProvider.types.
  replace (TestProvider.type_tag_query db organisation_id) with
    (@nil (Z * option string * option string)); [reflexivity|].
  unfold TestProvider.type_tag_query, no_type_links in *.
  induction (type_link_rows db) as [|l ls IH]; simpl; [reflexivity|].
  rewrite (H l (or_introl eq_refl)). simpl.
  apply IH. intros l' Hl'. apply H. right. exact Hl'.
Qed.

Lemma verification_defaults_accepted
    (sha256_hexdigest : string -> string) (current : request)
    (db : database) (organisation_id : option Z) :
  exists orgtype mgrinfo,
    fst (TestProvider.verification_defaults sha256_hexdigest current db
           organisation_id)
    = VerificationUpdate (Some orgtype) (Some mgrinfo)
        (Some (orgtype_ok orgtype && mgrinfo_ok mgrinfo)) None.
Proof.
  unfold TestProvider.verification_defaults.
  destruct (if TestProvider.minforeq db organisation_id
            then TestProvider.check_mgrinfo sha256_hexdigest current db
                   organisation_id
            else (Some MI_ACCEPT, db)) as [mgrinfo db'].
  simpl. eauto.
Qed.

(** The sample organisation 1 has no types; the database is empty. *)
Lemma verification_defaults_no_types_counterexample :
  no_type_links empty_database (Some 1)
  /\ org_verification.accepted
       (fst (TestProvider.add_verification_defaults plain_digest
               sample_request empty_database (Some 1))) <> true.
Proof.
  split.
  - intros l [].
  - vm_compute. discriminate.
Qed.

(** C2 (amended). When the verification record is created with
    computed defaults for an organisation without organisation-type
    associations, the defaults and the created record have
    orgtype = N/A and mgrinfo = ACCEPT, and accepted = False: N/A is
    not an accepted type status. *)
Theorem verification_defaults_no_types
    (sha256_hexdigest : string -> string) (current : request)
    (db : database) (organisation_id : option Z) :
  no_type_links db organisation_id ->
  fst (TestProvider.verification_defaults sha256_hexdigest current db
         organisation_id)
  = VerificationUpdate (Some OT_NA) (Some (Some MI_ACCEPT)) (Some false) None
  /\ (let v := fst (TestProvider.add_verification_defaults sha256_hexdigest
                      current db organisation_id) in
      org_verification.orgtype v = OT_NA
      /\ org_verification.mgrinfo v = Some MI_ACCEPT
      /\ org_verification.accepted v = false
      /\ org_verification.organisation_id v = organisation_id)
  /\ (TestProvider.lookup_verification db organisation_id = None ->
      TestProvider.verification sha256_hexdigest current db organisation_id
      = TestProvider.add_verification_defaults sha256_hexdigest current db
          organisation_id).
Proof.
  intros H.
  assert (Hd : TestProvider.verification_defaults sha256_hexdigest current db
                 organisation_id
               = (VerificationUpdate (Some OT_NA) (Some (Some MI_ACCEPT))
                    (Some false) None, db)).
  { unfold TestProvider.verification_defaults, TestProvider.minforeq,
      TestProvider.any_type_tag.
    rewrite (no_type_links_types db organisation_id H). reflexivity. }
  split; [rewrite Hd; reflexivity|]. split.
  - unfold TestProvider.add_verification_defaults. rewrite Hd. simpl. auto.
  - intros Hnone. unfold TestProvider.verification. rewrite Hnone.
    reflexivity.
Qed.

Lemma verification_defaults_no_types_witness :
  no_type_links empty_database (Some 1)
  /\ fst (TestProvider.verification_defaults plain_digest sample_request
            empty_database (Some 1))
     = VerificationUpdate (Some OT_NA) (Some (Some MI_ACCEPT)) (Some false)
         None.
Proof.
  assert (H : no_type_links empty_database (Some 1)) by (intros l []).
  split; [exact H|].
  exact (proj1 (verification_defaults_no_types plain_digest sample_request
                  empty_database (Some 1) H)).
Defined.

(* ------------------------------------------------------------------ *)
(** ** Which tables an operation writes *)

Lemma fold_left_invariant {A B : Type} (P : A -> Prop) (f : A -> B -> A)
    (l : list B) (a : A) :
  (forall x y, P x -> P (f x y)) -> P a -> P (fold_left f l a).
Proof.
  intros Hf. revert a. induction l as [|y l IH]; simpl; auto.
Qed.

Lemma same_provider_tables_refl (db : database) : same_provider_tables db db.
Proof. unfold same_provider_tables. tauto. Qed.

Lemma same_provider_tables_trans (db1 db2 db3 : database) :
  same_provider_tables db1 db2 -> same_provider_tables db2 db3 ->
  same_provider_tables db1 db3.
Proof.
  unfold same_provider_tables. intros H1 H2.
  decompose [and] H1. decompose [and] H2. repeat split; congruence.
Qed.

Lemma approval_frame (db : database) (site_id : Z) :
  same_provider_tables db (snd (TestStation.approval db site_id)).
Proof.
  unfold TestStation.approval.
  destruct (TestStation.lookup_approval db site_id); simpl;
    unfold same_provider_tables; simpl; tauto.
Qed.

Lemma update_approval_history_frame (current : request) (db : database)
    (site_id : Z) (a : org_site_approval.row) :
  same_provider_tables db
    (TestStation.update_approval_history current db site_id a)
  /\ approval_rows (TestStation.update_approval_history current db site_id a)
     = approval_rows db.
Proof.
  unfold TestStation.update_approval_history.
  destruct (TestStation.last_entry db site_id) as [p|];
    [destruct (TestStation.status_changed p a);
     [destruct (org_site_approval_status.timestmp p =? utcnow current)|]|];
    unfold same_provider_tables; simpl; tauto.
Qed.

Lemma update_all_returns (current : request) (db : database)
    (organisation_id : option Z) (public : yesno) (reason : option string) :
  str_truthy reason = true ->
  exists n db',
    TestStation.update_all current db organisation_id public reason
    = Return (n, db')
    /\ same_provider_tables db db'.
Proof.
  intros Hreason. unfold TestStation.update_all. rewrite Hreason.
  rewrite andb_false_r. eexists. eexists. split; [reflexivity|].
  apply fold_left_invariant.
  - intros d row Hd.
    pose proof (approval_frame d (org_site_approval.site_id row)) as Ha.
    destruct (TestStation.approval d (org_site_approval.site_id row))
      as [a d1]. simpl in Ha.
    eapply same_provider_tables_trans; [exact Hd|].
    eapply same_provider_tables_trans; [exact Ha|].
    apply update_approval_history_frame.
  - unfold same_provider_tables; simpl; tauto.
Qed.

Lemma suspend_commission_returns (current : request) (db : database)
    (organisation_id : option Z) :
  exists db',
    TestProvider.suspend_commission current db organisation_id "N/V"
    = Return db'
    /\ verification_rows db' = verification_rows db.
Proof.
  unfold TestProvider.suspend_commission.
  change (negb (truthy (PyStr "N/V"))) with false. cbv iota.
  match goal with
  | |- context [TestStation.update_all ?r ?d ?o ?p ?x] =>
      destruct (update_all_returns r d o p x eq_refl) as (n & db' & -> & Hf)
  end.
  simpl. eexists. split; [reflexivity|]. apply Hf.
Qed.

Lemma reinstate_commission_returns (current : request) (db : database)
    (organisation_id : option Z) :
  exists db',
    TestProvider.reinstate_commission current db organisation_id "N/V"
    = Return db'
    /\ verification_rows db' = verification_rows db.
Proof.
  unfold TestProvider.reinstate_commission.
  change (negb (truthy (PyStr "N/V"))) with false. cbv iota.
  match goal with
  | |- context [TestStation.update_all ?r ?d ?o ?p ?x] =>
      destruct (update_all_returns r d o p x eq_refl) as (n & db' & -> & Hf)
  end.
  simpl. eexists. split; [reflexivity|]. apply Hf.
Qed.

Lemma check_mgrinfo_frame (sha256_hexdigest : string -> string)
    (current : request) (db : database) (organisation_id : option Z) :
  let db' := snd (TestProvider.check_mgrinfo sha256_hexdigest current db
                    organisation_id) in
  verification_rows db' = verification_rows db
  /\ commission_rows db' = commission_rows db
  /\ approval_rows db' = approval_rows db
  /\ history_rows db' = history_rows db
  /\ type_link_rows db' = type_link_rows db
  /\ type_tag_rows db' = type_tag_rows db.
Proof.
  unfold TestProvider.check_mgrinfo.
  destruct (negb (TestProvider.is_org_group db organisation_id));
    [simpl; tauto|].
  destruct (existsb (TestProvider.manager_query organisation_id)
              (staff_rows db)); simpl; tauto.
Qed.

Lemma verification_defaults_frame (sha256_hexdigest : string -> string)
    (current : request) (db : database) (organisation_id : option Z) :
  let db' := snd (TestProvider.verification_defaults sha256_hexdigest current
                    db organisation_id) in
  verification_rows db' = verification_rows db
  /\ commission_rows db' = commission_rows db
  /\ approval_rows db' = approval_rows db
  /\ history_rows db' = history_rows db
  /\ type_link_rows db' = type_link_rows db
  /\ type_tag_rows db' = type_tag_rows db.
Proof.
  unfold TestProvider.verification_defaults.
  pose proof (check_mgrinfo_frame sha256_hexdigest current db organisation_id)
    as Hc.
  destruct (TestProvider.minforeq db organisation_id).
  - destruct (TestProvider.check_mgrinfo sha256_hexdigest current db
                organisation_id) as [m db']. exact Hc.
  - simpl. tauto.
Qed.

(* ------------------------------------------------------------------ *)
(** ** The verification acceptance invariant *)

Lemma add_verification_defaults_stored
    (sha256_hexdigest : string -> string) (current : request)
    (db : database) (organisation_id : option Z) :
  TestProvider.lookup_verification db organisation_id = None ->
  let '(v, db') := TestProvider.add_verification_defaults sha256_hexdigest
                     current db organisation_id in
  TestProvider.lookup_verification db' organisation_id = Some v
  /\ TestProvider.lookup_verification_by_id db' (org_verification.id v)
     = Some v
  /\ acceptance_invariant v.
Proof.
  intros Hnone. unfold TestProvider.add_verification_defaults.
  pose proof (verification_defaults_frame sha256_hexdigest current db
                organisation_id) as Hf.
  pose proof (verification_defaults_accepted sha256_hexdigest current db
                organisation_id) as (o & m & Hd).
  destruct (TestProvider.verification_defaults sha256_hexdigest current db
              organisation_id) as [data db1].
  simpl in Hf, Hd. destruct Hf as (Hv & _). subst data.
  unfold TestProvider.lookup_verification, TestProvider.lookup_verification_by_id
    in *.
  simpl. rewrite Hv. repeat split.
  - rewrite find_app_none by exact Hnone. simpl.
    rewrite ref_eqb_refl. reflexivity.
  - rewrite find_app_none.
    + simpl. rewrite Z.eqb_refl. reflexivity.
    + destruct (find (fun v => org_verification.id v =? _)
                     (verification_rows db)) as [x|] eqn:Hx; [|reflexivity].
      apply find_some in Hx. destruct Hx as [Hin Heq].
      apply Z.eqb_eq in Heq.
      exfalso. eapply next_id_fresh; [|exact Heq].
      apply in_map. exact Hin.
Qed.

Lemma verification_stored
    (sha256_hexdigest : string -> string) (current : request)
    (db : database) (organisation_id : option Z) :
  let '(v, db') := TestProvider.verification sha256_hexdigest current db
                     organisation_id in
  TestProvider.lookup_verification db' organisation_id = Some v.
Proof.
  unfold TestProvider.verification.
  destruct (TestProvider.lookup_verification db organisation_id) as [v|] eqn:Hl.
  - exact Hl.
  - pose proof (add_verification_defaults_stored sha256_hexdigest current db
                  organisation_id Hl) as H.
    destruct (TestProvider.add_verification_defaults sha256_hexdigest current
                db organisation_id) as [v db'].
    apply H.
Qed.

Lemma lookup_verification_update_record (db : database)
    (organisation_id : option Z) (record_id : Z) (u : verification_update) :
  TestProvider.lookup_verification
    (TestProvider.update_record db record_id u) organisation_id
  = option_map
      (fun v => if org_verification.id v =? record_id
                then apply_verification_update u v else v)
      (TestProvider.lookup_verification db organisation_id).
Proof.
  unfold TestProvider.lookup_verification, TestProvider.update_record. simpl.
  apply find_map_stable. intros x.
  destruct (org_verification.id x =? record_id); reflexivity.
Qed.

(** The record that [update_verification] leaves for the provider. *)
Lemma verification_update_of_invariant
    (sha256_hexdigest : string -> string) (current : request)
    (db : database) (organisation_id : option Z) :
  let '((v, update, _), db1) :=
    TestProvider.verification_update_of sha256_hexdigest current db
      organisation_id in
  TestProvider.lookup_verification db1 organisation_id = Some v
  /\ acceptance_invariant
       (match update with
        | Some u => apply_verification_update u v
        | None => v
        end).
Proof.
  unfold TestProvider.verification_update_of.
  pose proof (verification_stored sha256_hexdigest current db organisation_id)
    as Hs.
  destruct (TestProvider.verification sha256_hexdigest current db
              organisation_id) as [v db1].
  unfold TestProvider.vhash.
  destruct (negb (ostr_eqb _ (org_verification.dhash v))).
  - pose proof (verification_defaults_frame sha256_hexdigest current db1
                  organisation_id) as Hf.
    pose proof (verification_defaults_accepted sha256_hexdigest current db1
                  organisation_id) as (o & m & Hd).
    destruct (TestProvider.verification_defaults sha256_hexdigest current db1
                organisation_id) as [defaults db2].
    simpl in Hf, Hd. subst defaults. simpl. split.
    + unfold TestProvider.lookup_verification in *.
      destruct Hf as (-> & _). exact Hs.
    + reflexivity.
  - pose proof (check_mgrinfo_frame sha256_hexdigest current db1
                  organisation_id) as Hf.
    destruct (if TestProvider.minforeq db1 organisation_id
              then TestProvider.check_mgrinfo sha256_hexdigest current db1
                     organisation_id
              else (Some MI_ACCEPT, db1)) as [mgrinfo db3] eqn:Hm.
    assert (Hrows : verification_rows db3 = verification_rows db1).
    { destruct (TestProvider.minforeq db1 organisation_id).
      - rewrite Hm in Hf. apply Hf.
      - inversion Hm. reflexivity. }
    split.
    + unfold TestProvider.lookup_verification in *. rewrite Hrows. exact Hs.
    + unfold acceptance_invariant, verification_update_nonempty.
      destruct (opt_eqb mgrinfo_eqb mgrinfo (org_verification.mgrinfo v))
        eqn:He1;
      destruct (Bool.eqb
                  (orgtype_ok (org_verification.orgtype v)
                   && mgrinfo_ok mgrinfo)
                  (org_verification.accepted v)) eqn:He2;
      simpl;
      try (apply (opt_eqb_true _ _ _ mgrinfo_eqb_true) in He1; rewrite <- He1);
      try (apply Bool.eqb_prop in He2; rewrite <- He2);
      reflexivity.
Qed.

(** C4. For every verification record, after creation with computed
    defaults and after every [update_verification] call (which always
    returns), [accepted] equals
    [(orgtype in {ACCEPT, VERIFIED}) and (mgrinfo in {ACCEPT, COMPLETE})]. *)
Theorem verification_acceptance_invariant
    (sha256_hexdigest : string -> string) (current : request)
    (db : database) (organisation_id : option Z) :
  acceptance_invariant
    (fst (TestProvider.add_verification_defaults sha256_hexdigest current db
            organisation_id))
  /\ exists db' v',
       TestProvider.update_verification sha256_hexdigest current db
         organisation_id = Return db'
       /\ TestProvider.lookup_verification db' organisation_id = Some v'
       /\ acceptance_invariant v'.
Proof.
  split.
  - unfold TestProvider.add_verification_defaults.
    pose proof (verification_defaults_accepted sha256_hexdigest current db
                  organisation_id) as (o & m & Hd).
    destruct (TestProvider.verification_defaults sha256_hexdigest current db
                organisation_id) as [data db1].
    simpl in Hd. subst data. reflexivity.
  - unfold TestProvider.update_verification.
    pose proof (verification_update_of_invariant sha256_hexdigest current db
                  organisation_id) as H.
    destruct (TestProvider.verification_update_of sha256_hexdigest current db
                organisation_id) as [[[v update] accepted] db1].
    destruct H as [Hl Hinv].
    set (db2 := match update with
                | Some u => TestProvider.update_record db1
                              (org_verification.id v) u
                | None => db1
                end).
    assert (Hl2 : exists v',
               TestProvider.lookup_verification db2 organisation_id = Some v'
               /\ acceptance_invariant v').
    { destruct update as [u|]; subst db2.
      - rewrite lookup_verification_update_record, Hl. simpl.
        rewrite Z.eqb_refl. eauto.
      - eauto. }
    destruct Hl2 as (v' & Hv' & Hinv').
    destruct accepted.
    + destruct (reinstate_commission_returns current db2 organisation_id)
        as (db' & Hr & Hrows).
      exists db', v'. split; [exact Hr|]. split; [|exact Hinv'].
      unfold TestProvider.lookup_verification in *. rewrite Hrows. exact Hv'.
    + destruct (suspend_commission_returns current db2 organisation_id)
        as (db' & Hr & Hrows).
      exists db', v'. split; [exact Hr|]. split; [|exact Hinv'].
      unfold TestProvider.lookup_verification in *. rewrite Hrows. exact Hv'.
Qed.

(* ------------------------------------------------------------------ *)
(** ** Public reason after saving an approval record *)

(** C9. After [site_approval_onaccept] has run for a saved approval
    record, the record never has public = N together with an empty
    public_reason (an empty reason is replaced by OVERRIDE), and
    public = Y implies that public_reason is None. *)
Theorem site_approval_onaccept_public_reason (db : database) (record_id : Z)
    (record : org_site_approval.row) :
  record_id <> 0 ->
  saved_approval db record_id = Some record ->
  exists record',
    saved_approval
      (TestStationModel.site_approval_onaccept db (Some record_id)) record_id
    = Some record'
    /\ org_site_approval.public record' = org_site_approval.public record
    /\ (org_site_approval.public record' = N ->
        str_truthy (org_site_approval.public_reason record') = true)
    /\ (org_site_approval.public record = N ->
        str_truthy (org_site_approval.public_reason record) = false ->
        org_site_approval.public_reason record' = Some "OVERRIDE"%string)
    /\ (org_site_approval.public record' = Y ->
        org_site_approval.public_reason record' = None).
Proof.
  intros Hid Hsaved.
  assert (Hfind := Hsaved). apply find_some in Hfind.
  destruct Hfind as [_ Hmatch]. apply andb_prop in Hmatch.
  destruct Hmatch as [Hkey _]. apply Z.eqb_eq in Hkey.
  unfold TestStationModel.site_approval_onaccept.
  rewrite (ref_truthy_some record_id Hid).
  cbn [negb or_else]. unfold saved_approval in Hsaved. rewrite Hsaved.
  match goal with
  | |- context [if ?c then set_approval_rows db (map ?f _) else db] =>
      assert (Hwritten :
                saved_approval (set_approval_rows db (map f (approval_rows db)))
                  record_id = Some (f record));
      [unfold saved_approval; cbn [approval_rows set_approval_rows];
       rewrite find_map_stable;
       [rewrite Hsaved; reflexivity
       |intros x; destruct (org_site_approval.id x =? org_site_approval.id record);
        reflexivity]
      |]
  end.
  cbv beta in Hwritten. rewrite Z.eqb_refl in Hwritten.
  destruct (org_site_approval.public record) eqn:Hpublic;
    destruct (str_truthy (org_site_approval.public_reason record)) eqn:Hreason;
    destruct (negb (ref_eqb (org_site_approval.organisation_id record)
                      (TestStation.organisation_id db
                         (org_site_approval.site_id record)))) eqn:Horg;
    cbn [yesno_eqb andb negb is_some orb or_else] in *;
    try (eexists; split; [exact Hwritten|]; cbn; rewrite ?Hpublic;
         repeat split; intros; congruence);
    (exists record; split; [exact Hsaved|]; rewrite ?Hpublic;
     repeat split; intros; congruence).
Qed.

Lemma site_approval_onaccept_public_reason_witness :
  exists record',
    saved_approval
      (TestStationModel.site_approval_onaccept
         (set_approval_rows empty_database [delisted_approval]) (Some 5)) 5
    = Some record'
    /\ org_site_approval.public_reason record' = Some "OVERRIDE"%string.
Proof.
  destruct (site_approval_onaccept_public_reason
              (set_approval_rows empty_database [delisted_approval]) 5
              delisted_approval) as (record' & H1 & _ & _ & H2 & _).
  - lia.
  - reflexivity.
  - exists record'. split; [exact H1|]. apply H2; reflexivity.
Defined.

(* ------------------------------------------------------------------ *)
(** ** What update_approval writes *)

Lemma approval_stored (db : database) (site_id : Z) :
  let '(a, db1) := TestStation.approval db site_id in
  TestStation.lookup_approval db1 site_id = Some a.
Proof.
  unfold TestStation.approval.
  destruct (TestStation.lookup_approval db site_id) as [a|] eqn:Hl.
  - exact Hl.
  - unfold TestStation.add_approval_defaults, TestStation.lookup_approval in *.
    simpl. rewrite find_app_none by exact Hl. simpl.
    rewrite Z.eqb_refl. reflexivity.
Qed.

Lemma add_approval_defaults_stored (db : database) (site_id : Z) :
  let '(a, db') := TestStation.add_approval_defaults db site_id in
  TestStation.lookup_approval_by_id db' (org_site_approval.id a) = Some a.
Proof.
  unfold TestStation.add_approval_defaults, TestStation.lookup_approval_by_id.
  simpl. rewrite find_app_none.
  - simpl. rewrite Z.eqb_refl. reflexivity.
  - destruct (find (fun a => org_site_approval.id a =? _) (approval_rows db))
      as [x|] eqn:Hx; [|reflexivity].
    apply find_some in Hx. destruct Hx as [Hin Heq]. apply Z.eqb_eq in Heq.
    exfalso. eapply next_id_fresh; [|exact Heq]. apply in_map. exact Hin.
Qed.

Lemma lookup_approval_update_record (db : database) (site_id record_id : Z)
    (u : approval_update) :
  TestStation.lookup_approval (TestStation.update_record db record_id u)
    site_id
  = option_map
      (fun a => if org_site_approval.id a =? record_id
                then apply_approval_update u a else a)
      (TestStation.lookup_approval db site_id).
Proof.
  unfold TestStation.lookup_approval, TestStation.update_record. simpl.
  apply find_map_stable. intros x.
  destruct (org_site_approval.id x =? record_id); reflexivity.
Qed.

(** [update_approval] returns when the facility exists, and leaves the
    approval record of the station updated with [approval_update_of]. *)
Lemma update_approval_result
    (sha256_hexdigest : string -> string) (current : request)
    (db : database) (site_id : Z) (commissioned : option bool)
    (facility : org_facility.row) :
  TestStation.record db site_id = Some facility ->
  let '(a, db1) := TestStation.approval db site_id in
  let vh := TestStation.location_hash sha256_hexdigest db facility in
  let update :=
    fst (TestStation.approval_update_of a
           (TestStation.integrity_check current a vh) vh
           (commissioned_flag current db facility commissioned)) in
  exists db',
    TestStation.update_approval sha256_hexdigest current db site_id
      commissioned = Return db'
    /\ TestStation.lookup_approval db' site_id
       = Some (apply_approval_update update a)
    /\ same_provider_tables db db'.
Proof.
  intros Hrec. unfold TestStation.update_approval.
  pose proof (approval_stored db site_id) as Hs.
  pose proof (approval_frame db site_id) as Hf.
  destruct (TestStation.approval db site_id) as [a db1]. simpl in Hf.
  destruct Hf as (Hv & Hc & Hfac & Hloc & Hrest).
  assert (Hrec1 : TestStation.record db1 site_id = Some facility).
  { unfold TestStation.record in *. rewrite Hfac. exact Hrec. }
  rewrite Hrec1. unfold TestStation.vhash. rewrite Hrec1.
  cbn [bind].
  assert (Hvh : TestStation.location_hash sha256_hexdigest db1 facility
                = TestStation.location_hash sha256_hexdigest db facility).
  { unfold TestStation.location_hash. rewrite Hloc. reflexivity. }
  assert (Hcf : (match commissioned with
                 | Some b => b
                 | None =>
                     if ref_truthy (org_facility.organisation_id facility) then
                       is_some (TestProviderData.current_commission current db1
                                  (org_facility.organisation_id facility))
                     else false
                 end)
                = commissioned_flag current db facility commissioned).
  { unfold commissioned_flag, TestProvider.current_commission,
      TestProviderData.current_commission. rewrite Hc. reflexivity. }
  rewrite Hvh, Hcf.
  destruct (TestStation.approval_update_of a
              (TestStation.integrity_check current a
                 (TestStation.location_hash sha256_hexdigest db facility))
              (TestStation.location_hash sha256_hexdigest db facility)
              (commissioned_flag current db facility commissioned))
    as [update notify].
  eexists. split; [reflexivity|]. split.
  - pose proof (update_approval_history_frame current
                  (TestStation.update_record db1 (org_site_approval.id a)
                     update) site_id (apply_approval_update update a))
      as [_ Hrows].
    unfold TestStation.lookup_approval at 1. rewrite Hrows.
    fold (TestStation.lookup_approval
            (TestStation.update_record db1 (org_site_approval.id a) update)
            site_id).
    rewrite lookup_approval_update_record, Hs. simpl.
    rewrite Z.eqb_refl. reflexivity.
  - eapply same_provider_tables_trans;
      [|apply update_approval_history_frame].
    unfold same_provider_tables in *. simpl. tauto.
Qed.

(* ------------------------------------------------------------------ *)
(** ** Integrity check of an approved site *)

Lemma integrity_check_changed (current : request) (a : org_site_approval.row)
    (d vh : string) :
  org_site_approval.status a = APPROVED ->
  org_site_approval.dhash a = Some d ->
  d <> ""%string -> d <> vh ->
  org_group_admin current = false ->
  TestStation.integrity_check current a vh
  = Some (TestStation.integrity_update a).
Proof.
  intros Hst Hd Hne Hvh Hadm. unfold TestStation.integrity_check.
  rewrite Hst, Hd, Hadm. unfold str_truthy, of_opt, truthy, ostr_eqb, opt_eqb.
  apply String.eqb_neq in Hne. apply String.eqb_neq in Hvh.
  rewrite Hne, Hvh. reflexivity.
Qed.

(** C6. For a site whose approval status is APPROVED with a stored
    dhash, when the location hash computed now differs from the stored
    one and the user does not have the ORG_GROUP_ADMIN role, [vhash]
    returns an update that demotes every review dimension that was
    APPROVED to REVIEW, sets public = N and sets status to REVIEW, or to
    REVISE if a dimension was REVISE; [update_approval] returns and
    leaves the record in that state. *)
Theorem vhash_downgrades_changed_site
    (sha256_hexdigest : string -> string) (current : request)
    (db : database) (site_id : Z) (a : org_site_approval.row)
    (facility : org_facility.row) (d : string) :
  TestStation.record db site_id = Some facility ->
  TestStation.lookup_approval db site_id = Some a ->
  org_site_approval.status a = APPROVED ->
  org_site_approval.dhash a = Some d ->
  d <> ""%string ->
  d <> TestStation.location_hash sha256_hexdigest db facility ->
  org_group_admin current = false ->
  (exists u,
     TestStation.vhash sha256_hexdigest current db site_id a
     = Return (Some u, TestStation.location_hash sha256_hexdigest db facility)
     /\ au_public u = Some N
     /\ au_status u = Some (downgraded_status a)
     /\ or_else (au_mpav u) (org_site_approval.mpav a)
        = demoted (org_site_approval.mpav a)
     /\ or_else (au_hygiene u) (org_site_approval.hygiene a)
        = demoted (org_site_approval.hygiene a)
     /\ or_else (au_layout u) (org_site_approval.layout a)
        = demoted (org_site_approval.layout a))
  /\ (forall commissioned : option bool,
        exists db' a',
          TestStation.update_approval sha256_hexdigest current db site_id
            commissioned = Return db'
          /\ TestStation.lookup_approval db' site_id = Some a'
          /\ org_site_approval.public a' = N
          /\ org_site_approval.status a' = downgraded_status a
          /\ org_site_approval.mpav a' = demoted (org_site_approval.mpav a)
          /\ org_site_approval.hygiene a'
             = demoted (org_site_approval.hygiene a)
          /\ org_site_approval.layout a'
             = demoted (org_site_approval.layout a)).
Proof.
  intros Hrec Hlook Hst Hd Hne Hvh Hadm.
  pose proof (integrity_check_changed current a d _ Hst Hd Hne Hvh Hadm) as Hic.
  split.
  - exists (TestStation.integrity_update a).
    unfold TestStation.vhash. rewrite Hrec, Hic.
    split; [reflexivity|].
    unfold TestStation.integrity_update, downgraded_status.
    destruct (org_site_approval.mpav a), (org_site_approval.hygiene a),
      (org_site_approval.layout a); simpl; repeat split; reflexivity.
  - intros commissioned.
    pose proof (update_approval_result sha256_hexdigest current db site_id
                  commissioned facility Hrec) as Hres.
    unfold TestStation.approval in Hres. rewrite Hlook in Hres.
    destruct Hres as (db' & Hret & Hl' & _).
    eexists. eexists. split; [exact Hret|]. split; [exact Hl'|].
    rewrite Hic.
    unfold TestStation.approval_update_of, TestStation.integrity_update,
      TestStation.set_public_reason, TestStation.keep_manual_unlisting,
      TestStation.set_data_hash, downgraded_status.
    destruct (org_site_approval.public a) eqn:Hp;
      destruct (automatic_reason (org_site_approval.public_reason a));
      destruct (org_site_approval.mpav a) eqn:H1,
               (org_site_approval.hygiene a) eqn:H2,
               (org_site_approval.layout a) eqn:H3;
      simpl; rewrite ?Hp, ?H1, ?H2, ?H3; repeat split; reflexivity.
Qed.

Lemma vhash_downgrades_changed_site_witness :
  exists db' a',
    TestStation.update_approval plain_digest sample_request
      moved_site_database 9 None = Return db'
    /\ TestStation.lookup_approval db' 9 = Some a'
    /\ org_site_approval.public a' = N
    /\ org_site_approval.status a' = REVIEW
    /\ org_site_approval.mpav a' = RV_REVIEW.
Proof.
  pose proof (vhash_downgrades_changed_site plain_digest sample_request
                moved_site_database 9
                (org_site_approval.Row 5 (Some 1) 9
                   (Some "7#***#Hauptstr. 1#55116"%string)
                   APPROVED RV_APPROVED RV_APPROVED RV_APPROVED Y None None
                   false)
                (org_facility.Row 4 9 (Some 1) (Some 7) false)
                "7#***#Hauptstr. 1#55116"%string
                eq_refl eq_refl eq_refl eq_refl) as H.
  destruct H as [_ H].
  - discriminate.
  - vm_compute. discriminate.
  - reflexivity.
  - destruct (H None) as (db' & a' & H1 & H2 & H3 & H4 & H5 & _).
    exists db', a'. repeat split; assumption.
Defined.

(* ------------------------------------------------------------------ *)
(** ** Status of a commission after commission_onaccept *)

Lemma verification_frame
    (sha256_hexdigest : string -> string) (current : request)
    (db : database) (organisation_id : option Z) :
  let db' := snd (TestProvider.verification sha256_hexdigest current db
                    organisation_id) in
  commission_rows db' = commission_rows db
  /\ approval_rows db' = approval_rows db
  /\ history_rows db' = history_rows db.
Proof.
  unfold TestProvider.verification.
  destruct (TestProvider.lookup_verification db organisation_id);
    [simpl; tauto|].
  unfold TestProvider.add_verification_defaults.
  pose proof (verification_defaults_frame sha256_hexdigest current db
                organisation_id) as Hf.
  destruct (TestProvider.verification_defaults sha256_hexdigest current db
              organisation_id) as [data db1].
  simpl in *. tauto.
Qed.

(** What [commission_onaccept] does when it returns: the record has
    the status and reason of [onaccept_update]. *)
Lemma commission_onaccept_result
    (sha256_hexdigest : string -> string) (current : request)
    (db : database) (record_id : Z) (c : org_commission.row)
    (u_status : option commission_status) (u_reason : option (option string)) :
  record_id <> 0 ->
  TestProviderModel.lookup_commission db record_id = Some c ->
  TestProviderModel.onaccept_update
    (provider_accepted sha256_hexdigest current db
       (org_commission.organisation_id c))
    (today current) c = Return (u_status, u_reason) ->
  exists db' c',
    TestProviderModel.commission_onaccept sha256_hexdigest current db
      (CommissionForm (Some record_id) (CommissionFormVars None None None
                                          None None)) = Return db'
    /\ TestProviderModel.lookup_commission db' record_id = Some c'
    /\ org_commission.status c' = or_else u_status (org_commission.status c)
    /\ org_commission.status_reason c'
       = or_else u_reason (org_commission.status_reason c).
Proof.
  intros Hid Hlook Hupd.
  assert (Hkey : org_commission.id c = record_id).
  { apply find_some in Hlook. destruct Hlook as [_ Hk].
    apply Z.eqb_eq. exact Hk. }
  unfold TestProviderModel.commission_onaccept.
  cbn [form_record_id or_else]. rewrite (ref_truthy_some record_id Hid).
  cbn [negb]. rewrite Hlook.
  unfold provider_accepted in Hupd.
  pose proof (verification_frame sha256_hexdigest current db
                (org_commission.organisation_id c)) as Hf.
  destruct (TestProvider.verification sha256_hexdigest current db
              (org_commission.organisation_id c)) as [v db1].
  cbn [fst snd] in *. destruct Hf as (Hc & _).
  rewrite Hupd. cbn [bind].
  set (status_change :=
         negb (opt_eqb commission_status_eqb
                 (Some (or_else u_status (org_commission.status c)))
                 (org_commission.prev_status c))).
  match goal with
  | |- context [if is_some u_status || is_some u_reason
                then set_commission_rows db1 (map ?f _) else db1] =>
      set (write := f);
      set (db2 := if is_some u_status || is_some u_reason
                  then set_commission_rows db1 (map f (commission_rows db1))
                  else db1)
  end.
  assert (Hl2 : exists c',
             TestProviderModel.lookup_commission db2 record_id = Some c'
             /\ org_commission.status c'
                = or_else u_status (org_commission.status c)
             /\ org_commission.status_reason c'
                = or_else u_reason (org_commission.status_reason c)).
  { subst db2.
    destruct (is_some u_status || is_some u_reason) eqn:Hany.
    - exists (write c). split.
      + unfold TestProviderModel.lookup_commission.
        cbn [commission_rows set_commission_rows].
        rewrite find_map_stable.
        * rewrite Hc. unfold TestProviderModel.lookup_commission in Hlook.
          rewrite Hlook. reflexivity.
        * intros x. subst write. cbv beta.
          destruct (org_commission.id x =? org_commission.id c); reflexivity.
      + subst write. cbv beta. rewrite Z.eqb_refl. split; reflexivity.
    - exists c. split.
      + unfold TestProviderModel.lookup_commission in *. rewrite Hc.
        exact Hlook.
      + destruct u_status, u_reason; try discriminate. split; reflexivity. }
  destruct Hl2 as (c' & Hc' & Hs' & Hr').
  destruct status_change.
  - match goal with
    | |- context [TestStation.update_all ?r ?d ?o ?p ?x] =>
        destruct (update_all_returns r d o p x eq_refl)
          as (n & db' & -> & Hf)
    end.
    cbn [bind]. exists db', c'. split; [reflexivity|].
    split; [|split; assumption].
    unfold TestProviderModel.lookup_commission in *.
    destruct Hf as (_ & -> & _). exact Hc'.
  - exists db2, c'. repeat split; assumption.
Qed.

(** The two status updates of [commission_onaccept]. For a saved
    commission of a provider whose verification is accepted: when its
    end date is set and lies strictly in the past, the callback returns
    and sets the status to EXPIRED and clears the reason, whatever the
    status was. For a saved commission of a provider whose verification
    is not accepted: when its status is CURRENT, the callback returns
    and sets the status to SUSPENDED with reason N/V, whatever its end
    date is. *)
Lemma commission_onaccept_statuses
    (sha256_hexdigest : string -> string) (current : request)
    (db : database) (record_id : Z) (c : org_commission.row) :
  record_id <> 0 ->
  TestProviderModel.lookup_commission db record_id = Some c ->
  let form := CommissionForm (Some record_id)
                (CommissionFormVars None None None None None) in
  (provider_accepted sha256_hexdigest current db
     (org_commission.organisation_id c) = true ->
   forall end_date, org_commission.end_date c = Some end_date ->
     end_date < today current ->
     exists db' c',
       TestProviderModel.commission_onaccept sha256_hexdigest current db form
       = Return db'
       /\ TestProviderModel.lookup_commission db' record_id = Some c'
       /\ org_commission.status c' = EXPIRED
       /\ org_commission.status_reason c' = None)
  /\ (provider_accepted sha256_hexdigest current db
        (org_commission.organisation_id c) = false ->
      org_commission.status c = CURRENT ->
      exists db' c',
        TestProviderModel.commission_onaccept sha256_hexdigest current db form
        = Return db'
        /\ TestProviderModel.lookup_commission db' record_id = Some c'
        /\ org_commission.status c' = SUSPENDED
        /\ org_commission.status_reason c' = Some "N/V"%string).
Proof.
  intros Hid Hlook form. split.
  - intros Hacc end_date Hend Hpast.
    apply (commission_onaccept_result sha256_hexdigest current db record_id c
             (Some EXPIRED) (Some None) Hid Hlook).
    rewrite Hacc. unfold TestProviderModel.onaccept_update. rewrite Hend.
    destruct (Z.ltb_spec end_date (today current)); [reflexivity|lia].
  - intros Hacc Hcur.
    apply (commission_onaccept_result sha256_hexdigest current db record_id c
             (Some SUSPENDED) (Some (Some "N/V"%string)) Hid Hlook).
    rewrite Hacc. unfold TestProviderModel.onaccept_update. rewrite Hcur.
    reflexivity.
Qed.

Lemma commission_onaccept_statuses_example :
  (exists db' c',
     TestProviderModel.commission_onaccept plain_digest sample_request
       verified_provider_database saved_commission_3 = Return db'
     /\ TestProviderModel.lookup_commission db' 3 = Some c'
     /\ org_commission.status c' = EXPIRED
     /\ org_commission.status_reason c' = None)
  /\ (exists db' c',
        TestProviderModel.commission_onaccept plain_digest sample_request
          unverified_current_database saved_commission_3 = Return db'
        /\ TestProviderModel.lookup_commission db' 3 = Some c'
        /\ org_commission.status c' = SUSPENDED
        /\ org_commission.status_reason c' = Some "N/V"%string).
Proof.
  split.
  - refine (proj1 (commission_onaccept_statuses plain_digest sample_request
                     verified_provider_database 3 _ _ eq_refl) _ 50 _ _).
    + discriminate.
    + reflexivity.
    + reflexivity.
    + reflexivity.
  - refine (proj2 (commission_onaccept_statuses plain_digest sample_request
                     unverified_current_database 3 _ _ eq_refl) _ _).
    + discriminate.
    + reflexivity.
    + reflexivity.
Defined.

(** C7. The end date is tested for accepted providers only. On day 100
    commission 3 of organisation 1 has the status SUSPENDED and ended
    on day 50. When the verification of the organisation is not
    accepted, [commission_onaccept] returns without any change: the
    commission stays SUSPENDED and is not set to EXPIRED. For the same
    commission of an accepted provider the status is set to EXPIRED and
    the reason is cleared. *)
Theorem commission_onaccept_expiry_missed :
  today sample_request = 100
  /\ TestProviderModel.lookup_commission unverified_provider_database 3
     = Some (org_commission.Row 3 (Some 1) (Some 10) (Some 50) SUSPENDED
               (Some SUSPENDED) (Some 40) (Some "N/V"%string) false)
  /\ provider_accepted plain_digest sample_request
       unverified_provider_database (Some 1) = false
  /\ TestProviderModel.commission_onaccept plain_digest sample_request
       unverified_provider_database saved_commission_3
     = Return unverified_provider_database
  /\ provider_accepted plain_digest sample_request
       verified_provider_database (Some 1) = true
  /\ (exists db' c',
        TestProviderModel.commission_onaccept plain_digest sample_request
          verified_provider_database saved_commission_3 = Return db'
        /\ TestProviderModel.lookup_commission db' 3 = Some c'
        /\ org_commission.end_date c' = Some 50
        /\ org_commission.status c' = EXPIRED
        /\ org_commission.status_reason c' = None).
Proof.
  split; [reflexivity|]. split; [reflexivity|]. split; [reflexivity|].
  split; [vm_compute; reflexivity|]. split; [reflexivity|].
  eexists; eexists; vm_compute; repeat split; reflexivity.
Qed.

(** A CURRENT commission of a provider that is not verified is
    suspended with reason N/V, also when its end date has passed. *)
Example commission_onaccept_suspends_past_end :
  exists db' c',
    TestProviderModel.commission_onaccept plain_digest sample_request
      unverified_current_database saved_commission_3 = Return db'
    /\ TestProviderModel.lookup_commission db' 3 = Some c'
    /\ org_commission.end_date c' = Some 50
    /\ org_commission.status c' = SUSPENDED
    /\ org_commission.status_reason c' = Some "N/V"%string.
Proof.
  eexists; eexists; vm_compute; repeat split; reflexivity.
Qed.

(* ------------------------------------------------------------------ *)
(** ** Commissions do not overlap *)

Lemma no_overlap_map (rows : list org_commission.row)
    (f : org_commission.row -> org_commission.row) :
  activates_nothing rows f -> no_overlap rows -> no_overlap (map f rows).
Proof.
  intros Hf Hno c1 c2 H1 H2 Hid Hd1 Hd2 Ha1 Ha2 Horg.
  apply in_map_iff in H1. destruct H1 as (x1 & <- & Hx1).
  apply in_map_iff in H2. destruct H2 as (x2 & <- & Hx2).
  destruct (Hf x1 Hx1) as (Ei1 & Eo1 & Ed1 & Ee1 & Edel1 & Eact1).
  destruct (Hf x2 Hx2) as (Ei2 & Eo2 & Ed2 & Ee2 & Edel2 & Eact2).
  rewrite Ed1, Ed2, Ee1, Ee2.
  apply (Hno x1 x2); try assumption; try congruence; auto.
Qed.

Lemma NoDup_map_eq {A B : Type} (f : A -> B) (l : list A) (x y : A) :
  NoDup (map f l) -> In x l -> In y l -> f x = f y -> x = y.
Proof.
  induction l as [|z l IH]; simpl; [tauto|].
  intros Hnd Hx Hy Hxy. inversion Hnd as [|? ? Hnotin Hnd']; subst.
  destruct Hx as [->|Hx], Hy as [->|Hy]; auto.
  - exfalso. apply Hnotin. rewrite Hxy. apply in_map. exact Hy.
  - exfalso. apply Hnotin. rewrite <- Hxy. apply in_map. exact Hx.
Qed.

Lemma suspend_commission_no_overlap (current : request) (db : database)
    (organisation_id : option Z) (reason : string) (db' : database) :
  TestProvider.suspend_commission current db organisation_id reason
  = Return db' ->
  no_overlap (commission_rows db) -> no_overlap (commission_rows db').
Proof.
  unfold TestProvider.suspend_commission.
  destruct (negb (truthy (PyStr reason))); [discriminate|].
  match goal with
  | |- context [TestStation.update_all ?r ?d ?o ?p ?x] =>
      destruct (update_all_returns r d o p x eq_refl) as (n & d' & -> & Hf)
  end.
  cbn [bind]. intros Hret Hno. inversion Hret; subst d'.
  destruct Hf as (_ & -> & _). cbn [commission_rows set_commission_rows].
  apply no_overlap_map; [|exact Hno].
  intros c _.
  destruct (TestProvider.suspend_query organisation_id c) eqn:Hq;
    [|repeat split; auto].
  unfold TestProvider.suspend_query in Hq.
  destruct (org_commission.status c); rewrite ?andb_false_r in Hq;
    try discriminate.
  repeat split; auto.
Qed.

Lemma reinstate_commission_no_overlap (current : request) (db : database)
    (organisation_id : option Z) (reason : string) (db' : database) :
  TestProvider.reinstate_commission current db organisation_id reason
  = Return db' ->
  no_overlap (commission_rows db) -> no_overlap (commission_rows db').
Proof.
  unfold TestProvider.reinstate_commission.
  destruct (negb (truthy (PyStr reason))); [discriminate|].
  match goal with
  | |- context [TestStation.update_all ?r ?d ?o ?p ?x] =>
      destruct (update_all_returns r d o p x eq_refl) as (n & d' & -> & Hf)
  end.
  cbn [bind]. intros Hret Hno. inversion Hret; subst d'.
  destruct Hf as (_ & -> & _). cbn [commission_rows set_commission_rows].
  apply no_overlap_map; [|exact Hno].
  intros c _.
  destruct (TestProvider.reinstate_query organisation_id reason c) eqn:Hq;
    [|repeat split; auto].
  unfold TestProvider.reinstate_query in Hq.
  destruct (org_commission.status c); rewrite ?andb_false_r in Hq;
    try discriminate.
  repeat split; auto.
Qed.

Lemma onaccept_update_activates_nothing (accepted : bool) (today : Z)
    (c : org_commission.row) (u_status : option commission_status)
    (u_reason : option (option string)) :
  TestProviderModel.onaccept_update accepted today c
  = Return (u_status, u_reason) ->
  active_status (or_else u_status (org_commission.status c)) = true ->
  active_status (org_commission.status c) = true.
Proof.
  unfold TestProviderModel.onaccept_update.
  destruct accepted.
  - destruct (org_commission.end_date c) as [e|]; [|discriminate].
    destruct (e <? today); intros H; inversion H; subst; simpl; auto.
    discriminate.
  - destruct (org_commission.status c); simpl; intros H; inversion H; subst;
      simpl; auto.
Qed.

Lemma commission_onaccept_no_overlap
    (sha256_hexdigest : string -> string) (current : request)
    (db : database) (form : commission_form) (db' : database) :
  NoDup (map org_commission.id (commission_rows db)) ->
  TestProviderModel.commission_onaccept sha256_hexdigest current db form
  = Return db' ->
  no_overlap (commission_rows db) -> no_overlap (commission_rows db').
Proof.
  intros Hnd. unfold TestProviderModel.commission_onaccept.
  destruct (negb (ref_truthy (form_record_id form)));
    [intros H; inversion H; subst; auto|].
  destruct (TestProviderModel.lookup_commission db
              (or_else (form_record_id form) 0)) as [c|] eqn:Hlook;
    [|intros H; inversion H; subst; auto].
  pose proof (verification_frame sha256_hexdigest current db
                (org_commission.organisation_id c)) as Hf.
  destruct (TestProvider.verification sha256_hexdigest current db
              (org_commission.organisation_id c)) as [v db1].
  cbn [snd] in Hf. destruct Hf as (Hc & _).
  destruct (TestProviderModel.onaccept_update (org_verification.accepted v)
              (today current) c) as [[u_status u_reason]|e] eqn:Hupd;
    [|discriminate].
  cbn [bind].
  match goal with
  | |- context [if is_some u_status || is_some u_reason
                then set_commission_rows db1 (map ?f _) else db1] =>
      set (write := f);
      set (db2 := if is_some u_status || is_some u_reason
                  then set_commission_rows db1 (map f (commission_rows db1))
                  else db1)
  end.
  intros Hret Hno.
  assert (Hno2 : no_overlap (commission_rows db2)).
  { subst db2. destruct (is_some u_status || is_some u_reason);
      [|rewrite Hc; exact Hno].
    cbn [commission_rows set_commission_rows]. rewrite Hc.
    apply no_overlap_map; [|exact Hno].
    intros r Hr. subst write. cbv beta.
    destruct (Z.eqb_spec (org_commission.id r) (org_commission.id c))
      as [Heq|Hneq]; [|repeat split; auto].
    assert (r = c).
    { apply find_some in Hlook. destruct Hlook as [Hin _].
      exact (NoDup_map_eq org_commission.id _ r c Hnd Hr Hin Heq). }
    subst r. cbn. repeat split; auto.
    apply (onaccept_update_activates_nothing _ _ _ _ _ Hupd). }
  destruct (negb (opt_eqb commission_status_eqb
                    (Some (or_else u_status (org_commission.status c)))
                    (org_commission.prev_status c))).
  - revert Hret.
    match goal with
    | |- context [TestStation.update_all ?r ?d ?o ?p ?x] =>
        destruct (update_all_returns r d o p x eq_refl)
          as (n & d' & -> & Hfr)
    end.
    cbn [bind]. intros Hret. inversion Hret; subst d'.
    destruct Hfr as (_ & -> & _). exact Hno2.
  - inversion Hret; subst db'. exact Hno2.
Qed.

(** A form whose data overlaps another active commission of the
    organisation gets a form error, and the database is unchanged,
    provided that the query can compare the dates. *)
Lemma overlapping_form_rejected
    (sha256_hexdigest : string -> string) (current : request)
    (db : database) (form : commission_form) (data : commission_data)
    (c : org_commission.row) :
  TestProviderModel.form_data current db form = Return data ->
  active_status (data_status data) = true ->
  In c (commission_rows db) ->
  form_record_id form <> Some (org_commission.id c) ->
  org_commission.deleted c = false ->
  active_status (org_commission.status c) = true ->
  org_commission.organisation_id c = data_organisation_id data ->
  dates_comparable c data ->
  interval_overlap (org_commission.date c) (org_commission.end_date c)
    (data_date data) (data_end_date data) ->
  exists errors,
    TestProviderModel.commission_onvalidation sha256_hexdigest current db form
    = Return (errors, db)
    /\ errors <> [].
Proof.
  intros Hdata Hact Hin Hother Hdel Hactc Horg [Hcmp1 Hcmp2] [Hov1 Hov2].
  unfold TestProviderModel.commission_onvalidation.
  rewrite Hdata. cbn [bind].
  destruct (is_some (fv_end_date (form_vars form))
            && is_some (data_date data) && is_some (data_end_date data)
            && sql_le (data_end_date data) (data_date data)).
  + eexists. split; [reflexivity|]. discriminate.
  + assert (Hex : existsb
                    (TestProviderModel.overlap_query (form_record_id form)
                       data)
                    (commission_rows db) = true).
    { apply existsb_exists. exists c. split; [exact Hin|].
      unfold TestProviderModel.overlap_query.
      rewrite Hactc, Horg, ref_eqb_refl, Hdel.
      assert (H1 : (if ref_truthy (form_record_id form)
                    then negb (ref_eqb (Some (org_commission.id c))
                                 (form_record_id form))
                    else true) = true).
      { destruct (ref_truthy (form_record_id form)); [|reflexivity].
        destruct (ref_eqb (Some (org_commission.id c))
                    (form_record_id form)) eqn:He; [|reflexivity].
        apply ref_eqb_true in He. congruence. }
      rewrite H1.
      assert (H2 : is_none (org_commission.end_date c)
                   || sql_ge (org_commission.end_date c) (data_date data)
                   = true).
      { destruct (org_commission.end_date c) as [e|]; [|reflexivity].
        destruct Hcmp1 as [Hnone|Hsome]; [discriminate|].
        destruct (data_date data) as [s2|]; [|contradiction].
        simpl. apply Z.leb_le. exact Hov2. }
      rewrite H2.
      assert (H3 : (if is_some (data_end_date data)
                    then sql_le (org_commission.date c) (data_end_date data)
                    else true) = true).
      { destruct (data_end_date data) as [e|]; [|reflexivity].
        destruct Hcmp2 as [Hnone|Hsome]; [discriminate|].
        destruct (org_commission.date c) as [s1|]; [|contradiction].
        simpl. apply Z.leb_le. exact Hov1. }
      rewrite H3. reflexivity. }
    rewrite Hact, Hex. cbn [andb].
    eexists. split; [reflexivity|].
    destruct (fv_date (form_vars form)), (fv_end_date (form_vars form));
      simpl; discriminate.
Qed.

(** When every commission has a start date, saving a form that passed
    validation keeps the commissions free of overlaps. *)
Lemma validated_save_no_overlap
    (sha256_hexdigest : string -> string) (current : request)
    (db : database) (form : commission_form) (data : commission_data)
    (db1 : database) (rows' : list org_commission.row) :
  TestProviderModel.form_data current db form = Return data ->
  TestProviderModel.commission_onvalidation sha256_hexdigest current db form
  = Return ([], db1) ->
  commission_saved form data (commission_rows db) rows' ->
  (forall c, In c (commission_rows db) -> org_commission.date c <> None) ->
  data_date data <> None ->
  no_overlap (commission_rows db) -> no_overlap rows'.
Proof.
  intros Hdata Hvalid (c' & Hin' & Hkey & Ho & Hd & He & Hs & Hothers)
    Hdates Hdate Hno.
  assert (Hnew : forall c,
             In c (commission_rows db) ->
             org_commission.id c <> org_commission.id c' ->
             org_commission.deleted c = false ->
             active_status (org_commission.status c) = true ->
             active_status (org_commission.status c') = true ->
             org_commission.organisation_id c
             = org_commission.organisation_id c' ->
             ~ interval_overlap
                 (org_commission.date c) (org_commission.end_date c)
                 (org_commission.date c') (org_commission.end_date c')).
  { intros c Hc Hid Hdel Hact Hact' Horg Hov.
    destruct (overlapping_form_rejected sha256_hexdigest current db form data
                c Hdata) as (errors & Hret & Herr).
    - rewrite <- Hs. exact Hact'.
    - exact Hc.
    - destruct Hkey as [Hk|[Hk _]]; rewrite Hk; [|discriminate].
      intros Heq. inversion Heq. congruence.
    - exact Hdel.
    - exact Hact.
    - rewrite <- Ho. exact Horg.
    - split; right; [exact Hdate|exact (Hdates c Hc)].
    - rewrite <- Hd, <- He. exact Hov.
    - rewrite Hvalid in Hret. inversion Hret. congruence. }
  intros c1 c2 H1 H2 Hid Hd1 Hd2 Ha1 Ha2 Horg.
  destruct (Hothers c1 H1) as [->|[Hc1 Hn1]];
    destruct (Hothers c2 H2) as [->|[Hc2 Hn2]].
  - congruence.
  - intros [Hov1 Hov2].
    apply (Hnew c2 Hc2 Hn2 Hd2 Ha2 Ha1 (eq_sym Horg)).
    split; assumption.
  - apply (Hnew c1 Hc1 Hn1 Hd1 Ha1 Ha2 Horg).
  - apply (Hno c1 c2); assumption.
Qed.

(** A new commission from day 20 to day 30 is rejected while the
    organisation holds an open-ended commission from day 10 on. *)
Example overlapping_form_rejected_example :
  exists errors,
    TestProviderModel.commission_onvalidation plain_digest sample_request
      commissioned_database overlapping_form
    = Return (errors, commissioned_database)
    /\ errors <> [].
Proof.
  apply (overlapping_form_rejected plain_digest sample_request
           commissioned_database overlapping_form
           (CommissionData (Some 1) (Some 20) (Some 30) CURRENT)
           (org_commission.Row 1 (Some 1) (Some 10) None CURRENT
              (Some CURRENT) (Some 10) None false)).
  - reflexivity.
  - reflexivity.
  - left. reflexivity.
  - discriminate.
  - reflexivity.
  - reflexivity.
  - reflexivity.
  - split; [left; reflexivity|right; discriminate].
  - split; simpl; [lia|exact I].
Qed.

(** C3. The overlap check does not see a stored commission without
    start date. Organisation 1 is verified and holds a CURRENT
    commission without start date that ends on day 200. A form for a
    new CURRENT commission of the organisation from day 110 to day 120
    passes [commission_onvalidation] without any form error, although
    [current_commission] counts both commissions as valid on day 115.
    With the start date day 10 in the stored commission, the same form
    is rejected. *)
Theorem commission_overlap_missed :
  TestProviderModel.form_data sample_request open_start_database
    later_commission_form
  = Return (CommissionData (Some 1) (Some 110) (Some 120) CURRENT)
  /\ TestProviderModel.commission_onvalidation plain_digest sample_request
       open_start_database later_commission_form
     = Return ([], open_start_database)
  /\ interval_overlap None (Some 200) (Some 110) (Some 120)
  /\ Forall (fun c =>
              TestProvider.current_commission_query day_115_request (Some 1) c
              = true)
       (commission_rows open_start_database
        ++ [org_commission.Row 2 (Some 1) (Some 110) (Some 120) CURRENT
              None None None false])
  /\ (exists errors,
        TestProviderModel.commission_onvalidation plain_digest sample_request
          dated_start_database later_commission_form
        = Return (errors, dated_start_database)
        /\ errors <> []).
Proof.
  split; [reflexivity|]. split; [vm_compute; reflexivity|].
  split; [split; simpl; [exact I|lia]|].
  split; [repeat constructor|].
  eexists. split; [vm_compute; reflexivity|]. discriminate.
Qed.

(* ------------------------------------------------------------------ *)
(** ** The commission gate on public visibility *)

Lemma current_commission_found (current : request) (db : database)
    (organisation_id : option Z) (c : org_commission.row) :
  TestProvider.current_commission current db organisation_id = Some c ->
  In c (commission_rows db)
  /\ TestProvider.current_commission_query current organisation_id c = true.
Proof.
  unfold TestProvider.current_commission.
  assert (H : forall rows best,
             fold_left
               (fun best c =>
                  if TestProvider.current_commission_query current
                       organisation_id c
                  then match best with
                       | None => Some c
                       | Some b =>
                           if TestProvider.starts_later c b then Some c
                           else best
                       end
                  else best) rows best = Some c ->
             best = Some c
             \/ (In c rows
                 /\ TestProvider.current_commission_query current
                      organisation_id c = true)).
  { induction rows as [|x rows IH]; simpl; intros best Hb; [auto|].
    apply IH in Hb. destruct Hb as [Hb|[Hin Hq]]; [|auto].
    destruct (TestProvider.current_commission_query current organisation_id x)
      eqn:Hx; [|auto].
    destruct best as [b|].
    - destruct (TestProvider.starts_later x b); [|auto].
      inversion Hb; subst. auto.
    - inversion Hb; subst. auto. }
  intros Hc. apply H in Hc. destruct Hc as [Hc|Hc]; [discriminate|exact Hc].
Qed.

Lemma current_commission_query_covers (current : request)
    (organisation_id : option Z) (c : org_commission.row) :
  TestProvider.current_commission_query current organisation_id c = true ->
  org_commission.organisation_id c = organisation_id
  /\ commission_covers current c.
Proof.
  unfold TestProvider.current_commission_query, commission_covers.
  intros H. repeat (apply andb_prop in H; destruct H as [H ?]).
  split; [apply ref_eqb_true; assumption|].
  repeat split.
  - destruct (org_commission.status c); simpl in *; congruence.
  - destruct (org_commission.deleted c); simpl in *; congruence.
  - destruct (org_commission.date c) as [d|]; [|exact I].
    simpl in *. apply Z.leb_le. assumption.
  - destruct (org_commission.end_date c) as [e|]; [|exact I].
    simpl in *. apply Z.leb_le. assumption.
Qed.

(** [update_approval] writes public = Y only with the commission
    flag set. *)
Lemma approval_update_of_public (current : request)
    (a : org_site_approval.row) (vh : string) (commissioned : bool) :
  org_site_approval.public
    (apply_approval_update
       (fst (TestStation.approval_update_of a
               (TestStation.integrity_check current a vh) vh commissioned))
       a) = Y ->
  commissioned = true.
Proof.
  unfold TestStation.approval_update_of, TestStation.integrity_check,
    TestStation.integrity_update, TestStation.approval_workflow,
    TestStation.set_public_reason, TestStation.keep_manual_unlisting,
    TestStation.set_data_hash.
  destruct (approval_status_eqb (org_site_approval.status a) APPROVED
            && str_truthy (org_site_approval.dhash a)
            && negb (ostr_eqb (org_site_approval.dhash a) (Some vh))
            && negb (org_group_admin current));
    destruct (org_site_approval.status a);
    destruct (TestStation.all_tags a RV_APPROVED);
    destruct (TestStation.any_tags a RV_REVIEW);
    destruct (TestStation.any_tags a RV_REVISE);
    destruct (org_site_approval.public a) eqn:Hp;
    destruct (automatic_reason (org_site_approval.public_reason a));
    destruct commissioned;
    cbn; rewrite ?Hp;
    try reflexivity; try discriminate;
    destruct (org_site_approval.mpav a), (org_site_approval.hygiene a),
      (org_site_approval.layout a); cbn; rewrite ?Hp; discriminate.
Qed.

(** On day 100, [commission_onaccept] for the commission that starts on
    day 200 lists the site of the organisation. And for an organisation
    without any commission: the gate holds before and after
    [update_approval], and fails after [reinstate_commission]. *)
Lemma commission_gate_counterexample :
  (exists db',
     TestProviderModel.commission_onaccept plain_digest sample_request
       future_commission_database
       (CommissionForm (Some 1) (CommissionFormVars None None None None None))
     = Return db'
     /\ commission_gate sample_request future_commission_database
     /\ ~ commission_gate sample_request db')
  /\ (exists db1 db2,
        TestStation.update_approval plain_digest sample_request
          uncommissioned_database 9 None = Return db1
        /\ TestProvider.reinstate_commission sample_request db1 (Some 1) "N/V"
           = Return db2
        /\ commission_gate sample_request uncommissioned_database
        /\ commission_gate sample_request db1
        /\ ~ commission_gate sample_request db2).
Proof.
  split.
  - eexists. split; [vm_compute; reflexivity|]. split.
    + intros a [<-|[]] _ Hp. discriminate.
    + intros Hgate.
      destruct (Hgate _ (or_introl eq_refl) eq_refl eq_refl)
        as (c & [<-|[]] & _ & _ & _ & Hstart & _).
      vm_compute in Hstart. apply Hstart. reflexivity.
  - eexists. eexists.
    split; [vm_compute; reflexivity|].
    split; [vm_compute; reflexivity|].
    split; [|split].
    + intros a [<-|[]] _ Hp. discriminate.
    + intros a [<-|[]] _ Hp. discriminate.
    + intros Hgate.
      destruct (Hgate _ (or_introl eq_refl) eq_refl eq_refl) as (c & [] & _).
Qed.

(** C1 (amended). After [update_approval] with the commission looked
    up, the approval record of the station has public = Y only if the
    organisation of the facility has a non-deleted commission with
    status CURRENT whose interval covers today. *)
Theorem update_approval_commission_gate
    (sha256_hexdigest : string -> string) (current : request)
    (db : database) (site_id : Z) (facility : org_facility.row) :
  TestStation.record db site_id = Some facility ->
  exists db' a',
    TestStation.update_approval sha256_hexdigest current db site_id None
    = Return db'
    /\ TestStation.lookup_approval db' site_id = Some a'
    /\ (org_site_approval.public a' = Y ->
        exists c,
          In c (commission_rows db')
          /\ org_commission.organisation_id c
             = org_facility.organisation_id facility
          /\ commission_covers current c).
Proof.
  intros Hrec.
  pose proof (update_approval_result sha256_hexdigest current db site_id None
                facility Hrec) as Hres.
  destruct (TestStation.approval db site_id) as [a db1].
  destruct Hres as (db' & Hret & Hl' & Hframe).
  eexists. eexists. split; [exact Hret|]. split; [exact Hl'|].
  intros Hp. apply approval_update_of_public in Hp.
  unfold commissioned_flag in Hp.
  destruct (ref_truthy (org_facility.organisation_id facility));
    [|discriminate].
  destruct (TestProvider.current_commission current db
              (org_facility.organisation_id facility)) as [c|] eqn:Hc;
    [|discriminate].
  apply current_commission_found in Hc. destruct Hc as [Hin Hq].
  apply current_commission_query_covers in Hq. destruct Hq as [Horg Hcov].
  exists c. destruct Hframe as (_ & -> & _). auto.
Qed.

Lemma update_approval_commission_gate_witness :
  exists db' a',
    TestStation.update_approval plain_digest sample_request
      commissioned_site_database 9 None = Return db'
    /\ TestStation.lookup_approval db' 9 = Some a'
    /\ org_site_approval.public a' = Y
    /\ exists c,
         In c (commission_rows db')
         /\ org_commission.organisation_id c = Some 1
         /\ commission_covers sample_request c.
Proof.
  destruct (update_approval_commission_gate plain_digest sample_request
              commissioned_site_database 9
              (org_facility.Row 4 9 (Some 1) None false) eq_refl)
    as (db' & a' & Hret & Hl & Hgate).
  exists db', a'. split; [exact Hret|]. split; [exact Hl|].
  assert (Hp : org_site_approval.public a' = Y).
  { vm_compute in Hret. inversion Hret; subst db'.
    vm_compute in Hl. inversion Hl; subst a'. reflexivity. }
  split; [exact Hp|]. exact (Hgate Hp).
Defined.

(* ------------------------------------------------------------------ *)
(** ** Calling update_approval twice *)

(** C5. A second [update_approval] one minute after the first, with no
    data changed in between, changes the record and appends a history
    entry. Site 9 is under review with the MPAV qualification set to
    REVISE: the first call sets the status REVISE with the
    public_reason REVISE; the second call keeps the status REVISE and
    replaces the public_reason by REVIEW, since the reason is taken
    from the status in the update, which the second call does not
    set. *)
Theorem update_approval_twice_changes_reason :
  TestStation.lookup_approval revise_database 9
  = Some (org_site_approval.Row 5 (Some 1) 9 None REVIEW RV_REVISE RV_APPROVED
            RV_APPROVED N (Some "REVIEW"%string) None false)
  /\ exists db1 db2 a1 a2,
       TestStation.update_approval plain_digest sample_request
         revise_database 9 None = Return db1
       /\ TestStation.update_approval plain_digest later_request db1 9 None
          = Return db2
       /\ TestStation.lookup_approval db1 9 = Some a1
       /\ TestStation.lookup_approval db2 9 = Some a2
       /\ org_site_approval.status a1 = REVISE
       /\ org_site_approval.status a2 = REVISE
       /\ org_site_approval.public_reason a1 = Some "REVISE"%string
       /\ org_site_approval.public_reason a2 = Some "REVIEW"%string
       /\ a2 <> a1
       /\ List.length (history_rows db1) = 1%nat
       /\ List.length (history_rows db2) = 2%nat.
Proof.
  split; [reflexivity|].
  eexists. eexists. eexists. eexists.
  split; [vm_compute; reflexivity|].
  split; [vm_compute; reflexivity|].
  split; [vm_compute; reflexivity|].
  split; [vm_compute; reflexivity|].
  repeat split; try reflexivity. discriminate.
Qed.

(** After an integrity downgrade to REVISE, with approved dimensions
    demoted to REVIEW, the second call moves the site on to REVIEW. *)
Example update_approval_downgrade_then_review :
  exists db1 db2 a1 a2,
    TestStation.update_approval plain_digest sample_request
      moved_revise_database 9 None = Return db1
    /\ TestStation.update_approval plain_digest later_request db1 9 None
       = Return db2
    /\ TestStation.lookup_approval db1 9 = Some a1
    /\ TestStation.lookup_approval db2 9 = Some a2
    /\ org_site_approval.status a1 = REVISE
    /\ org_site_approval.status a2 = REVIEW
    /\ List.length (history_rows db1) = 1%nat
    /\ List.length (history_rows db2) = 2%nat.
Proof.
  eexists. eexists. eexists. eexists.
  split; [vm_compute; reflexivity|].
  split; [vm_compute; reflexivity|].
  split; [vm_compute; reflexivity|].
  split; [vm_compute; reflexivity|].
  repeat split; reflexivity.
Qed.

(* ------------------------------------------------------------------ *)
(** ** The approval history *)

(** The result of [last_entry]: a row of the site with the greatest
    timestamp, if the site has a history. *)
Lemma last_entry_greatest (db : database) (site_id : Z) :
  match TestStation.last_entry db site_id with
  | None => site_history (history_rows db) site_id = []
  | Some p =>
      In p (site_history (history_rows db) site_id)
      /\ Forall (fun h => org_site_approval_status.timestmp h
                          <= org_site_approval_status.timestmp p)
                (site_history (history_rows db) site_id)
  end.
Proof.
  unfold TestStation.last_entry, site_history.
  set (q := fun h => (org_site_approval_status.site_id h =? site_id)
                     && negb (org_site_approval_status.deleted h)).
  set (step := fun best h =>
                 if q h then
                   match best with
                   | None => Some h
                   | Some b =>
                       if org_site_approval_status.timestmp b
                          <? org_site_approval_status.timestmp h
                       then Some h else best
                   end
                 else best).
  assert (H : forall rows best,
             match fold_left step rows best with
             | None => best = None /\ filter q rows = []
             | Some p =>
                 (best = Some p \/ In p (filter q rows))
                 /\ (forall b, best = Some b ->
                       org_site_approval_status.timestmp b
                       <= org_site_approval_status.timestmp p)
                 /\ Forall (fun h => org_site_approval_status.timestmp h
                                     <= org_site_approval_status.timestmp p)
                           (filter q rows)
             end).
  { induction rows as [|x rows IH]; intros best.
    - simpl. destruct best as [b|]; [|auto].
      repeat split; auto. intros b' Hb'. inversion Hb'; subst. lia.
    - simpl. specialize (IH (step best x)).
      destruct (fold_left step rows (step best x)) as [p|].
      + destruct IH as (Hp & Hbest & Hall).
        unfold step in Hp, Hbest. destruct (q x) eqn:Hq.
        * destruct best as [b|].
          -- destruct (Z.ltb_spec (org_site_approval_status.timestmp b)
                         (org_site_approval_status.timestmp x)).
             ++ specialize (Hbest x eq_refl). repeat split.
                ** destruct Hp as [Hp|Hp];
                     [inversion Hp; subst; right; left; reflexivity
                     |right; right; exact Hp].
                ** intros b' Hb'. inversion Hb'; subst. lia.
                ** constructor; [lia|exact Hall].
             ++ specialize (Hbest b eq_refl). repeat split.
                ** destruct Hp as [Hp|Hp]; [left; exact Hp|right; right; exact Hp].
                ** intros b' Hb'. inversion Hb'; subst. lia.
                ** constructor; [lia|exact Hall].
          -- specialize (Hbest x eq_refl). repeat split.
             ++ destruct Hp as [Hp|Hp];
                  [inversion Hp; subst; right; left; reflexivity
                  |right; right; exact Hp].
             ++ intros b' Hb'. discriminate.
             ++ constructor; [lia|exact Hall].
        * repeat split; auto.
      + destruct IH as (Hbest & Hnil). unfold step in Hbest.
        destruct (q x) eqn:Hq.
        * destruct best as [b|];
            [destruct (org_site_approval_status.timestmp b
                       <? org_site_approval_status.timestmp x)|];
            discriminate.
        * auto. }
  specialize (H (history_rows db) None).
  change (match fold_left step (history_rows db) None with
          | None => filter q (history_rows db) = []
          | Some p =>
              In p (filter q (history_rows db))
              /\ Forall (fun h => org_site_approval_status.timestmp h
                                  <= org_site_approval_status.timestmp p)
                        (filter q (history_rows db))
          end).
  destruct (fold_left step (history_rows db) None) as [p|].
  - destruct H as ([Hp|Hp] & _ & Hall); [discriminate|auto].
  - apply H.
Qed.

Lemma StronglySorted_snoc (l : list Z) (x : Z) :
  StronglySorted Z.lt l -> Forall (fun y => y < x) l ->
  StronglySorted Z.lt (l ++ [x]).
Proof.
  induction l as [|y l IH]; simpl; intros Hs Hall.
  - repeat constructor.
  - apply StronglySorted_inv in Hs. destruct Hs as [Hs Hy].
    inversion Hall; subst. constructor; [auto|].
    apply Forall_app. split; [exact Hy|]. repeat constructor. assumption.
Qed.

Lemma site_history_map (f : org_site_approval_status.row ->
                            org_site_approval_status.row)
    (rows : list org_site_approval_status.row) (site_id : Z) :
  (forall h, In h rows ->
     org_site_approval_status.timestmp (f h)
     = org_site_approval_status.timestmp h
     /\ ((org_site_approval_status.site_id (f h) =? site_id)
         && negb (org_site_approval_status.deleted (f h))
         = (org_site_approval_status.site_id h =? site_id)
           && negb (org_site_approval_status.deleted h))) ->
  map org_site_approval_status.timestmp (site_history (map f rows) site_id)
  = map org_site_approval_status.timestmp (site_history rows site_id).
Proof.
  unfold site_history. induction rows as [|x rows IH]; intros Hf;
    [reflexivity|].
  simpl. destruct (Hf x (or_introl eq_refl)) as [Ht Hq]. rewrite Hq.
  assert (IH' := IH (fun h Hh => Hf h (or_intror Hh))).
  destruct ((org_site_approval_status.site_id x =? site_id)
            && negb (org_site_approval_status.deleted x)); simpl;
    [rewrite Ht; f_equal; exact IH'|exact IH'].
Qed.

(** What one call of [update_approval_history] does to the table:
    nothing, or it appends one snapshot of the approval record dated
    now, or it overwrites the last entry of the site, which is dated
    now, with such a snapshot. *)
Lemma update_approval_history_cases (current : request) (db : database)
    (site_id : Z) (a : org_site_approval.row) :
  let before := history_rows db in
  let after :=
    history_rows (TestStation.update_approval_history current db site_id a) in
  after = before
  \/ (after
      = before ++ [TestStation.snapshot
                     (next_id (map org_site_approval_status.id before))
                     site_id (utcnow current) false a]
      /\ match TestStation.last_entry db site_id with
         | Some p => org_site_approval_status.timestmp p <> utcnow current
         | None => True
         end)
  \/ (exists p,
        TestStation.last_entry db site_id = Some p
        /\ org_site_approval_status.timestmp p = utcnow current
        /\ TestStation.status_changed p a = true
        /\ after = map (overwrite site_id a (org_site_approval_status.id p))
                       before).
Proof.
  unfold TestStation.update_approval_history.
  destruct (TestStation.last_entry db site_id) as [p|] eqn:Hlast.
  - destruct (TestStation.status_changed p a) eqn:Hch; [|left; reflexivity].
    destruct (Z.eqb_spec (org_site_approval_status.timestmp p)
                (utcnow current)) as [Heq|Hneq].
    + right. right. exists p. repeat split; auto.
    + right. left. split; [reflexivity|exact Hneq].
  - right. left. split; [reflexivity|exact I].
Qed.

Lemma NoDup_snoc {A : Type} (l : list A) (x : A) :
  NoDup l -> ~ In x l -> NoDup (l ++ [x]).
Proof.
  induction l as [|y l IH]; simpl; intros Hnd Hx.
  - repeat constructor. tauto.
  - inversion Hnd; subst. constructor.
    + rewrite in_app_iff. simpl. intuition congruence.
    + apply IH; tauto.
Qed.

Lemma site_history_in (rows : list org_site_approval_status.row)
    (site_id : Z) (h : org_site_approval_status.row) :
  In h (site_history rows site_id) ->
  In h rows /\ org_site_approval_status.site_id h = site_id.
Proof.
  unfold site_history. intros H. apply filter_In in H.
  destruct H as [Hin Hq]. apply andb_prop in Hq. destruct Hq as [Hs _].
  apply Z.eqb_eq in Hs. auto.
Qed.

(** [update_approval_history] keeps the history ordered when the
    clock has not run backwards. *)
Lemma update_approval_history_ordered (current : request) (db : database)
    (site_id : Z) (a : org_site_approval.row) :
  history_ordered (utcnow current) (history_rows db) ->
  history_ordered (utcnow current)
    (history_rows (TestStation.update_approval_history current db site_id a)).
Proof.
  intros (Hnd & Hnow & Hsorted).
  pose proof (last_entry_greatest db site_id) as Hlast.
  destruct (update_approval_history_cases current db site_id a)
    as [->|[[-> Hp]|(p & Hl & Ht & _ & ->)]].
  - repeat split; assumption.
  - repeat split.
    + rewrite map_app. apply NoDup_snoc; [exact Hnd|].
      intros Hin. simpl in Hin. exact (next_id_fresh _ _ Hin eq_refl).
    + apply Forall_app. split; [exact Hnow|].
      repeat constructor. simpl. lia.
    + intros s. unfold site_history. rewrite filter_app, map_app.
      fold (site_history (history_rows db) s). simpl.
      destruct (Z.eqb_spec site_id s) as [<-|Hs]; simpl;
        [|rewrite app_nil_r; apply Hsorted].
      apply StronglySorted_snoc; [apply Hsorted|].
      apply Forall_map.
      destruct (TestStation.last_entry db site_id) as [p|].
      * destruct Hlast as [Hin Hall].
        apply site_history_in in Hin. destruct Hin as [Hin _].
        rewrite Forall_forall in Hnow. specialize (Hnow p Hin).
        eapply Forall_impl; [|exact Hall]. simpl. intros h Hh. lia.
      * rewrite Hlast. constructor.
  - rewrite Hl in Hlast. destruct Hlast as [Hin _].
    apply site_history_in in Hin. destruct Hin as [Hin Hsite].
    assert (Hf : forall h, In h (history_rows db) ->
               org_site_approval_status.id
                 (overwrite site_id a (org_site_approval_status.id p) h)
               = org_site_approval_status.id h
               /\ org_site_approval_status.timestmp
                    (overwrite site_id a (org_site_approval_status.id p) h)
                  = org_site_approval_status.timestmp h
               /\ org_site_approval_status.site_id
                    (overwrite site_id a (org_site_approval_status.id p) h)
                  = org_site_approval_status.site_id h
               /\ org_site_approval_status.deleted
                    (overwrite site_id a (org_site_approval_status.id p) h)
                  = org_site_approval_status.deleted h).
    { intros h Hh. unfold overwrite.
      destruct (Z.eqb_spec (org_site_approval_status.id h)
                  (org_site_approval_status.id p)) as [Heq|Hneq];
        [|auto].
      assert (h = p)
        by exact (NoDup_map_eq org_site_approval_status.id _ h p Hnd Hh Hin
                    Heq).
      subst h. simpl. auto. }
    repeat split.
    + rewrite map_map.
      replace (map (fun x => org_site_approval_status.id
                               (overwrite site_id a
                                  (org_site_approval_status.id p) x))
                   (history_rows db))
        with (map org_site_approval_status.id (history_rows db));
        [exact Hnd|].
      apply map_ext_in. intros h Hh. symmetry. apply Hf. exact Hh.
    + apply Forall_map. rewrite Forall_forall in *. intros h Hh.
      destruct (Hf h Hh) as (_ & -> & _). apply Hnow. exact Hh.
    + intros s. rewrite site_history_map; [apply Hsorted|].
      intros h Hh. destruct (Hf h Hh) as (_ & -> & -> & ->). auto.
Qed.

Lemma approval_history_rows (db : database) (site_id : Z) :
  history_rows (snd (TestStation.approval db site_id)) = history_rows db.
Proof.
  unfold TestStation.approval.
  destruct (TestStation.lookup_approval db site_id); reflexivity.
Qed.

Lemma update_approval_history_length (current : request) (db : database)
    (site_id : Z) (a : org_site_approval.row) :
  (List.length (history_rows db)
   <= List.length
        (history_rows
           (TestStation.update_approval_history current db site_id a)))%nat.
Proof.
  destruct (update_approval_history_cases current db site_id a)
    as [->|[[-> _]|(p & _ & _ & _ & ->)]].
  - apply Nat.le_refl.
  - rewrite length_app. simpl. lia.
  - rewrite length_map. apply Nat.le_refl.
Qed.

Lemma update_approval_history_kept
    (sha256_hexdigest : string -> string) (current : request)
    (db : database) (site_id : Z) (commissioned : option bool)
    (db' : database) :
  history_ordered (utcnow current) (history_rows db) ->
  TestStation.update_approval sha256_hexdigest current db site_id commissioned
  = Return db' ->
  history_kept (utcnow current) db db'.
Proof.
  intros Hord. unfold TestStation.update_approval.
  pose proof (approval_history_rows db site_id) as Hh.
  destruct (TestStation.approval db site_id) as [a db1]. simpl in Hh.
  destruct (TestStation.record db1 site_id) as [facility|]; [|discriminate].
  destruct (TestStation.vhash sha256_hexdigest current db1 site_id a)
    as [[integrity vh]|e]; [|discriminate].
  cbn [bind].
  match goal with
  | |- context [TestStation.approval_update_of ?x ?i ?v ?c] =>
      destruct (TestStation.approval_update_of x i v c) as [update notify]
  end.
  intros Hret. inversion Hret; subst db'. clear Hret.
  set (db2 := TestStation.update_record db1 (org_site_approval.id a) update).
  assert (H2 : history_rows db2 = history_rows db) by exact Hh.
  split.
  - apply update_approval_history_ordered. rewrite H2. exact Hord.
  - rewrite <- H2. apply update_approval_history_length.
Qed.

Lemma update_all_history_kept (current : request) (db : database)
    (organisation_id : option Z) (public : yesno) (reason : option string)
    (n : Z) (db' : database) :
  history_ordered (utcnow current) (history_rows db) ->
  TestStation.update_all current db organisation_id public reason
  = Return (n, db') ->
  history_kept (utcnow current) db db'.
Proof.
  intros Hord. unfold TestStation.update_all.
  destruct (yesno_eqb public N && negb (str_truthy reason)); [discriminate|].
  intros Hret. inversion Hret; subst. clear Hret.
  apply (fold_left_invariant (history_kept (utcnow current) db)).
  - intros d row [Hd Hlen].
    pose proof (approval_history_rows d (org_site_approval.site_id row)) as Hh.
    destruct (TestStation.approval d (org_site_approval.site_id row))
      as [a d1]. simpl in Hh. split.
    + apply update_approval_history_ordered. rewrite Hh. exact Hd.
    + eapply Nat.le_trans; [exact Hlen|]. rewrite <- Hh.
      apply update_approval_history_length.
  - split; [exact Hord|apply Nat.le_refl].
Qed.

(** Two calls of [update_approval] in the same request: the history
    entry that the first call wrote is overwritten by the second. *)
Lemma approval_history_counterexample :
  exists db1 db2,
    TestStation.update_approval plain_digest sample_request revise_database
      9 None = Return db1
    /\ TestStation.update_approval plain_digest sample_request db1 9 None
       = Return db2
    /\ ~ appended_only (history_rows db1) (history_rows db2).
Proof.
  eexists. eexists.
  split; [vm_compute; reflexivity|].
  split; [vm_compute; reflexivity|].
  intros [added Hadded]. simpl in Hadded. inversion Hadded.
Qed.

(** C8 (amended). The approval history is written by
    [update_approval_history] only, and one call either leaves the
    table as it is, or appends one row dated now that holds the status
    fields of the live approval record, or overwrites the last entry of
    the site, dated now, with these fields. No row is deleted and the
    number of rows never decreases; with unique keys a row with another
    timestamp than now is left as it is. When no row is dated after
    now, [update_approval] and [update_all] keep keys unique and the
    timestamps of every site strictly increasing. *)
Theorem approval_history_append_or_overwrite
    (sha256_hexdigest : string -> string) (current : request)
    (db : database) :
  (forall site_id a,
     let before := history_rows db in
     let after :=
       history_rows
         (TestStation.update_approval_history current db site_id a) in
     (after = before
      \/ (exists new,
            after = before ++ [new]
            /\ org_site_approval_status.site_id new = site_id
            /\ org_site_approval_status.timestmp new = utcnow current
            /\ TestStation.status_changed new a = false)
      \/ (exists p,
            TestStation.last_entry db site_id = Some p
            /\ org_site_approval_status.timestmp p = utcnow current
            /\ after = map (overwrite site_id a
                              (org_site_approval_status.id p)) before))
     /\ (List.length before <= List.length after)%nat
     /\ (NoDup (map org_site_approval_status.id before) ->
         forall h, In h before ->
           org_site_approval_status.timestmp h <> utcnow current ->
           In h after))
  /\ (history_ordered (utcnow current) (history_rows db) ->
      (forall site_id commissioned db',
         TestStation.update_approval sha256_hexdigest current db site_id
           commissioned = Return db' ->
         history_kept (utcnow current) db db')
      /\ (forall organisation_id public reason n db',
            TestStation.update_all current db organisation_id public reason
            = Return (n, db') ->
            history_kept (utcnow current) db db')).
Proof.
  split.
  - intros site_id a before after. subst before after.
    split; [|split].
    + destruct (update_approval_history_cases current db site_id a)
        as [H|[[H _]|(p & Hl & Ht & _ & H)]].
      * left. exact H.
      * right. left. eexists. split; [exact H|].
        split; [reflexivity|]. split; [reflexivity|].
        unfold TestStation.status_changed, TestStation.snapshot. simpl.
        destruct (org_site_approval.status a), (org_site_approval.mpav a),
          (org_site_approval.hygiene a), (org_site_approval.layout a),
          (org_site_approval.public a); simpl;
          rewrite !ostr_eqb_refl; reflexivity.
      * right. right. exists p. auto.
    + apply update_approval_history_length.
    + intros Hnd h Hin Hts.
      pose proof (last_entry_greatest db site_id) as Hlast.
      destruct (update_approval_history_cases current db site_id a)
        as [->|[[-> _]|(p & Hl & Ht & _ & ->)]].
      * exact Hin.
      * apply in_or_app. left. exact Hin.
      * rewrite Hl in Hlast. destruct Hlast as [Hp _].
        apply site_history_in in Hp. destruct Hp as [Hp _].
        apply in_map_iff. exists h. split; [|exact Hin].
        unfold overwrite.
        destruct (Z.eqb_spec (org_site_approval_status.id h)
                    (org_site_approval_status.id p)) as [Heq|Hneq];
          [|reflexivity].
        assert (h = p)
          by exact (NoDup_map_eq org_site_approval_status.id _ h p Hnd Hin Hp
                      Heq).
        subst h. contradiction.
  - intros Hord. split.
    + intros site_id commissioned db'.
      apply update_approval_history_kept. exact Hord.
    + intros organisation_id public reason n db'.
      apply update_all_history_kept. exact Hord.
Qed.

Lemma approval_history_append_or_overwrite_witness :
  exists db',
    TestStation.update_approval plain_digest sample_request revise_database
      9 None = Return db'
    /\ history_kept (utcnow sample_request) revise_database db'.
Proof.
  assert (Hord : history_ordered (utcnow sample_request)
                   (history_rows revise_database)).
  { repeat split; simpl; constructor. }
  eexists. split; [vm_compute; reflexivity|].
  apply (proj1 (proj2 (approval_history_append_or_overwrite plain_digest
                         sample_request revise_database) Hord)
           9 None).
  vm_compute. reflexivity.
Defined.

(* ------------------------------------------------------------------ *)
(** ** When a second update_approval changes nothing *)

Lemma integrity_check_cases (current : request) (a : org_site_approval.row)
    (vh : string) :
  TestStation.integrity_check current a vh = None
  \/ (org_site_approval.status a = APPROVED
      /\ TestStation.integrity_check current a vh
         = Some (TestStation.integrity_update a)).
Proof.
  unfold TestStation.integrity_check.
  destruct (org_site_approval.status a); simpl; auto.
  destruct (str_truthy (org_site_approval.dhash a)
            && negb (ostr_eqb (org_site_approval.dhash a) (Some vh))
            && negb (org_group_admin current)); auto.
Qed.

(** After [update_approval] the record holds the location hash exactly
    when it is approved. *)
Lemma approval_step_dhash (current : request) (a : org_site_approval.row)
    (vh : string) (commissioned : bool) :
  org_site_approval.dhash (approval_step current a vh commissioned)
  = if approval_status_eqb
         (org_site_approval.status (approval_step current a vh commissioned))
         APPROVED
    then Some vh else None.
Proof.
  unfold approval_step, TestStation.approval_update_of.
  destruct (match TestStation.integrity_check current a vh with
            | Some u => (u, false)
            | None => TestStation.approval_workflow a
            end) as [update notify].
  reflexivity.
Qed.

(** Hence the integrity check of the next call passes, whoever
    calls. *)
Lemma approval_step_integrity (current current' : request)
    (a : org_site_approval.row) (vh : string) (commissioned : bool) :
  TestStation.integrity_check current'
    (approval_step current a vh commissioned) vh = None.
Proof.
  unfold TestStation.integrity_check. rewrite approval_step_dhash.
  destruct (approval_status_eqb
              (org_site_approval.status
                 (approval_step current a vh commissioned)) APPROVED);
    [|reflexivity].
  rewrite ostr_eqb_refl. cbn [negb andb]. rewrite andb_false_r. reflexivity.
Qed.



Lemma snapshot_unchanged (id site_id timestmp : Z) (deleted : bool)
    (a : org_site_approval.row) :
  TestStation.status_changed
    (TestStation.snapshot id site_id timestmp deleted a) a = false.
Proof.
  unfold TestStation.status_changed, TestStation.snapshot. simpl.
  destruct (org_site_approval.status a), (org_site_approval.mpav a),
    (org_site_approval.hygiene a), (org_site_approval.layout a),
    (org_site_approval.public a); simpl;
    rewrite !ostr_eqb_refl; reflexivity.
Qed.

Lemma sorted_map_eq {A : Type} (f : A -> Z) (l : list A) (x y : A) :
  StronglySorted Z.lt (map f l) -> In x l -> In y l -> f x = f y -> x = y.
Proof.
  induction l as [|z l IH]; simpl; [tauto|].
  intros Hs Hx Hy Hxy. apply StronglySorted_inv in Hs.
  destruct Hs as [Hs Hz]. rewrite Forall_forall in Hz.
  destruct Hx as [->|Hx], Hy as [->|Hy]; auto.
  - specialize (Hz (f y) (in_map f l y Hy)). lia.
  - specialize (Hz (f x) (in_map f l x Hx)). lia.
Qed.


(** After [update_approval_history] the last entry of the site agrees
    with the approval record, when the clock has not run backwards. *)
Lemma update_approval_history_last (current : request) (db : database)
    (site_id : Z) (a : org_site_approval.row) :
  history_ordered (utcnow current) (history_rows db) ->
  exists e,
    TestStation.last_entry
      (TestStation.update_approval_history current db site_id a) site_id
    = Some e
    /\ TestStation.status_changed e a = false.
Proof.
  intros (Hnd & Hnow & Hsorted).
  pose proof (last_entry_greatest db site_id) as Hlast.
  pose proof (last_entry_greatest
                (TestStation.update_approval_history current db site_id a)
                site_id) as Hlast'.
  revert Hlast'. unfold TestStation.update_approval_history.
  destruct (TestStation.last_entry db site_id) as [p|] eqn:Hp.
  - destruct Hlast as [Hin Hall].
    destruct (site_history_in _ _ _ Hin) as [Hinp Hsite].
    destruct (TestStation.status_changed p a) eqn:Hch.
    + destruct (Z.eqb_spec (org_site_approval_status.timestmp p)
                  (utcnow current)) as [Heq|Hneq].
      * (* the entry of this instant is overwritten *)
        set (ov := fun h =>
                     if org_site_approval_status.id h
                        =? org_site_approval_status.id p
                     then TestStation.snapshot (org_site_approval_status.id h)
                            site_id (org_site_approval_status.timestmp h)
                            (org_site_approval_status.deleted h) a
                     else h).
        set (db' := set_history_rows db (map ov (history_rows db))).
        intros Hlast'.
        assert (Hovp : In (ov p) (site_history (history_rows db') site_id)).
        { unfold site_history. apply filter_In. split.
          - cbn. apply in_map. exact Hinp.
          - unfold ov. rewrite Z.eqb_refl. cbn. rewrite Z.eqb_refl.
            unfold site_history in Hin. apply filter_In in Hin.
            destruct Hin as [_ Hq]. apply andb_prop in Hq. apply Hq. }
        destruct (TestStation.last_entry db' site_id) as [e|].
        -- exists e. split; [reflexivity|].
           destruct Hlast' as [Hine Halle].
           unfold site_history in Hine. apply filter_In in Hine.
           destruct Hine as [Hine Hqe]. cbn in Hine.
           apply in_map_iff in Hine. destruct Hine as (x & Hx & Hinx).
           unfold ov in Hx.
           destruct (Z.eqb_spec (org_site_approval_status.id x)
                       (org_site_approval_status.id p)) as [Hid|Hid].
           ++ subst e. apply snapshot_unchanged.
           ++ subst e. exfalso. apply Hid. f_equal.
              apply (sorted_map_eq org_site_approval_status.timestmp
                       (site_history (history_rows db) site_id) x p
                       (Hsorted site_id)).
              ** unfold site_history. apply filter_In. auto.
              ** exact Hin.
              ** rewrite Forall_forall in Halle, Hnow.
                 specialize (Halle _ Hovp). specialize (Hnow x Hinx).
                 unfold ov in Halle. rewrite Z.eqb_refl in Halle.
                 cbn in Halle. lia.
        -- rewrite Hlast' in Hovp. destruct Hovp.
      * (* a new entry is appended *)
        set (new := TestStation.snapshot
                      (next_id (map org_site_approval_status.id
                                  (history_rows db)))
                      site_id (utcnow current) false a).
        set (db' := set_history_rows db (history_rows db ++ [new])).
        intros Hlast'.
        assert (Hsh : site_history (history_rows db') site_id
                      = site_history (history_rows db) site_id ++ [new]).
        { unfold site_history. cbn. rewrite filter_app. cbn.
          rewrite Z.eqb_refl. reflexivity. }
        rewrite Hsh in Hlast'.
        destruct (TestStation.last_entry db' site_id) as [e|].
        -- exists e. split; [reflexivity|].
           destruct Hlast' as [Hine Halle].
           apply in_app_or in Hine. destruct Hine as [Hine|[<-|[]]];
             [|apply snapshot_unchanged].
           exfalso. rewrite Forall_forall in Hall, Halle, Hnow.
           specialize (Hall e Hine). specialize (Hnow p Hinp).
           assert (Hnew : In new (site_history (history_rows db) site_id
                                  ++ [new]))
             by (apply in_or_app; right; left; reflexivity).
           specialize (Halle new Hnew). cbn in Halle. lia.
        -- destruct (site_history (history_rows db) site_id); discriminate.
    + intros _. exists p. auto.
  - set (new := TestStation.snapshot
                  (next_id (map org_site_approval_status.id
                              (history_rows db)))
                  site_id (utcnow current) false a).
    set (db' := set_history_rows db (history_rows db ++ [new])).
    intros Hlast'.
    assert (Hsh : site_history (history_rows db') site_id = [new]).
    { unfold site_history. cbn. rewrite filter_app. cbn.
      rewrite Z.eqb_refl. cbn. unfold site_history in Hlast.
      rewrite Hlast. reflexivity. }
    rewrite Hsh in Hlast'.
    destruct (TestStation.last_entry db' site_id) as [e|];
      [|discriminate].
    destruct Hlast' as [[<-|[]] _]. exists new. split; [reflexivity|].
    apply snapshot_unchanged.
Qed.

Lemma approval_keeps_history (db : database) (site_id : Z) :
  history_rows (snd (TestStation.approval db site_id)) = history_rows db.
Proof.
  unfold TestStation.approval.
  destruct (TestStation.lookup_approval db site_id); reflexivity.
Qed.


(** The database that [update_approval] returns. *)
Lemma update_approval_exact
    (sha256_hexdigest : string -> string) (current : request)
    (db : database) (site_id : Z) (commissioned : option bool)
    (facility : org_facility.row) :
  TestStation.record db site_id = Some facility ->
  let '(a, db0) := TestStation.approval db site_id in
  let vh := TestStation.location_hash sha256_hexdigest db facility in
  let update :=
    fst (TestStation.approval_update_of a
           (TestStation.integrity_check current a vh) vh
           (commissioned_flag current db facility commissioned)) in
  TestStation.update_approval sha256_hexdigest current db site_id commissioned
  = Return (TestStation.update_approval_history current
              (TestStation.update_record db0 (org_site_approval.id a) update)
              site_id (apply_approval_update update a)).
Proof.
  intros Hrec. unfold TestStation.update_approval.
  pose proof (approval_frame db site_id) as Hf.
  destruct (TestStation.approval db site_id) as [a db1]. simpl in Hf.
  destruct Hf as (Hv & Hc & Hfac & Hloc & Hrest).
  assert (Hrec1 : TestStation.record db1 site_id = Some facility).
  { unfold TestStation.record in *. rewrite Hfac. exact Hrec. }
  rewrite Hrec1. unfold TestStation.vhash. rewrite Hrec1.
  cbn [bind].
  assert (Hvh : TestStation.location_hash sha256_hexdigest db1 facility
                = TestStation.location_hash sha256_hexdigest db facility).
  { unfold TestStation.location_hash. rewrite Hloc. reflexivity. }
  assert (Hcf : (match commissioned with
                 | Some b => b
                 | None =>
                     if ref_truthy (org_facility.organisation_id facility) then
                       is_some (TestProviderData.current_commission current db1
                                  (org_facility.organisation_id facility))
                     else false
                 end)
                = commissioned_flag current db facility commissioned).
  { unfold commissioned_flag, TestProvider.current_commission,
      TestProviderData.current_commission. rewrite Hc. reflexivity. }
  rewrite Hvh, Hcf.
  destruct (TestStation.approval_update_of a
              (TestStation.integrity_check current a
                 (TestStation.location_hash sha256_hexdigest db facility))
              (TestStation.location_hash sha256_hexdigest db facility)
              (commissioned_flag current db facility commissioned))
    as [update notify].
  reflexivity.
Qed.



(* ------------------------------------------------------------------ *)
(** ** Further properties of update_approval *)

Lemma update_approval_step
    (sha256_hexdigest : string -> string) (current : request)
    (db : database) (site_id : Z) (commissioned : option bool)
    (facility : org_facility.row) :
  TestStation.record db site_id = Some facility ->
  exists db',
    TestStation.update_approval sha256_hexdigest current db site_id
      commissioned = Return db'
    /\ TestStation.lookup_approval db' site_id
       = Some (approval_step current (fst (TestStation.approval db site_id))
                 (TestStation.location_hash sha256_hexdigest db facility)
                 (commissioned_flag current db facility commissioned))
    /\ same_provider_tables db db'.
Proof.
  intros Hrec.
  pose proof (update_approval_result sha256_hexdigest current db site_id
                commissioned facility Hrec) as H.
  destruct (TestStation.approval db site_id) as [a db0]. exact H.
Qed.

Lemma approval_workflow_status (a : org_site_approval.row) :
  let a' := apply_approval_update (fst (TestStation.approval_workflow a)) a in
  org_site_approval.status a' = status_of_dimensions a'.
Proof.
  destruct a as [id org site dh st m h l p pr adv del].
  destruct st, m, h, l; reflexivity.
Qed.

Lemma approval_step_listed (current : request) (a : org_site_approval.row)
    (vh : string) (commissioned : bool) :
  let a' := approval_step current a vh commissioned in
  org_site_approval.public a' = Y ->
  fully_approved a'
  /\ org_site_approval.dhash a' = Some vh
  /\ org_site_approval.public_reason a' = None
  /\ commissioned = true.
Proof.
  cbv zeta. unfold approval_step, fully_approved.
  destruct (integrity_check_cases current a vh) as [Hic|[Hst Hic]];
    rewrite Hic; clear Hic.
  - destruct a as [id org site dh st m h l p pr adv del].
    unfold TestStation.approval_update_of, TestStation.keep_manual_unlisting.
    cbn [org_site_approval.public_reason org_site_approval.public].
    destruct (automatic_reason pr);
      destruct st, m, h, l, p, commissioned; cbn; intros H;
      first [discriminate H | repeat split; reflexivity].
  - destruct a as [id org site dh st m h l p pr adv del].
    cbn in Hst. subst st.
    unfold TestStation.approval_update_of, TestStation.keep_manual_unlisting.
    cbn [org_site_approval.public_reason org_site_approval.public].
    destruct (automatic_reason pr);
      destruct m, h, l, p, commissioned; cbn; intros H;
      first [discriminate H | repeat split; reflexivity].
Qed.

Lemma approval_found (db : database) (site_id : Z)
    (a : org_site_approval.row) :
  TestStation.lookup_approval db site_id = Some a ->
  TestStation.approval db site_id = (a, db).
Proof. intros H. unfold TestStation.approval. rewrite H. reflexivity. Qed.

Lemma approval_step_manual (current : request) (a : org_site_approval.row)
    (vh : string) (commissioned : bool) :
  org_site_approval.public a = N ->
  automatic_reason (org_site_approval.public_reason a) = false ->
  let a' := approval_step current a vh commissioned in
  org_site_approval.public a' = N
  /\ org_site_approval.public_reason a' = org_site_approval.public_reason a.
Proof.
  intros Hp Hr. cbv zeta. unfold approval_step.
  destruct a as [id org site dh st m h l p pr adv del].
  cbn in Hp, Hr. subst p.
  unfold TestStation.approval_update_of, TestStation.keep_manual_unlisting.
  cbn [org_site_approval.public_reason org_site_approval.public].
  rewrite Hr.
  destruct (match
               TestStation.integrity_check current
                 (org_site_approval.Row id org site dh st m h l N pr adv del)
                 vh
             with
             | Some u => (u, false)
             | None =>
                 TestStation.approval_workflow
                   (org_site_approval.Row id org site dh st m h l N pr adv del)
             end) as [update notify].
  cbn. split; reflexivity.
Qed.

Lemma approval_step_notify (current : request) (a : org_site_approval.row)
    (vh : string) (commissioned : bool) :
  snd (TestStation.approval_update_of a
         (TestStation.integrity_check current a vh) vh commissioned) = true ->
  let a' := approval_step current a vh commissioned in
  TestStation.integrity_check current a vh = None
  /\ org_site_approval.status a' <> org_site_approval.status a
  /\ (org_site_approval.status a' = APPROVED
      \/ org_site_approval.status a' = REVISE).
Proof.
  cbv zeta. unfold approval_step.
  destruct (integrity_check_cases current a vh) as [Hic|[Hst Hic]];
    rewrite Hic; clear Hic.
  - destruct a as [id org site dh st m h l p pr adv del].
    unfold TestStation.approval_update_of, TestStation.keep_manual_unlisting.
    cbn [org_site_approval.public_reason org_site_approval.public].
    destruct (automatic_reason pr);
      destruct st, m, h, l, p, commissioned; cbn; intros H;
      first [discriminate H
            | split; [reflexivity|]; split; [discriminate|]; auto].
  - unfold TestStation.approval_update_of. cbn. discriminate.
Qed.

(** X10. After the update of [approval_workflow] the status is the one the
    review dimensions stand for: APPROVED when all three are APPROVED,
    else REVIEW when one is REVIEW, else REVISE; it is never READY.
    The update lists the site exactly when all dimensions are APPROVED
    and the status was REVISE or REVIEW. *)
Theorem approval_workflow_status_by_dimensions (a : org_site_approval.row) :
  let update := fst (TestStation.approval_workflow a) in
  let a' := apply_approval_update update a in
  org_site_approval.status a' = status_of_dimensions a'
  /\ (au_public update = Some Y
      <-> TestStation.all_tags a RV_APPROVED = true
          /\ (org_site_approval.status a = REVISE
              \/ org_site_approval.status a = REVIEW)).
Proof.
  destruct a as [id org site dh st m h l p pr adv del].
  destruct st, m, h, l; cbn; (split; [reflexivity|]);
    (split; [intros H; first [discriminate H | auto]
            | intros [H1 [H2|H2]];
              first [discriminate H1 | discriminate H2 | reflexivity]]).
Qed.

(** X1. After [update_approval] the approval record of the station is
    public only if its status and all three review dimensions are
    APPROVED; the record then holds the current location hash and no
    public_reason. *)
Theorem update_approval_lists_approved_only
    (sha256_hexdigest : string -> string) (current : request)
    (db : database) (site_id : Z) (commissioned : option bool)
    (facility : org_facility.row) :
  TestStation.record db site_id = Some facility ->
  exists db' a',
    TestStation.update_approval sha256_hexdigest current db site_id
      commissioned = Return db'
    /\ TestStation.lookup_approval db' site_id = Some a'
    /\ (org_site_approval.public a' = Y ->
        fully_approved a'
        /\ org_site_approval.dhash a'
           = Some (TestStation.location_hash sha256_hexdigest db facility)
        /\ org_site_approval.public_reason a' = None).
Proof.
  intros Hrec.
  destruct (update_approval_step sha256_hexdigest current db site_id
              commissioned facility Hrec) as (db' & Hret & Hl & _).
  eexists. eexists. split; [exact Hret|]. split; [exact Hl|].
  intros Hp. apply approval_step_listed in Hp. tauto.
Qed.

Lemma update_approval_lists_approved_only_witness :
  exists db' a',
    TestStation.update_approval plain_digest sample_request
      commissioned_site_database 9 None = Return db'
    /\ TestStation.lookup_approval db' 9 = Some a'
    /\ org_site_approval.public a' = Y
    /\ fully_approved a'
    /\ org_site_approval.public_reason a' = None.
Proof.
  destruct (update_approval_lists_approved_only plain_digest sample_request
              commissioned_site_database 9 None _ eq_refl)
    as (db' & a' & Hret & Hl & Hlisted).
  exists db', a'. split; [exact Hret|]. split; [exact Hl|].
  assert (Hp : org_site_approval.public a' = Y).
  { vm_compute in Hret. inversion Hret; subst db'.
    vm_compute in Hl. inversion Hl; subst a'. reflexivity. }
  split; [exact Hp|]. destruct (Hlisted Hp) as (H1 & _ & H3). auto.
Defined.

(** X2. A record that is de-listed (public = N) with a reason that is not
    one of NEW, COMMISSION, REVISE and REVIEW stays de-listed with that
    reason through [update_approval], whatever the workflow decides. *)
Theorem update_approval_keeps_manual_unlisting
    (sha256_hexdigest : string -> string) (current : request)
    (db : database) (site_id : Z) (commissioned : option bool)
    (facility : org_facility.row) (a : org_site_approval.row) :
  TestStation.record db site_id = Some facility ->
  TestStation.lookup_approval db site_id = Some a ->
  org_site_approval.public a = N ->
  automatic_reason (org_site_approval.public_reason a) = false ->
  exists db' a',
    TestStation.update_approval sha256_hexdigest current db site_id
      commissioned = Return db'
    /\ TestStation.lookup_approval db' site_id = Some a'
    /\ org_site_approval.public a' = N
    /\ org_site_approval.public_reason a'
       = org_site_approval.public_reason a.
Proof.
  intros Hrec Hl Hp Hr.
  destruct (update_approval_step sha256_hexdigest current db site_id
              commissioned facility Hrec) as (db' & Hret & Hl' & _).
  rewrite (approval_found db site_id a Hl) in Hl'. cbn [fst] in Hl'.
  eexists. eexists. split; [exact Hret|]. split; [exact Hl'|].
  apply approval_step_manual; assumption.
Qed.

Lemma update_approval_keeps_manual_unlisting_witness :
  exists db' a',
    TestStation.update_approval plain_digest sample_request
      overridden_site_database 9 None = Return db'
    /\ TestStation.lookup_approval db' 9 = Some a'
    /\ org_site_approval.public a' = N
    /\ org_site_approval.public_reason a' = Some "OVERRIDE"%string.
Proof.
  exact (update_approval_keeps_manual_unlisting plain_digest sample_request
           overridden_site_database 9 None _ _ eq_refl eq_refl eq_refl
           eq_refl).
Defined.

(** X9. [update_approval] notifies only when the integrity check has
    passed and the workflow has changed the status, to APPROVED or to
    REVISE. *)
Theorem update_approval_notifies_on_decision (current : request)
    (a : org_site_approval.row) (vh : string) (commissioned : bool) :
  snd (TestStation.approval_update_of a
         (TestStation.integrity_check current a vh) vh commissioned) = true ->
  let a' := approval_step current a vh commissioned in
  TestStation.integrity_check current a vh = None
  /\ org_site_approval.status a' <> org_site_approval.status a
  /\ (org_site_approval.status a' = APPROVED
      \/ org_site_approval.status a' = REVISE).
Proof. apply approval_step_notify. Qed.

Lemma update_approval_notifies_on_decision_witness :
  org_site_approval.status
    (approval_step sample_request
       (org_site_approval.Row 5 (Some 1) 9 None REVIEW RV_REVISE RV_APPROVED
          RV_APPROVED N (Some "REVIEW"%string) None false) "h" false)
  = REVISE.
Proof.
  destruct (update_approval_notifies_on_decision sample_request
              (org_site_approval.Row 5 (Some 1) 9 None REVIEW RV_REVISE
                 RV_APPROVED RV_APPROVED N (Some "REVIEW"%string) None false)
              "h" false eq_refl) as (_ & _ & [H|H]).
  - discriminate H.
  - exact H.
Defined.

(** X8. [update_approval] raises AttributeError when the station has no
    facility record that is not deleted, and returns otherwise. *)
Theorem update_approval_without_facility
    (sha256_hexdigest : string -> string) (current : request)
    (db : database) (site_id : Z) (commissioned : option bool) :
  match TestStation.record db site_id with
  | None =>
      TestStation.update_approval sha256_hexdigest current db site_id
        commissioned = Raise AttributeError
  | Some _ =>
      exists db',
        TestStation.update_approval sha256_hexdigest current db site_id
          commissioned = Return db'
  end.
Proof.
  destruct (TestStation.record db site_id) as [facility|] eqn:Hrec.
  - destruct (update_approval_step sha256_hexdigest current db site_id
                commissioned facility Hrec) as (db' & Hret & _).
    exists db'. exact Hret.
  - unfold TestStation.update_approval.
    pose proof (approval_frame db site_id) as Hf.
    destruct (TestStation.approval db site_id) as [a db1]. simpl in Hf.
    destruct Hf as (_ & _ & Hfac & _).
    assert (Hrec1 : TestStation.record db1 site_id = None).
    { unfold TestStation.record in *. rewrite Hfac. exact Hrec. }
    rewrite Hrec1. reflexivity.
Qed.

Lemma approval_step_admin (current : request) (a : org_site_approval.row)
    (vh : string) (commissioned : bool) :
  org_group_admin current = true ->
  fully_approved a ->
  let a' := approval_step current a vh commissioned in
  fully_approved a' /\ org_site_approval.dhash a' = Some vh.
Proof.
  intros Hadmin (Hs & Hm & Hh & Hl). cbv zeta.
  unfold approval_step, TestStation.integrity_check. rewrite Hadmin.
  cbn [negb]. rewrite andb_false_r.
  destruct a as [id org site dh st m h l p pr adv del].
  cbn in Hs, Hm, Hh, Hl. subst st m h l.
  unfold TestStation.approval_update_of, TestStation.keep_manual_unlisting,
    fully_approved.
  cbn [org_site_approval.public_reason org_site_approval.public].
  destruct (automatic_reason pr); destruct p, commissioned; cbn;
    repeat split; reflexivity.
Qed.

(** X5. For a user with the ORG_GROUP_ADMIN role, [update_approval] keeps
    a fully approved record fully approved whatever hash it holds, and
    stores the current location hash. *)
Theorem update_approval_by_admin_keeps_approval
    (sha256_hexdigest : string -> string) (current : request)
    (db : database) (site_id : Z) (commissioned : option bool)
    (facility : org_facility.row) (a : org_site_approval.row) :
  TestStation.record db site_id = Some facility ->
  TestStation.lookup_approval db site_id = Some a ->
  org_group_admin current = true ->
  fully_approved a ->
  exists db' a',
    TestStation.update_approval sha256_hexdigest current db site_id
      commissioned = Return db'
    /\ TestStation.lookup_approval db' site_id = Some a'
    /\ fully_approved a'
    /\ org_site_approval.dhash a'
       = Some (TestStation.location_hash sha256_hexdigest db facility).
Proof.
  intros Hrec Hl Hadmin Hfull.
  destruct (update_approval_step sha256_hexdigest current db site_id
              commissioned facility Hrec) as (db' & Hret & Hl' & _).
  rewrite (approval_found db site_id a Hl) in Hl'. cbn [fst] in Hl'.
  eexists. eexists. split; [exact Hret|]. split; [exact Hl'|].
  apply approval_step_admin; assumption.
Qed.

Lemma update_approval_by_admin_keeps_approval_witness :
  exists db' a',
    TestStation.update_approval plain_digest admin_request
      moved_site_database 9 None = Return db'
    /\ TestStation.lookup_approval db' 9 = Some a'
    /\ fully_approved a'
    /\ org_site_approval.dhash a' = Some "7#***#Bahnhofstr. 2#55116"%string.
Proof.
  refine (update_approval_by_admin_keeps_approval plain_digest admin_request
            moved_site_database 9 None _ _ eq_refl eq_refl eq_refl _).
  repeat split; reflexivity.
Defined.

(** X6. After [update_approval] the record holds the location hash when it
    is APPROVED and no hash otherwise, and [vhash] on the result
    reports no change, whoever calls it. *)
Theorem update_approval_then_vhash
    (sha256_hexdigest : string -> string) (current later : request)
    (db : database) (site_id : Z) (commissioned : option bool)
    (facility : org_facility.row) :
  TestStation.record db site_id = Some facility ->
  let vh := TestStation.location_hash sha256_hexdigest db facility in
  exists db' a',
    TestStation.update_approval sha256_hexdigest current db site_id
      commissioned = Return db'
    /\ TestStation.lookup_approval db' site_id = Some a'
    /\ org_site_approval.dhash a'
       = (if approval_status_eqb (org_site_approval.status a') APPROVED
          then Some vh else None)
    /\ TestStation.vhash sha256_hexdigest later db' site_id a'
       = Return (None, vh).
Proof.
  intros Hrec vh.
  destruct (update_approval_step sha256_hexdigest current db site_id
              commissioned facility Hrec)
    as (db' & Hret & Hl & _ & _ & Hfac & Hloc & _).
  eexists. eexists. split; [exact Hret|]. split; [exact Hl|].
  split; [apply approval_step_dhash|].
  unfold TestStation.vhash.
  assert (Hrec' : TestStation.record db' site_id = Some facility).
  { unfold TestStation.record in *. rewrite Hfac. exact Hrec. }
  rewrite Hrec'.
  assert (Hvh : TestStation.location_hash sha256_hexdigest db' facility = vh).
  { unfold vh, TestStation.location_hash. rewrite Hloc. reflexivity. }
  rewrite Hvh. fold vh. rewrite approval_step_integrity. reflexivity.
Qed.

Lemma update_approval_then_vhash_witness :
  exists db' a',
    TestStation.update_approval plain_digest sample_request
      moved_site_database 9 None = Return db'
    /\ TestStation.lookup_approval db' 9 = Some a'
    /\ org_site_approval.dhash a' = None
    /\ TestStation.vhash plain_digest later_request db' 9 a'
       = Return (None, "7#***#Bahnhofstr. 2#55116"%string).
Proof.
  destruct (update_approval_then_vhash plain_digest sample_request
              later_request moved_site_database 9 None _ eq_refl)
    as (db' & a' & Hret & Hl & Hd & Hv).
  exists db', a'. split; [exact Hret|]. split; [exact Hl|].
  split; [|exact Hv].
  rewrite Hd. vm_compute in Hret. inversion Hret; subst db'.
  vm_compute in Hl. inversion Hl; subst a'. reflexivity.
Defined.

(* ------------------------------------------------------------------ *)
(** ** Commission forms and the commission cascade *)

Lemma set_error_nonempty (errors : form_errors) (field message : string) :
  TestProviderModel.set_error errors field message <> [].
Proof.
  unfold TestProviderModel.set_error.
  destruct errors as [|[k v] rest]; simpl; [discriminate|].
  destruct (k =? field)%string; discriminate.
Qed.

(** A result with a form error is not a result without errors. *)
Ltac has_error H :=
  let He := fresh "He" in
  injection H as He _; exfalso;
  first [discriminate He | exact (set_error_nonempty _ _ _ He)].

Lemma form_data_status (current : request) (db : database)
    (form : commission_form) (data : commission_data)
    (st : commission_status) :
  TestProviderModel.form_data current db form = Return data ->
  fv_status (form_vars form) = Some st ->
  data_status data = st.
Proof.
  unfold TestProviderModel.form_data. intros H Hst. rewrite Hst in H.
  destruct (_ && ref_truthy (form_record_id form)) in H.
  - destruct (TestProviderModel.lookup_commission db _) in H;
      [|discriminate].
    inversion H. reflexivity.
  - inversion H. reflexivity.
Qed.

(** X17. A commission form that [commission_onvalidation] passes without
    error: an end date given in the form lies after the start date;
    when the form gives a status, CURRENT implies that the provider is
    verified, CURRENT or SUSPENDED implies that the end date lies after
    today, and SUSPENDED with a reason in the form implies a reason
    of at least three characters. Validation changes no commission. *)
Theorem commission_onvalidation_accepts
    (sha256_hexdigest : string -> string) (current : request)
    (db : database) (form : commission_form) (data : commission_data)
    (db' : database) :
  TestProviderModel.form_data current db form = Return data ->
  TestProviderModel.commission_onvalidation sha256_hexdigest current db form
  = Return ([], db') ->
  let vars := form_vars form in
  (is_some (fv_end_date vars) = true ->
   forall s e, data_date data = Some s -> data_end_date data = Some e ->
     s < e)
  /\ (forall st, fv_status vars = Some st ->
        (st = CURRENT ->
         provider_accepted sha256_hexdigest current db
           (data_organisation_id data) = true)
        /\ (active_status st = true ->
            forall e, data_end_date data = Some e -> today current < e)
        /\ (st = SUSPENDED -> is_some (fv_status_reason vars) = true ->
            (3 <= String.length (strip (form_reason vars)))%nat))
  /\ commission_rows db' = commission_rows db.
Proof.
  intros Hdata Hval vars.
  unfold TestProviderModel.commission_onvalidation in Hval.
  rewrite Hdata in Hval. cbn [bind] in Hval. fold vars in Hval.
  destruct (is_some (fv_end_date vars) && is_some (data_date data)
            && is_some (data_end_date data)
            && sql_le (data_end_date data) (data_date data)) eqn:Hc1.
  { has_error Hval. }
  destruct (active_status (data_status data)
            && existsb (TestProviderModel.overlap_query (form_record_id form)
                          data) (commission_rows db)) eqn:Hc2.
  { unfold is_none in Hval.
    destruct (is_some (fv_date vars)), (is_some (fv_end_date vars));
      cbn in Hval; has_error Hval. }
  assert (Hdates : is_some (fv_end_date vars) = true ->
                   forall s e, data_date data = Some s ->
                     data_end_date data = Some e -> s < e).
  { intros Hin s e Hs He. rewrite Hin, Hs, He in Hc1. cbn in Hc1.
    apply Z.leb_gt in Hc1. exact Hc1. }
  destruct (fv_status vars) as [st|] eqn:Hst; cbn [is_some] in Hval.
  2:{ inversion Hval; subst db'. split; [exact Hdates|].
      split; [|reflexivity]. intros st Hst'. discriminate. }
  pose proof (form_data_status current db form data st Hdata Hst) as Hds.
  rewrite Hds in *.
  set (checked :=
         if commission_status_eqb st CURRENT
         then
           let '(v, db'0) :=
             TestProvider.verification sha256_hexdigest current db
               (data_organisation_id data) in
           if negb (org_verification.accepted v)
           then (TestProviderModel.set_error [] "status"
                   "Organisation not verified", db'0)
           else ([], db'0)
         else ([], db)) in *.
  assert (Hchecked :
            forall e1 db1, checked = (e1, db1) -> e1 = [] ->
              (st = CURRENT ->
               provider_accepted sha256_hexdigest current db
                 (data_organisation_id data) = true)
              /\ commission_rows db1 = commission_rows db).
  { intros e1 db1 Hch He1. subst checked e1. unfold provider_accepted.
    pose proof (verification_frame sha256_hexdigest current db
                  (data_organisation_id data)) as Hf.
    destruct (TestProvider.verification sha256_hexdigest current db
                (data_organisation_id data)) as [v dbv].
    cbn [fst snd] in *.
    destruct st; cbn in Hch.
    - destruct (org_verification.accepted v); cbn in Hch.
      + inversion Hch; subst db1. split; [reflexivity|apply Hf].
      + has_error Hch.
    - inversion Hch; subst db1. split; [discriminate|reflexivity].
    - inversion Hch; subst db1. split; [discriminate|reflexivity].
    - inversion Hch; subst db1. split; [discriminate|reflexivity]. }
  destruct checked as [e1 db1] eqn:Hch.
  destruct (is_some (data_end_date data)
            && sql_le (data_end_date data) (Some (today current))
            && active_status st) eqn:Hc3.
  { has_error Hval. }
  destruct (commission_status_eqb st SUSPENDED
            && is_some (fv_status_reason vars)
            && (String.length
                  (strip
                     match fv_status_reason vars with
                     | Some (Some r) =>
                         if truthy (PyStr r) then r else ""%string
                     | _ => ""%string
                     end) <? 3)%nat) eqn:Hc4.
  { has_error Hval. }
  inversion Hval; subst e1 db'.
  destruct (Hchecked [] db1 eq_refl eq_refl) as [Hacc Hrows].
  split; [exact Hdates|]. split; [|exact Hrows].
  intros st' Hst'. inversion Hst'; subst st'. split; [exact Hacc|]. split.
  - intros Hact e He. rewrite He, Hact in Hc3.
    cbn [is_some sql_le andb] in Hc3.
    rewrite andb_true_r in Hc3. apply Z.leb_gt in Hc3. exact Hc3.
  - intros Hsus Hin. rewrite Hsus, Hin in Hc4.
    cbn [commission_status_eqb andb] in Hc4.
    apply Nat.ltb_ge in Hc4. unfold form_reason.
    destruct (fv_status_reason vars) as [[r|]|]; try exact Hc4.
    destruct r; exact Hc4.
Qed.

Lemma commission_onaccept_written
    (sha256_hexdigest : string -> string) (current : request)
    (db : database) (record_id : Z) (c : org_commission.row)
    (u_status : option commission_status) (u_reason : option (option string)) :
  record_id <> 0 ->
  TestProviderModel.lookup_commission db record_id = Some c ->
  TestProviderModel.onaccept_update
    (provider_accepted sha256_hexdigest current db
       (org_commission.organisation_id c))
    (today current) c = Return (u_status, u_reason) ->
  exists db',
    TestProviderModel.commission_onaccept sha256_hexdigest current db
      (CommissionForm (Some record_id) (CommissionFormVars None None None
                                          None None)) = Return db'
    /\ TestProviderModel.lookup_commission db' record_id
       = Some (onaccept_written (today current) c u_status u_reason)
    /\ forall r, In r (commission_rows db) ->
         org_commission.id r <> record_id -> In r (commission_rows db').
Proof.
  intros Hid Hlook Hupd.
  assert (Hkey : org_commission.id c = record_id).
  { apply find_some in Hlook. destruct Hlook as [_ Hk].
    apply Z.eqb_eq. exact Hk. }
  unfold TestProviderModel.commission_onaccept.
  cbn [form_record_id or_else]. rewrite (ref_truthy_some record_id Hid).
  cbn [negb]. rewrite Hlook.
  unfold provider_accepted in Hupd.
  pose proof (verification_frame sha256_hexdigest current db
                (org_commission.organisation_id c)) as Hf.
  destruct (TestProvider.verification sha256_hexdigest current db
              (org_commission.organisation_id c)) as [v db1].
  cbn [fst snd] in *. destruct Hf as (Hc & _).
  rewrite Hupd. cbn [bind].
  set (status_change :=
         negb (opt_eqb commission_status_eqb
                 (Some (or_else u_status (org_commission.status c)))
                 (org_commission.prev_status c))).
  match goal with
  | |- context [if is_some u_status || is_some u_reason
                then set_commission_rows db1 (map ?f _) else db1] =>
      set (write := f);
      set (db2 := if is_some u_status || is_some u_reason
                  then set_commission_rows db1 (map f (commission_rows db1))
                  else db1)
  end.
  assert (Hl2 : TestProviderModel.lookup_commission db2 record_id
                = Some (onaccept_written (today current) c u_status u_reason)
                /\ forall r, In r (commission_rows db) ->
                     org_commission.id r <> record_id ->
                     In r (commission_rows db2)).
  { subst db2. unfold onaccept_written. fold status_change.
    destruct (is_some u_status || is_some u_reason) eqn:Hany.
    - split.
      + unfold TestProviderModel.lookup_commission.
        cbn [commission_rows set_commission_rows].
        rewrite find_map_stable.
        * rewrite Hc. unfold TestProviderModel.lookup_commission in Hlook.
          rewrite Hlook. cbn [option_map]. subst write. cbv beta.
          rewrite Z.eqb_refl. reflexivity.
        * intros x. subst write. cbv beta.
          destruct (org_commission.id x =? org_commission.id c); reflexivity.
      + intros r Hr Hne. cbn [commission_rows set_commission_rows].
        rewrite Hc. apply in_map_iff. exists r. split; [|exact Hr].
        subst write. cbv beta.
        destruct (Z.eqb_spec (org_commission.id r) (org_commission.id c));
          [|reflexivity].
        exfalso. apply Hne. congruence.
    - split.
      + unfold TestProviderModel.lookup_commission in *. rewrite Hc.
        exact Hlook.
      + intros r Hr _. rewrite Hc. exact Hr. }
  destruct Hl2 as (Hc' & Hrest).
  destruct status_change.
  - match goal with
    | |- context [TestStation.update_all ?r ?d ?o ?p ?x] =>
        destruct (update_all_returns r d o p x eq_refl)
          as (n & db' & -> & Hf)
    end.
    cbn [bind]. exists db'. split; [reflexivity|].
    unfold TestProviderModel.lookup_commission in *.
    destruct Hf as (_ & -> & _). split; assumption.
  - exists db2. repeat split; assumption.
Qed.

Lemma commission_onaccept_form
    (sha256_hexdigest : string -> string) (current : request)
    (db : database) (form : commission_form) :
  TestProviderModel.commission_onaccept sha256_hexdigest current db form
  = TestProviderModel.commission_onaccept sha256_hexdigest current db
      (CommissionForm (form_record_id form)
         (CommissionFormVars None None None None None)).
Proof. destruct form. reflexivity. Qed.

Lemma onaccept_update_returns (accepted : bool) (today : Z)
    (c : org_commission.row) :
  accepted && is_none (org_commission.end_date c) = false ->
  exists u_status u_reason,
    TestProviderModel.onaccept_update accepted today c
    = Return (u_status, u_reason).
Proof.
  unfold TestProviderModel.onaccept_update, is_none.
  destruct accepted; cbn.
  - destruct (org_commission.end_date c) as [e|]; [|discriminate].
    intros _. destruct (e <? today); eauto.
  - intros _. destruct (org_commission.status c); cbn; eauto.
Qed.

(** X18. [commission_onaccept] returns the database as it is when the form
    has no record or the record is not found; it raises TypeError when
    the provider of the record is verified and the record has no end
    date; otherwise it returns. *)
Theorem commission_onaccept_outcome
    (sha256_hexdigest : string -> string) (current : request)
    (db : database) (form : commission_form) :
  let saved :=
    match form_record_id form with
    | Some record_id =>
        if record_id =? 0 then None
        else TestProviderModel.lookup_commission db record_id
    | None => None
    end in
  match saved with
  | None =>
      TestProviderModel.commission_onaccept sha256_hexdigest current db form
      = Return db
  | Some c =>
      if provider_accepted sha256_hexdigest current db
           (org_commission.organisation_id c)
         && is_none (org_commission.end_date c)
      then
        TestProviderModel.commission_onaccept sha256_hexdigest current db form
        = Raise TypeError
      else
        exists db',
          TestProviderModel.commission_onaccept sha256_hexdigest current db
            form = Return db'
  end.
Proof.
  cbv zeta. rewrite commission_onaccept_form.
  destruct (form_record_id form) as [record_id|]; [|reflexivity].
  destruct (Z.eqb_spec record_id 0) as [->|Hid]; [reflexivity|].
  destruct (TestProviderModel.lookup_commission db record_id) as [c|] eqn:Hl.
  - destruct (provider_accepted sha256_hexdigest current db
                (org_commission.organisation_id c)
              && is_none (org_commission.end_date c)) eqn:Hraise.
    + unfold TestProviderModel.commission_onaccept.
      cbn [form_record_id or_else]. rewrite (ref_truthy_some record_id Hid).
      cbn [negb]. rewrite Hl.
      apply andb_prop in Hraise. destruct Hraise as [Hacc Hend].
      unfold provider_accepted in Hacc.
      destruct (TestProvider.verification sha256_hexdigest current db
                  (org_commission.organisation_id c)) as [v db1].
      cbn [fst] in Hacc. rewrite Hacc.
      unfold TestProviderModel.onaccept_update.
      destruct (org_commission.end_date c); [discriminate|]. reflexivity.
    + destruct (onaccept_update_returns _ (today current) c Hraise)
        as (u_status & u_reason & Hupd).
      destruct (commission_onaccept_written sha256_hexdigest current db
                  record_id c u_status u_reason Hid Hl Hupd)
        as (db' & Hret & _).
      exists db'. exact Hret.
  - unfold TestProviderModel.commission_onaccept.
    cbn [form_record_id or_else]. rewrite (ref_truthy_some record_id Hid).
    cbn [negb]. rewrite Hl. reflexivity.
Qed.

(** X19. Whenever [commission_onaccept] changes the status of the saved
    commission, prev_status afterwards is the new status, and
    status_date is today unless prev_status already was the new
    status; it changes neither the key, the organisation, the dates
    nor the deletion flag of the record, and no other commission. *)
Theorem commission_onaccept_stamps_status_change
    (sha256_hexdigest : string -> string) (current : request)
    (db : database) (record_id : Z) (c : org_commission.row) :
  record_id <> 0 ->
  TestProviderModel.lookup_commission db record_id = Some c ->
  provider_accepted sha256_hexdigest current db
    (org_commission.organisation_id c)
  && is_none (org_commission.end_date c) = false ->
  exists db' c',
    TestProviderModel.commission_onaccept sha256_hexdigest current db
      (CommissionForm (Some record_id)
         (CommissionFormVars None None None None None)) = Return db'
    /\ TestProviderModel.lookup_commission db' record_id = Some c'
    /\ (org_commission.status c' <> org_commission.status c ->
        org_commission.prev_status c' = Some (org_commission.status c')
        /\ (org_commission.prev_status c <> Some (org_commission.status c') ->
            org_commission.status_date c' = Some (today current)))
    /\ org_commission.id c' = org_commission.id c
    /\ org_commission.organisation_id c' = org_commission.organisation_id c
    /\ org_commission.date c' = org_commission.date c
    /\ org_commission.end_date c' = org_commission.end_date c
    /\ org_commission.deleted c' = org_commission.deleted c
    /\ (forall r, In r (commission_rows db) ->
          org_commission.id r <> record_id -> In r (commission_rows db')).
Proof.
  intros Hid Hl Hok.
  destruct (onaccept_update_returns _ (today current) c Hok)
    as (u_status & u_reason & Hupd).
  destruct (commission_onaccept_written sha256_hexdigest current db
              record_id c u_status u_reason Hid Hl Hupd)
    as (db' & Hret & Hl' & Hrest).
  exists db', (onaccept_written (today current) c u_status u_reason).
  split; [exact Hret|]. split; [exact Hl'|].
  split; [|unfold onaccept_written;
           destruct (is_some u_status || is_some u_reason);
           repeat split; try reflexivity; exact Hrest].
  unfold onaccept_written.
  destruct u_status as [s|]; cbn [is_some orb or_else].
  - cbn [org_commission.status org_commission.prev_status
           org_commission.status_date].
    intros _.
    destruct (org_commission.prev_status c) as [p|]; cbn [opt_eqb negb].
    + destruct s, p; cbn; split; try reflexivity; intros H;
        first [reflexivity | exfalso; apply H; reflexivity].
    + split; reflexivity.
  - destruct (is_some u_reason); cbn; intros H; exfalso; apply H; reflexivity.
Qed.

Lemma fold_left_invariant_in {A B : Type} (P : A -> Prop) (f : A -> B -> A)
    (l : list B) (a : A) :
  (forall x y, In y l -> P x -> P (f x y)) -> P a -> P (fold_left f l a).
Proof.
  revert a. induction l as [|y l IH]; simpl; intros a Hf Ha; [exact Ha|].
  apply IH; auto.
Qed.

Lemma update_all_approval_rows (current : request) (db : database)
    (organisation_id : option Z) (public : yesno) (reason : option string)
    (n : Z) (db' : database) :
  TestStation.update_all current db organisation_id public reason
  = Return (n, db') ->
  approval_rows db'
  = map (fun a =>
           if TestStation.update_all_query organisation_id public reason a
           then apply_approval_update (update_all_values public reason) a
           else a)
        (approval_rows db)
  /\ n = Z.of_nat
           (List.length
              (filter (TestStation.update_all_query organisation_id public
                         reason) (approval_rows db))).
Proof.
  unfold TestStation.update_all.
  destruct (yesno_eqb public N && negb (str_truthy reason)); [discriminate|].
  intros Hret. injection Hret as Hn Hdb. split; [|symmetry; exact Hn].
  subst db'.
  set (query := TestStation.update_all_query organisation_id public reason).
  set (write := fun a => if query a
                         then apply_approval_update
                                (update_all_values public reason) a
                         else a).
  assert (Hw : forall a,
             (if query a
              then apply_approval_update
                     match public with
                     | Y => ApprovalUpdate (Some Y) None None None None
                              (Some None) None
                     | N => ApprovalUpdate (Some N) None None None None
                              (Some reason) None
                     end a
              else a) = write a).
  { intros a. unfold write, update_all_values. destruct public; reflexivity. }
  rewrite (map_ext _ _ Hw).
  set (db1 := set_approval_rows db (map write (approval_rows db))).
  change (map write (approval_rows db)) with (approval_rows db1).
  apply fold_left_invariant_in; [|reflexivity].
  intros d row Hrow Hd.
  apply filter_In in Hrow. destruct Hrow as [Hin Hq].
  assert (Hdel : org_site_approval.deleted row = false).
  { unfold query, TestStation.update_all_query in Hq.
    apply andb_prop in Hq. destruct Hq as [_ Hq].
    apply negb_true_iff in Hq. exact Hq. }
  assert (Hfound : exists a,
             TestStation.lookup_approval d (org_site_approval.site_id row)
             = Some a).
  { unfold TestStation.lookup_approval. rewrite Hd.
    destruct (find _ (approval_rows db1)) as [a|] eqn:Hfind; [eauto|].
    pose proof (find_none _ _ Hfind (write row)) as Hf.
    cbv beta in Hf.
    assert (Hsite : org_site_approval.site_id (write row)
                    = org_site_approval.site_id row)
      by (unfold write; destruct (query row); reflexivity).
    assert (Hdel' : org_site_approval.deleted (write row)
                    = org_site_approval.deleted row)
      by (unfold write; destruct (query row); reflexivity).
    rewrite Hsite, Hdel', Hdel, Z.eqb_refl in Hf. cbn in Hf.
    assert (false = true -> False) by discriminate.
    exfalso. apply H. symmetry. apply Hf.
    unfold db1. cbn. apply in_map. exact Hin. }
  destruct Hfound as [a Ha].
  rewrite (approval_found d _ a Ha).
  destruct (update_approval_history_frame current d
              (org_site_approval.site_id row) a) as [_ Hrows].
  rewrite Hrows. exact Hd.
Qed.

Lemma nonempty_truthy (s : string) : s <> ""%string -> truthy (PyStr s) = true.
Proof.
  intros H. cbn. destruct (String.eqb_spec s ""); [contradiction|reflexivity].
Qed.

Lemma suspend_commission_rows (current : request) (db : database)
    (organisation_id : option Z) (reason : string) :
  reason <> ""%string ->
  exists db',
    TestProvider.suspend_commission current db organisation_id reason
    = Return db'
    /\ commission_rows db'
       = map (fun c =>
                if TestProvider.suspend_query organisation_id c
                then set_commission_status c SUSPENDED
                       (Some (today current)) (Some reason)
                else c)
             (commission_rows db)
    /\ approval_rows db'
       = map (fun a =>
                if TestStation.update_all_query organisation_id N
                     (Some "COMMISSION"%string) a
                then apply_approval_update
                       (update_all_values N (Some "COMMISSION"%string)) a
                else a)
             (approval_rows db)
    /\ verification_rows db' = verification_rows db
    /\ type_link_rows db' = type_link_rows db
    /\ type_tag_rows db' = type_tag_rows db
    /\ staff_rows db' = staff_rows db
    /\ teststations db' = teststations db.
Proof.
  intros Hreason. unfold TestProvider.suspend_commission.
  rewrite (nonempty_truthy reason Hreason). cbn [negb].
  match goal with
  | |- context [TestStation.update_all ?r ?d ?o ?p ?x] =>
      destruct (update_all_returns r d o p x eq_refl) as (n & db' & Hret & Hf);
      pose proof (update_all_approval_rows r d o p x n db' Hret) as [Hrows _];
      rewrite Hret
  end.
  cbn [bind]. exists db'. split; [reflexivity|].
  destruct Hf as (Hv & Hc & _ & _ & Htl & Htt & Hst & Hts).
  split; [exact Hc|]. split; [exact Hrows|]. auto.
Qed.

Lemma reinstate_commission_rows (current : request) (db : database)
    (organisation_id : option Z) (reason : string) :
  reason <> ""%string ->
  exists db',
    TestProvider.reinstate_commission current db organisation_id reason
    = Return db'
    /\ commission_rows db'
       = map (fun c =>
                if TestProvider.reinstate_query organisation_id reason c
                then set_commission_status c CURRENT
                       (Some (today current)) None
                else c)
             (commission_rows db)
    /\ approval_rows db'
       = map (fun a =>
                if TestStation.update_all_query organisation_id Y
                     (Some "COMMISSION"%string) a
                then apply_approval_update
                       (update_all_values Y (Some "COMMISSION"%string)) a
                else a)
             (approval_rows db)
    /\ verification_rows db' = verification_rows db
    /\ type_link_rows db' = type_link_rows db
    /\ type_tag_rows db' = type_tag_rows db
    /\ staff_rows db' = staff_rows db
    /\ teststations db' = teststations db.
Proof.
  intros Hreason. unfold TestProvider.reinstate_commission.
  rewrite (nonempty_truthy reason Hreason). cbn [negb].
  match goal with
  | |- context [TestStation.update_all ?r ?d ?o ?p ?x] =>
      destruct (update_all_returns r d o p x eq_refl) as (n & db' & Hret & Hf);
      pose proof (update_all_approval_rows r d o p x n db' Hret) as [Hrows _];
      rewrite Hret
  end.
  cbn [bind]. exists db'. split; [reflexivity|].
  destruct Hf as (Hv & Hc & _ & _ & Htl & Htt & Hst & Hts).
  split; [exact Hc|]. split; [exact Hrows|]. auto.
Qed.

Lemma current_commission_none (current : request) (db : database)
    (organisation_id : option Z) :
  (forall c, In c (commission_rows db) ->
     TestProvider.current_commission_query current organisation_id c = false) ->
  TestProvider.current_commission current db organisation_id = None.
Proof.
  unfold TestProvider.current_commission.
  induction (commission_rows db) as [|c rows IH]; intros H; [reflexivity|].
  cbn [fold_left]. rewrite (H c (or_introl eq_refl)).
  apply IH. intros c' Hc'. apply H. right. exact Hc'.
Qed.

Lemma suspend_commission_post (current : request)
    (db : database) (organisation_id : option Z) (reason : string) :
  reason <> ""%string ->
  exists db',
    TestProvider.suspend_commission current db organisation_id reason
    = Return db'
    /\ (forall c, In c (commission_rows db') ->
          org_commission.organisation_id c = organisation_id ->
          org_commission.deleted c = false ->
          org_commission.status c <> CURRENT)
    /\ TestProvider.current_commission current db' organisation_id = None
    /\ (forall a, In a (approval_rows db') ->
          org_site_approval.organisation_id a = organisation_id ->
          org_site_approval.deleted a = false ->
          org_site_approval.public a = N)
    /\ (forall a, In a (approval_rows db) ->
          org_site_approval.organisation_id a = organisation_id ->
          org_site_approval.deleted a = false ->
          org_site_approval.public a = Y ->
          In (apply_approval_update
                (update_all_values N (Some "COMMISSION"%string)) a)
             (approval_rows db')).
Proof.
  intros Hreason.
  destruct (suspend_commission_rows current db organisation_id reason Hreason)
    as (db' & Hret & Hc & Ha & _).
  exists db'. split; [exact Hret|].
  assert (Hnocur : forall c, In c (commission_rows db') ->
            org_commission.organisation_id c = organisation_id ->
            org_commission.deleted c = false ->
            org_commission.status c <> CURRENT).
  { intros c Hin Horg Hdel. rewrite Hc in Hin. apply in_map_iff in Hin.
    destruct Hin as (c0 & Hc0 & _). revert Hc0.
    destruct (TestProvider.suspend_query organisation_id c0) eqn:Hq.
    - intros <-. discriminate.
    - intros ->. intros Hcur. unfold TestProvider.suspend_query in Hq.
      rewrite Horg, Hcur, Hdel, ref_eqb_refl in Hq. discriminate. }
  split; [exact Hnocur|]. split; [|split].
  - apply current_commission_none. intros c Hin.
    unfold TestProvider.current_commission_query.
    destruct (ref_eqb (org_commission.organisation_id c) organisation_id)
      eqn:Horg; [|reflexivity].
    apply ref_eqb_true in Horg.
    destruct (org_commission.deleted c) eqn:Hdel;
      [rewrite andb_false_r; reflexivity|].
    specialize (Hnocur c Hin Horg Hdel).
    destruct (org_commission.status c); try reflexivity.
    exfalso. apply Hnocur. reflexivity.
  - intros a Hin Horg Hdel. rewrite Ha in Hin. apply in_map_iff in Hin.
    destruct Hin as (a0 & Ha0 & _). revert Ha0.
    destruct (TestStation.update_all_query organisation_id N
                (Some "COMMISSION"%string) a0) eqn:Hq.
    + intros <-. reflexivity.
    + intros ->. unfold TestStation.update_all_query in Hq.
      rewrite Horg, Hdel, ref_eqb_refl in Hq.
      destruct (org_site_approval.public a); [discriminate|reflexivity].
  - intros a Hin Horg Hdel Hpub. rewrite Ha. apply in_map_iff.
    exists a. split; [|exact Hin].
    unfold TestStation.update_all_query.
    rewrite Horg, Hdel, Hpub, ref_eqb_refl. reflexivity.
Qed.

(** X14. After [suspend_commission] with a reason the organisation has no
    CURRENT commission that is not deleted, hence no current
    commission, and none of its approval records that is not deleted is
    public; those that were public carry the reason COMMISSION. *)
Theorem suspend_commission_unlists_provider (current : request)
    (db : database) (organisation_id : option Z) (reason : string) :
  reason <> ""%string ->
  exists db',
    TestProvider.suspend_commission current db organisation_id reason
    = Return db'
    /\ (forall c, In c (commission_rows db') ->
          org_commission.organisation_id c = organisation_id ->
          org_commission.deleted c = false ->
          org_commission.status c <> CURRENT)
    /\ TestProvider.current_commission current db' organisation_id = None
    /\ (forall a, In a (approval_rows db') ->
          org_site_approval.organisation_id a = organisation_id ->
          org_site_approval.deleted a = false ->
          org_site_approval.public a = N)
    /\ (forall a, In a (approval_rows db) ->
          org_site_approval.organisation_id a = organisation_id ->
          org_site_approval.deleted a = false ->
          org_site_approval.public a = Y ->
          In (apply_approval_update
                (update_all_values N (Some "COMMISSION"%string)) a)
             (approval_rows db')).
Proof. exact (suspend_commission_post current db organisation_id reason). Qed.

(** X15. [suspend_commission] followed by [reinstate_commission] with the
    same reason: the commissions of the organisation that were CURRENT
    are CURRENT again, dated today and without reason, and its sites
    that were public and fully approved are public again; commissions
    and sites of other organisations stay as they are. *)
Theorem suspend_then_reinstate (current : request) (db : database)
    (organisation_id : option Z) (reason : string) :
  reason <> ""%string ->
  exists db1 db2,
    TestProvider.suspend_commission current db organisation_id reason
    = Return db1
    /\ TestProvider.reinstate_commission current db1 organisation_id reason
       = Return db2
    /\ (forall c, In c (commission_rows db) ->
          org_commission.organisation_id c = organisation_id ->
          org_commission.deleted c = false ->
          org_commission.status c = CURRENT ->
          In (set_commission_status c CURRENT (Some (today current)) None)
             (commission_rows db2))
    /\ (forall c, In c (commission_rows db) ->
          org_commission.organisation_id c <> organisation_id ->
          In c (commission_rows db2))
    /\ (forall a, In a (approval_rows db) ->
          org_site_approval.organisation_id a = organisation_id ->
          org_site_approval.deleted a = false ->
          org_site_approval.public a = Y ->
          fully_approved a ->
          In (apply_approval_update (update_all_values Y None) a)
             (approval_rows db2))
    /\ (forall a, In a (approval_rows db) ->
          org_site_approval.organisation_id a <> organisation_id ->
          In a (approval_rows db2)).
Proof.
  intros Hreason.
  destruct (suspend_commission_rows current db organisation_id reason Hreason)
    as (db1 & Hret1 & Hc1 & Ha1 & _).
  destruct (reinstate_commission_rows current db1 organisation_id reason
              Hreason) as (db2 & Hret2 & Hc2 & Ha2 & _).
  exists db1, db2. split; [exact Hret1|]. split; [exact Hret2|].
  rewrite Hc2, Hc1, Ha2, Ha1, !map_map.
  split; [|split; [|split]].
  - intros c Hin Horg Hdel Hcur. apply in_map_iff. exists c.
    split; [|exact Hin].
    unfold TestProvider.suspend_query. rewrite Horg, Hdel, Hcur, ref_eqb_refl.
    cbn. unfold TestProvider.reinstate_query. cbn.
    rewrite Horg, Hdel, ref_eqb_refl, String.eqb_refl. reflexivity.
  - intros c Hin Horg. apply in_map_iff. exists c. split; [|exact Hin].
    assert (Hne : ref_eqb (org_commission.organisation_id c) organisation_id
                  = false).
    { destruct (ref_eqb _ _) eqn:He; [|reflexivity].
      apply ref_eqb_true in He. contradiction. }
    unfold TestProvider.suspend_query. rewrite Hne. cbn.
    unfold TestProvider.reinstate_query. rewrite Hne. reflexivity.
  - intros a Hin Horg Hdel Hpub (Hs & Hm & Hh & Hl). apply in_map_iff.
    exists a. split; [|exact Hin].
    destruct a as [id org site dh st m h l p pr adv del].
    cbn in Horg, Hdel, Hpub, Hs, Hm, Hh, Hl. subst.
    unfold TestStation.update_all_query. cbn. rewrite !ref_eqb_refl.
    reflexivity.
  - intros a Hin Horg. apply in_map_iff. exists a. split; [|exact Hin].
    assert (Hne : ref_eqb (org_site_approval.organisation_id a)
                    organisation_id = false).
    { destruct (ref_eqb _ _) eqn:He; [|reflexivity].
      apply ref_eqb_true in He. contradiction. }
    unfold TestStation.update_all_query. rewrite Hne. cbn.
    rewrite Hne. reflexivity.
Qed.

(** X12. [update_all] with public = Y always returns; it creates no record
    and changes exactly the records of the organisation that are not
    deleted, not public, fully approved and de-listed for the given
    reason, which become public without reason; it returns their
    number. *)
Theorem update_all_lists_approved_only (current : request) (db : database)
    (organisation_id : option Z) (reason : option string) :
  exists n db',
    TestStation.update_all current db organisation_id Y reason
    = Return (n, db')
    /\ List.length (approval_rows db') = List.length (approval_rows db)
    /\ (forall a', In a' (approval_rows db') ->
          In a' (approval_rows db)
          \/ (fully_approved a'
              /\ org_site_approval.organisation_id a' = organisation_id
              /\ org_site_approval.deleted a' = false
              /\ org_site_approval.public a' = Y
              /\ org_site_approval.public_reason a' = None
              /\ exists a,
                   In a (approval_rows db)
                   /\ a' = apply_approval_update (update_all_values Y reason) a
                   /\ org_site_approval.public a = N
                   /\ org_site_approval.public_reason a = reason))
    /\ (forall a, In a (approval_rows db) ->
          org_site_approval.organisation_id a = organisation_id ->
          org_site_approval.deleted a = false ->
          org_site_approval.public a = N ->
          fully_approved a ->
          org_site_approval.public_reason a = reason ->
          In (apply_approval_update (update_all_values Y reason) a)
             (approval_rows db'))
    /\ n = Z.of_nat
             (List.length
                (filter (TestStation.update_all_query organisation_id Y reason)
                   (approval_rows db))).
Proof.
  destruct (TestStation.update_all current db organisation_id Y reason)
    as [[n db']|e] eqn:Hret.
  2:{ unfold TestStation.update_all in Hret. cbn in Hret. discriminate. }
  destruct (update_all_approval_rows current db organisation_id Y reason n db'
              Hret) as [Hrows Hn].
  exists n, db'. split; [reflexivity|]. rewrite Hrows.
  split; [apply length_map|]. split; [|split; [|exact Hn]].
  - intros a' Hin. apply in_map_iff in Hin. destruct Hin as (a & Ha & Hin).
    destruct (TestStation.update_all_query organisation_id Y reason a) eqn:Hq.
    + right. subst a'. unfold TestStation.update_all_query in Hq.
      destruct a as [id org site dh st m h l p pr adv del].
      destruct st, m, h, l, p, del; cbn in Hq;
        rewrite ?andb_false_r in Hq; try discriminate Hq.
      rewrite !andb_true_r in Hq. apply andb_prop in Hq.
      destruct Hq as [Ho Hr].
      apply ref_eqb_true in Ho. apply ostr_eqb_true in Hr. subst org pr.
      unfold fully_approved. cbn. repeat split.
      eexists. split; [exact Hin|]. cbn. repeat split.
    + left. subst a'. exact Hin.
  - intros a Hin Horg Hdel Hpub (Hs & Hm & Hh & Hl) Hr.
    apply in_map_iff. exists a. split; [|exact Hin].
    unfold TestStation.update_all_query.
    rewrite Horg, Hdel, Hpub, Hs, Hm, Hh, Hl, Hr, ref_eqb_refl,
      ostr_eqb_refl.
    reflexivity.
Qed.

(* ------------------------------------------------------------------ *)
(** ** The manager check *)

Ltac manager_cases sha m vh :=
  destruct m as [id org oc st del fn ln dob hc reg crc scp dsh];
  unfold TestProvider.check_manager, TestProviderData.check_manager,
    manager_hash, TestProviderData.tag_approved;
  cbn [hrm_human_resource.first_name hrm_human_resource.last_name
       hrm_human_resource.date_of_birth hrm_human_resource.dsh_tag
       hrm_human_resource.has_contact];
  set (vh := get_dhash sha [of_opt PyStr fn; of_opt PyStr ln; of_opt PyStr dob]).

Lemma check_manager_tags (sha256_hexdigest : string -> string)
    (current : request) (m : hrm_human_resource.row) :
  let m' := fst (TestProvider.check_manager sha256_hexdigest current m) in
  let complete := snd (TestProvider.check_manager sha256_hexdigest current m) in
  hrm_human_resource.dsh_tag m'
  = (if complete then Some (manager_hash sha256_hexdigest m) else None)
  /\ (complete = true ->
      documentation_approved m'
      /\ hrm_human_resource.date_of_birth m <> None
      /\ hrm_human_resource.has_contact m = true)
  /\ kept_or_reset (hrm_human_resource.reg_tag m)
       (hrm_human_resource.reg_tag m')
  /\ kept_or_reset (hrm_human_resource.crc_tag m)
       (hrm_human_resource.crc_tag m')
  /\ kept_or_reset (hrm_human_resource.scp_tag m)
       (hrm_human_resource.scp_tag m').
Proof.
  cbv zeta. manager_cases sha256_hexdigest m vh.
  unfold documentation_approved, kept_or_reset.
  destruct dob as [d|], hc, (org_group_admin current);
    destruct dsh as [h|];
    cbn;
    try destruct (String.eqb h vh) eqn:He; cbn.
  all: destruct reg as [r|]; cbn; try destruct (String.eqb_spec r "APPROVED");
       subst; cbn.
  all: destruct crc as [c|]; cbn; try destruct (String.eqb_spec c "APPROVED");
       subst; cbn.
  all: destruct scp as [s|]; cbn; try destruct (String.eqb_spec s "APPROVED");
       subst; cbn.
  all: repeat split; auto; try discriminate; try (intros; discriminate).
  all: try (right; split; [discriminate|reflexivity]).
  all: try (apply String.eqb_eq in He; subst; reflexivity).
Qed.

Lemma check_manager_twice (sha256_hexdigest : string -> string)
    (current later : request) (m : hrm_human_resource.row) :
  TestProvider.check_manager sha256_hexdigest later
    (fst (TestProvider.check_manager sha256_hexdigest current m))
  = TestProvider.check_manager sha256_hexdigest current m.
Proof.
  manager_cases sha256_hexdigest m vh.
  destruct dob as [d|], hc, (org_group_admin current);
    destruct dsh as [h|];
    cbn -[get_dhash of_opt]; fold vh;
    try destruct (String.eqb h vh) eqn:He; cbn -[get_dhash of_opt].
  all: destruct reg as [r|]; cbn -[get_dhash of_opt];
       try destruct (String.eqb r "APPROVED") eqn:Hr;
       cbn -[get_dhash of_opt].
  all: destruct crc as [c|]; cbn -[get_dhash of_opt];
       try destruct (String.eqb c "APPROVED") eqn:Hc;
       cbn -[get_dhash of_opt].
  all: destruct scp as [s|]; cbn -[get_dhash of_opt];
       try destruct (String.eqb s "APPROVED") eqn:Hs;
       cbn -[get_dhash of_opt].
  all: fold vh; rewrite ?He, ?Hr, ?Hc, ?Hs, ?String.eqb_refl;
       cbn -[get_dhash of_opt];
       rewrite ?He, ?Hr, ?Hc, ?Hs, ?String.eqb_refl;
       cbn -[get_dhash of_opt];
       try reflexivity.
Qed.

Lemma check_manager_same_person (sha256_hexdigest : string -> string)
    (current : request) (m : hrm_human_resource.row) :
  same_person m (fst (TestProvider.check_manager sha256_hexdigest current m)).
Proof.
  unfold TestProvider.check_manager, TestProviderData.check_manager,
    same_person.
  repeat match goal with
         | |- context [if ?b then _ else _] => destruct b
         end; cbn; repeat split; reflexivity.
Qed.

Lemma check_manager_selected (sha256_hexdigest : string -> string)
    (current : request) (organisation_id : option Z)
    (m : hrm_human_resource.row) :
  TestProvider.manager_query organisation_id
    (fst (TestProvider.check_manager sha256_hexdigest current m))
  = TestProvider.manager_query organisation_id m.
Proof.
  destruct (check_manager_same_person sha256_hexdigest current m)
    as (_ & Ho & Hc & Hs & Hd & _).
  unfold TestProvider.manager_query. rewrite Ho, Hc, Hs, Hd. reflexivity.
Qed.

Lemma Forall2_map_right {A B : Type} (R : A -> B -> Prop) (f : A -> B)
    (l : list A) :
  (forall x, In x l -> R x (f x)) -> Forall2 R l (map f l).
Proof.
  induction l as [|x l IH]; intros H; cbn; constructor.
  - apply H. left. reflexivity.
  - apply IH. intros y Hy. apply H. right. exact Hy.
Qed.

Lemma existsb_map_ext {A B : Type} (p : B -> bool) (q : A -> bool)
    (f : A -> B) (l : list A) :
  (forall x, p (f x) = q x) -> existsb p (map f l) = existsb q l.
Proof.
  intros H. induction l as [|x l IH]; cbn; [reflexivity|].
  rewrite H, IH. reflexivity.
Qed.

(** X20. A second [check_mgrinfo] on the result of the first returns the
    same status and changes nothing, whatever the role of the second
    caller. *)
Theorem check_mgrinfo_idempotent (sha256_hexdigest : string -> string)
    (current later : request) (db : database) (organisation_id : option Z) :
  let '(status, db') :=
    TestProvider.check_mgrinfo sha256_hexdigest current db organisation_id in
  TestProvider.check_mgrinfo sha256_hexdigest later db' organisation_id
  = (status, db').
Proof.
  unfold TestProvider.check_mgrinfo, TestProviderData.check_mgrinfo.
  destruct (negb (TestProviderData.is_org_group db organisation_id)) eqn:Hg.
  { rewrite Hg. reflexivity. }
  set (selected := TestProviderData.manager_query organisation_id).
  destruct (existsb selected (staff_rows db)) eqn:Hex.
  2:{ rewrite Hg, Hex. reflexivity. }
  set (check := fun m => if selected m
                         then fst (TestProviderData.check_manager
                                     sha256_hexdigest current m)
                         else m).
  assert (Hsel : forall m, selected (check m) = selected m).
  { intros m. unfold check. destruct (selected m) eqn:Hm; [|exact Hm].
    unfold selected.
    rewrite (check_manager_selected sha256_hexdigest current). exact Hm. }
  unfold TestProviderData.is_org_group in *.
  cbn [teststations staff_rows set_staff_rows]. rewrite Hg.
  rewrite (existsb_map_ext selected selected check _ Hsel), Hex.
  rewrite map_map.
  assert (Hcomplete :
            existsb (fun m => selected m
                              && snd (TestProvider.check_manager
                                        sha256_hexdigest later m))
              (map check (staff_rows db))
            = existsb (fun m => selected m
                                && snd (TestProvider.check_manager
                                          sha256_hexdigest current m))
                (staff_rows db)).
  { apply existsb_map_ext. intros m.
    rewrite Hsel. unfold check. destruct (selected m); [|reflexivity].
    rewrite (check_manager_twice sha256_hexdigest current later m).
    reflexivity. }
  assert (Hrows :
            map (fun m => if selected (check m)
                          then fst (TestProvider.check_manager
                                      sha256_hexdigest later (check m))
                          else check m) (staff_rows db)
            = map check (staff_rows db)).
  { apply map_ext. intros m. rewrite Hsel. unfold check.
    destruct (selected m); [|reflexivity].
    rewrite (check_manager_twice sha256_hexdigest current later m).
    reflexivity. }
  rewrite Hcomplete, Hrows. reflexivity.
Qed.

Lemma manager_hash_same_person (sha256_hexdigest : string -> string)
    (m m' : hrm_human_resource.row) :
  same_person m m' ->
  manager_hash sha256_hexdigest m' = manager_hash sha256_hexdigest m.
Proof.
  intros (_ & _ & _ & _ & _ & Hf & Hl & Hd & _). unfold manager_hash.
  rewrite Hf, Hl, Hd. reflexivity.
Qed.

Lemma check_manager_verified (sha256_hexdigest : string -> string)
    (current : request) (m : hrm_human_resource.row) :
  let m' := fst (TestProvider.check_manager sha256_hexdigest current m) in
  (snd (TestProvider.check_manager sha256_hexdigest current m) = true ->
   verified_manager sha256_hexdigest m')
  /\ (hrm_human_resource.dsh_tag m' <> None ->
      snd (TestProvider.check_manager sha256_hexdigest current m) = true).
Proof.
  cbv zeta.
  pose proof (check_manager_tags sha256_hexdigest current m) as H.
  pose proof (check_manager_same_person sha256_hexdigest current m) as Hp.
  cbv zeta in H. destruct H as (Hd & Hc & _).
  destruct (snd (TestProvider.check_manager sha256_hexdigest current m)).
  - split; [|reflexivity]. intros _.
    destruct (Hc eq_refl) as (Hdoc & Hdob & Hcon).
    unfold verified_manager.
    rewrite (manager_hash_same_person sha256_hexdigest m _ Hp).
    destruct Hp as (_ & _ & _ & _ & _ & _ & _ & Hdob' & Hcon').
    rewrite Hdob', Hcon'. auto.
  - split; [discriminate|]. intros Hn. contradiction.
Qed.

Lemma Forall2_same {A : Type} (R : A -> A -> Prop) (l : list A) :
  (forall x, R x x) -> Forall2 R l l.
Proof. intros H. induction l; constructor; auto. Qed.

(** X21. [check_mgrinfo] changes tags only and never approves: every
    documentation tag is left as it is or reset to N/A. When it
    returns COMPLETE, some manager of the organisation has all three
    tags APPROVED, a date of birth, a contact and a verification hash
    equal to the hash of the person data; after a check a manager
    holds a verification hash only if all this holds for it. *)
Theorem check_mgrinfo_documentation (sha256_hexdigest : string -> string)
    (current : request) (db : database) (organisation_id : option Z) :
  let '(status, db') :=
    TestProvider.check_mgrinfo sha256_hexdigest current db organisation_id in
  Forall2 tags_checked (staff_rows db) (staff_rows db')
  /\ (status = Some MI_COMPLETE ->
      exists m', In m' (staff_rows db')
        /\ TestProvider.manager_query organisation_id m' = true
        /\ verified_manager sha256_hexdigest m')
  /\ (status <> None ->
      forall m', In m' (staff_rows db') ->
        TestProvider.manager_query organisation_id m' = true ->
        hrm_human_resource.dsh_tag m' <> None ->
        status = Some MI_COMPLETE /\ verified_manager sha256_hexdigest m').
Proof.
  assert (Hrefl : forall m, tags_checked m m).
  { intros m. unfold tags_checked, same_person, kept_or_reset.
    repeat split; auto. }
  unfold TestProvider.check_mgrinfo, TestProviderData.check_mgrinfo.
  destruct (negb (TestProviderData.is_org_group db organisation_id)).
  { split; [|split].
    - apply Forall2_same. exact Hrefl.
    - discriminate.
    - intros H. contradiction. }
  set (selected := TestProviderData.manager_query organisation_id).
  destruct (existsb selected (staff_rows db)) eqn:Hex.
  2:{ split; [|split].
      - apply Forall2_same. exact Hrefl.
      - discriminate.
      - intros _ m' Hin Hsel _. exfalso.
        assert (Ht : existsb selected (staff_rows db) = true)
          by (apply existsb_exists; eauto).
        rewrite Hex in Ht. discriminate. }
  set (check := fun m => if selected m
                         then fst (TestProviderData.check_manager
                                     sha256_hexdigest current m)
                         else m).
  assert (Hsel : forall m, selected (check m) = selected m).
  { intros m. unfold check. destruct (selected m) eqn:Hm; [|exact Hm].
    unfold selected.
    rewrite (check_manager_selected sha256_hexdigest current). exact Hm. }
  cbn [staff_rows set_staff_rows].
  set (complete :=
         existsb (fun m => selected m
                           && snd (TestProviderData.check_manager
                                     sha256_hexdigest current m))
           (staff_rows db)).
  split; [|split].
  - apply Forall2_map_right. intros m _. unfold check.
    destruct (selected m); [|apply Hrefl].
    pose proof (check_manager_tags sha256_hexdigest current m) as H.
    cbv zeta in H. destruct H as (_ & _ & H).
    split; [apply check_manager_same_person|exact H].
  - destruct complete eqn:Hc; [|discriminate]. intros _.
    apply existsb_exists in Hc. destruct Hc as (m & Hin & Hm).
    apply andb_prop in Hm. destruct Hm as [Hs Hm].
    exists (check m). split; [apply in_map; exact Hin|].
    split; [fold selected; rewrite Hsel; exact Hs|].
    unfold check. rewrite Hs.
    apply (check_manager_verified sha256_hexdigest current m). exact Hm.
  - intros _ m' Hin Hs Hd. apply in_map_iff in Hin.
    destruct Hin as (m & <- & Hin). fold selected in Hs.
    rewrite Hsel in Hs. unfold check in Hd |- *. rewrite Hs in Hd |- *.
    destruct (check_manager_verified sha256_hexdigest current m) as [Hv Hc].
    specialize (Hc Hd). split; [|exact (Hv Hc)].
    assert (Ht : complete = true).
    { apply existsb_exists. exists m. split; [exact Hin|].
      rewrite Hs. exact Hc. }
    rewrite Ht. reflexivity.
Qed.

Lemma same_types_refl (db : database) : same_types db db.
Proof. split; reflexivity. Qed.

Lemma same_types_trans (db1 db2 db3 : database) :
  same_types db1 db2 -> same_types db2 db3 -> same_types db1 db3.
Proof. unfold same_types. intros [? ?] [? ?]. split; congruence. Qed.

Lemma same_types_types (db db' : database) (organisation_id : option Z) :
  same_types db db' ->
  TestProvider.types db' organisation_id
  = TestProvider.types db organisation_id.
Proof.
  intros [Hl Ht].
  unfold TestProvider.types, TestProvider.type_tag_query.
  rewrite Hl, Ht. reflexivity.
Qed.

Lemma same_types_hash (sha256_hexdigest : string -> string)
    (db db' : database) (organisation_id : option Z) :
  same_types db db' ->
  provider_hash sha256_hexdigest db' organisation_id
  = provider_hash sha256_hexdigest db organisation_id.
Proof.
  intros H. unfold provider_hash, TestProvider.types_string.
  rewrite (same_types_types db db' organisation_id H). reflexivity.
Qed.

Lemma same_types_verifreq (db db' : database) (organisation_id : option Z) :
  same_types db db' ->
  TestProvider.verifreq db' organisation_id
  = TestProvider.verifreq db organisation_id.
Proof.
  intros H. unfold TestProvider.verifreq, TestProvider.any_type_tag.
  rewrite (same_types_types db db' organisation_id H). reflexivity.
Qed.

Lemma check_mgrinfo_types (sha256_hexdigest : string -> string)
    (current : request) (db : database) (organisation_id : option Z) :
  same_types db
    (snd (TestProvider.check_mgrinfo sha256_hexdigest current db
            organisation_id)).
Proof.
  pose proof (check_mgrinfo_frame sha256_hexdigest current db organisation_id)
    as H. cbv zeta in H. unfold same_types. tauto.
Qed.

Lemma verification_defaults_types (sha256_hexdigest : string -> string)
    (current : request) (db : database) (organisation_id : option Z) :
  same_types db
    (snd (TestProvider.verification_defaults sha256_hexdigest current db
            organisation_id)).
Proof.
  pose proof (verification_defaults_frame sha256_hexdigest current db
                organisation_id) as H.
  cbv zeta in H. unfold same_types. tauto.
Qed.

Lemma verification_types (sha256_hexdigest : string -> string)
    (current : request) (db : database) (organisation_id : option Z) :
  same_types db
    (snd (TestProvider.verification sha256_hexdigest current db
            organisation_id)).
Proof.
  unfold TestProvider.verification.
  destruct (TestProvider.lookup_verification db organisation_id);
    [apply same_types_refl|].
  unfold TestProvider.add_verification_defaults.
  pose proof (verification_defaults_types sha256_hexdigest current db
                organisation_id) as H.
  destruct (TestProvider.verification_defaults sha256_hexdigest current db
              organisation_id) as [data db1].
  exact H.
Qed.

(* ------------------------------------------------------------------ *)
(** ** The verification record *)

Lemma verification_defaults_orgtype (sha256_hexdigest : string -> string)
    (current : request) (db : database) (organisation_id : option Z) :
  exists mgrinfo,
    fst (TestProvider.verification_defaults sha256_hexdigest current db
           organisation_id)
    = VerificationUpdate (Some (default_orgtype db organisation_id))
        (Some mgrinfo)
        (Some (orgtype_ok (default_orgtype db organisation_id)
               && mgrinfo_ok mgrinfo)) None.
Proof.
  unfold TestProvider.verification_defaults, default_orgtype.
  destruct (if TestProvider.minforeq db organisation_id
            then TestProvider.check_mgrinfo sha256_hexdigest current db
                   organisation_id
            else (Some MI_ACCEPT, db)) as [mgrinfo db'].
  simpl. eauto.
Qed.

Lemma default_orgtype_types (db db' : database) (organisation_id : option Z) :
  same_types db db' ->
  default_orgtype db' organisation_id = default_orgtype db organisation_id.
Proof.
  intros H. unfold default_orgtype.
  rewrite (same_types_types db db' organisation_id H),
    (same_types_verifreq db db' organisation_id H). reflexivity.
Qed.

(** The verification record that [update_verification] writes before
    the cascade. *)
Lemma verification_update_of_hash
    (sha256_hexdigest : string -> string) (current : request)
    (db : database) (organisation_id : option Z) :
  let '((v, update, accepted), db1) :=
    TestProvider.verification_update_of sha256_hexdigest current db
      organisation_id in
  let v' := match update with
            | Some u => apply_verification_update u v
            | None => v
            end in
  let vh := provider_hash sha256_hexdigest db organisation_id in
  v = fst (TestProvider.verification sha256_hexdigest current db
             organisation_id)
  /\ TestProvider.lookup_verification db1 organisation_id = Some v
  /\ same_types db db1
  /\ commission_rows db1 = commission_rows db
  /\ approval_rows db1 = approval_rows db
  /\ org_verification.dhash v' = Some vh
  /\ (org_verification.dhash v <> Some vh ->
      accepted = org_verification.accepted v
      /\ org_verification.orgtype v' = default_orgtype db organisation_id)
  /\ (org_verification.dhash v = Some vh ->
      accepted = org_verification.accepted v'
      /\ org_verification.orgtype v' = org_verification.orgtype v).
Proof.
  unfold TestProvider.verification_update_of.
  pose proof (verification_stored sha256_hexdigest current db organisation_id)
    as Hs.
  pose proof (verification_types sha256_hexdigest current db organisation_id)
    as Ht.
  pose proof (verification_frame sha256_hexdigest current db organisation_id)
    as Hf.
  destruct (TestProvider.verification sha256_hexdigest current db
              organisation_id) as [v db1].
  cbn [fst snd] in *. destruct Hf as (Hc1 & Ha1 & _).
  unfold TestProvider.vhash.
  fold (provider_hash sha256_hexdigest db1 organisation_id).
  rewrite (same_types_hash sha256_hexdigest db db1 organisation_id Ht).
  set (vh := provider_hash sha256_hexdigest db organisation_id).
  destruct (ostr_eqb (Some vh) (org_verification.dhash v)) eqn:Heq;
    cbn [negb].
  - apply ostr_eqb_true in Heq.
    pose proof (check_mgrinfo_frame sha256_hexdigest current db1
                  organisation_id) as Hf.
    pose proof (check_mgrinfo_types sha256_hexdigest current db1
                  organisation_id) as Hty.
    destruct (if TestProvider.minforeq db1 organisation_id
              then TestProvider.check_mgrinfo sha256_hexdigest current db1
                     organisation_id
              else (Some MI_ACCEPT, db1)) as [mgrinfo db3] eqn:Hm.
    assert (Hrows : verification_rows db3 = verification_rows db1
                    /\ same_types db1 db3
                    /\ commission_rows db3 = commission_rows db1
                    /\ approval_rows db3 = approval_rows db1).
    { destruct (TestProvider.minforeq db1 organisation_id).
      - rewrite Hm in Hf, Hty. cbn [snd] in *. tauto.
      - inversion Hm. subst. repeat split; reflexivity. }
    destruct Hrows as (Hv & Hty3 & Hc3 & Ha3).
    split; [reflexivity|]. split.
    { unfold TestProvider.lookup_verification in *. rewrite Hv. exact Hs. }
    split; [eapply same_types_trans; eassumption|].
    split; [congruence|]. split; [congruence|].
    unfold verification_update_nonempty.
    destruct (opt_eqb mgrinfo_eqb mgrinfo (org_verification.mgrinfo v))
      eqn:He1;
    destruct (Bool.eqb
                (orgtype_ok (org_verification.orgtype v)
                 && mgrinfo_ok mgrinfo)
                (org_verification.accepted v)) eqn:He2;
    cbn;
    try (apply Bool.eqb_prop in He2);
    (split; [symmetry; exact Heq|]);
    (split; [intros Hne; exfalso; apply Hne; symmetry; exact Heq|]);
    intros _; split; auto.
  - assert (Hne : org_verification.dhash v <> Some vh).
    { intros He. rewrite He, ostr_eqb_refl in Heq. discriminate. }
    pose proof (verification_defaults_frame sha256_hexdigest current db1
                  organisation_id) as Hf.
    pose proof (verification_defaults_types sha256_hexdigest current db1
                  organisation_id) as Hty.
    pose proof (verification_defaults_orgtype sha256_hexdigest current db1
                  organisation_id) as (m & Hd).
    destruct (TestProvider.verification_defaults sha256_hexdigest current db1
                organisation_id) as [defaults db2].
    cbn [fst snd] in *. subst defaults. cbn.
    split; [reflexivity|]. split.
    { unfold TestProvider.lookup_verification in *.
      destruct Hf as (-> & _). exact Hs. }
    split; [eapply same_types_trans; eassumption|].
    split; [destruct Hf as (_ & -> & _); exact Hc1|].
    split; [destruct Hf as (_ & _ & -> & _); exact Ha1|].
    split; [reflexivity|]. split.
    + intros _. split; [reflexivity|].
      apply default_orgtype_types. exact Ht.
    + intros He. contradiction.
Qed.

Lemma reason_nv : "N/V"%string <> ""%string.
Proof. discriminate. Qed.

(** [update_verification]: the record it leaves, and the cascade it
    runs. *)
Lemma update_verification_steps
    (sha256_hexdigest : string -> string) (current : request)
    (db : database) (organisation_id : option Z) :
  let v := fst (TestProvider.verification sha256_hexdigest current db
                  organisation_id) in
  let vh := provider_hash sha256_hexdigest db organisation_id in
  exists db2 db' v' accepted,
    TestProvider.update_verification sha256_hexdigest current db
      organisation_id = Return db'
    /\ (if accepted : bool
        then TestProvider.reinstate_commission current db2 organisation_id
               "N/V"
        else TestProvider.suspend_commission current db2 organisation_id
               "N/V") = Return db'
    /\ commission_rows db2 = commission_rows db
    /\ approval_rows db2 = approval_rows db
    /\ TestProvider.lookup_verification db' organisation_id = Some v'
    /\ same_types db db'
    /\ org_verification.dhash v' = Some vh
    /\ (org_verification.dhash v <> Some vh ->
        accepted = org_verification.accepted v
        /\ org_verification.orgtype v' = default_orgtype db organisation_id)
    /\ (org_verification.dhash v = Some vh ->
        accepted = org_verification.accepted v'
        /\ org_verification.orgtype v' = org_verification.orgtype v)
    /\ acceptance_invariant v'.
Proof.
  cbv zeta. unfold TestProvider.update_verification.
  pose proof (verification_update_of_hash sha256_hexdigest current db
                organisation_id) as H.
  pose proof (verification_update_of_invariant sha256_hexdigest current db
                organisation_id) as Hinv.
  destruct (TestProvider.verification_update_of sha256_hexdigest current db
              organisation_id) as [[[v update] accepted] db1].
  cbv zeta in H.
  destruct H as (Hv & Hl & Hty & Hc & Ha & Hd & Hchanged & Hsame).
  destruct Hinv as [_ Hinv]. subst v.
  set (v := fst (TestProvider.verification sha256_hexdigest current db
                   organisation_id)) in *.
  set (v' := match update with
             | Some u => apply_verification_update u v
             | None => v
             end) in *.
  set (db2 := match update with
              | Some u => TestProvider.update_record db1
                            (org_verification.id v) u
              | None => db1
              end).
  assert (Hl2 : TestProvider.lookup_verification db2 organisation_id
                = Some v').
  { subst db2 v'. destruct update as [u|].
    - rewrite lookup_verification_update_record, Hl. simpl.
      rewrite Z.eqb_refl. reflexivity.
    - exact Hl. }
  assert (Hf2 : same_types db db2 /\ commission_rows db2 = commission_rows db
                /\ approval_rows db2 = approval_rows db).
  { subst db2. destruct update as [u|]; [|tauto].
    unfold same_types in *. cbn. tauto. }
  destruct Hf2 as (Hty2 & Hc2 & Ha2).
  exists db2.
  destruct accepted.
  - destruct (reinstate_commission_rows current db2 organisation_id "N/V"
                reason_nv)
      as (db' & Hret & _ & _ & Hvr & Htl & Htt & _).
    exists db', v', true. split; [exact Hret|]. split; [exact Hret|].
    split; [exact Hc2|]. split; [exact Ha2|]. split.
    { unfold TestProvider.lookup_verification in *. rewrite Hvr. exact Hl2. }
    split.
    { eapply same_types_trans; [exact Hty2|]. split; assumption. }
    auto.
  - destruct (suspend_commission_rows current db2 organisation_id "N/V"
                reason_nv)
      as (db' & Hret & _ & _ & Hvr & Htl & Htt & _).
    exists db', v', false. split; [exact Hret|]. split; [exact Hret|].
    split; [exact Hc2|]. split; [exact Ha2|]. split.
    { unfold TestProvider.lookup_verification in *. rewrite Hvr. exact Hl2. }
    split.
    { eapply same_types_trans; [exact Hty2|]. split; assumption. }
    auto.
Qed.

(** X23. [update_verification] returns and leaves the verification record
    with the hash of the organisation types; [vhash] on the result
    reports no change. *)
Theorem update_verification_then_vhash
    (sha256_hexdigest : string -> string) (current later : request)
    (db : database) (organisation_id : option Z) :
  exists db' v',
    TestProvider.update_verification sha256_hexdigest current db
      organisation_id = Return db'
    /\ TestProvider.lookup_verification db' organisation_id = Some v'
    /\ org_verification.dhash v'
       = Some (provider_hash sha256_hexdigest db organisation_id)
    /\ TestProvider.vhash sha256_hexdigest later db' organisation_id v'
       = ((None, provider_hash sha256_hexdigest db organisation_id), db').
Proof.
  destruct (update_verification_steps sha256_hexdigest current db
              organisation_id)
    as (db2 & db' & v' & accepted & Hret & _ & _ & _ & Hl & Hty & Hd & _).
  exists db', v'. split; [exact Hret|]. split; [exact Hl|].
  split; [exact Hd|].
  unfold TestProvider.vhash.
  fold (provider_hash sha256_hexdigest db' organisation_id).
  rewrite (same_types_hash sha256_hexdigest db db' organisation_id Hty).
  rewrite Hd, ostr_eqb_refl. reflexivity.
Qed.

Lemma verifreq_default_orgtype (db : database) (organisation_id : option Z) :
  TestProvider.verifreq db organisation_id = true ->
  default_orgtype db organisation_id = OT_NV.
Proof.
  intros H. unfold default_orgtype. rewrite H.
  unfold TestProvider.verifreq, TestProvider.any_type_tag in H.
  destruct (TestProvider.types db organisation_id); [discriminate|reflexivity].
Qed.

Lemma verification_found (sha256_hexdigest : string -> string)
    (current : request) (db : database) (organisation_id : option Z)
    (v : org_verification.row) :
  TestProvider.lookup_verification db organisation_id = Some v ->
  TestProvider.verification sha256_hexdigest current db organisation_id
  = (v, db).
Proof.
  intros H. unfold TestProvider.verification. rewrite H. reflexivity.
Qed.

(** X24. When the organisation types of a verified provider have changed
    and verification is required, [update_verification] resets the
    record to N/V and not accepted, but reinstates rather than
    suspends: every CURRENT commission is still there. A second call
    suspends them. *)
Theorem update_verification_cascade_lags
    (sha256_hexdigest : string -> string) (current later : request)
    (db : database) (organisation_id : option Z) (v : org_verification.row) :
  TestProvider.lookup_verification db organisation_id = Some v ->
  org_verification.accepted v = true ->
  org_verification.dhash v
  <> Some (provider_hash sha256_hexdigest db organisation_id) ->
  TestProvider.verifreq db organisation_id = true ->
  exists db1 v1,
    TestProvider.update_verification sha256_hexdigest current db
      organisation_id = Return db1
    /\ TestProvider.lookup_verification db1 organisation_id = Some v1
    /\ org_verification.orgtype v1 = OT_NV
    /\ org_verification.accepted v1 = false
    /\ (forall c, In c (commission_rows db) ->
          org_commission.status c = CURRENT -> In c (commission_rows db1))
    /\ exists db2,
         TestProvider.update_verification sha256_hexdigest later db1
           organisation_id = Return db2
         /\ forall c, In c (commission_rows db2) ->
              org_commission.organisation_id c = organisation_id ->
              org_commission.deleted c = false ->
              org_commission.status c <> CURRENT.
Proof.
  intros Hl Hacc Hchanged Hreq.
  destruct (update_verification_steps sha256_hexdigest current db
              organisation_id)
    as (db0 & db1 & v1 & accepted & Hret & Hcascade & Hc0 & _ & Hl1 & Hty
        & Hd1 & Hch & _ & Hinv).
  rewrite (verification_found _ _ _ _ v Hl) in Hch. cbn [fst] in Hch.
  destruct (Hch Hchanged) as [Ha Ho]. rewrite Hacc in Ha. subst accepted.
  rewrite (verifreq_default_orgtype db organisation_id Hreq) in Ho.
  assert (Hacc1 : org_verification.accepted v1 = false).
  { unfold acceptance_invariant in Hinv. rewrite Hinv, Ho. reflexivity. }
  exists db1, v1. split; [exact Hret|]. split; [exact Hl1|].
  split; [exact Ho|]. split; [exact Hacc1|]. split.
  - destruct (reinstate_commission_rows current db0 organisation_id "N/V"
                reason_nv) as (db1' & Hret' & Hrows & _).
    rewrite Hret' in Hcascade. injection Hcascade as ->.
    intros c Hin Hcur. rewrite Hrows, Hc0. apply in_map_iff.
    exists c. split; [|exact Hin].
    unfold TestProvider.reinstate_query. rewrite Hcur.
    rewrite andb_false_r. reflexivity.
  - destruct (update_verification_steps sha256_hexdigest later db1
                organisation_id)
      as (db1' & db2 & v2 & accepted2 & Hret2 & Hcascade2 & _ & _ & _ & _
          & _ & _ & Hsame & Hinv2).
    rewrite (verification_found _ _ _ _ v1 Hl1) in Hsame. cbn [fst] in Hsame.
    rewrite (same_types_hash sha256_hexdigest db db1 organisation_id Hty)
      in Hsame.
    destruct (Hsame Hd1) as [Ha2 Ho2].
    unfold acceptance_invariant in Hinv2. rewrite Ho2, Ho in Hinv2.
    cbn in Hinv2. rewrite Hinv2 in Ha2. subst accepted2.
    exists db2. split; [exact Hret2|].
    destruct (suspend_commission_post later db1' organisation_id "N/V"
                reason_nv) as (db2' & Hret' & Hnocur & _).
    rewrite Hret' in Hcascade2. injection Hcascade2 as ->. exact Hnocur.
Qed.

Lemma approval_step_approved_unlisted (current : request)
    (a : org_site_approval.row) (vh : string) (commissioned : bool) :
  org_site_approval.status a = APPROVED ->
  org_site_approval.public a = N ->
  org_site_approval.public (approval_step current a vh commissioned) = N.
Proof.
  intros Hs Hp. unfold approval_step.
  destruct a as [id org site dh st m h l p pr adv del].
  cbn in Hs, Hp. subst st p.
  destruct (integrity_check_cases current
              (org_site_approval.Row id org site dh APPROVED m h l N pr adv
                 del) vh) as [Hic|[_ Hic]];
    rewrite Hic; clear Hic;
    unfold TestStation.approval_update_of, TestStation.keep_manual_unlisting;
    cbn [org_site_approval.public_reason org_site_approval.public];
    destruct (automatic_reason pr);
    destruct m, h, l, commissioned; reflexivity.
Qed.

Lemma approval_step_decision (current : request)
    (a : org_site_approval.row) (vh : string) (commissioned : bool) :
  org_site_approval.status a = REVISE \/ org_site_approval.status a = REVIEW ->
  TestStation.all_tags a RV_APPROVED = true ->
  let a' := approval_step current a vh commissioned in
  fully_approved a'
  /\ org_site_approval.dhash a' = Some vh
  /\ (manually_unlisted a = false ->
      if commissioned
      then org_site_approval.public a' = Y
           /\ org_site_approval.public_reason a' = None
      else org_site_approval.public a' = N
           /\ org_site_approval.public_reason a'
              = Some "COMMISSION"%string).
Proof.
  intros Hs Hall. cbv zeta. unfold approval_step, manually_unlisted.
  destruct a as [id org site dh st m h l p pr adv del].
  cbn in Hs.
  assert (Hic : TestStation.integrity_check current
                  (org_site_approval.Row id org site dh st m h l p pr adv del)
                  vh = None).
  { unfold TestStation.integrity_check. cbn.
    destruct Hs as [-> | ->]; reflexivity. }
  rewrite Hic. clear Hic.
  unfold TestStation.approval_update_of, TestStation.keep_manual_unlisting,
    fully_approved.
  cbn [org_site_approval.public_reason org_site_approval.public].
  destruct m, h, l; try discriminate Hall.
  destruct (automatic_reason pr);
    destruct Hs as [-> | ->]; destruct p, commissioned; cbn;
    (split; [repeat split; reflexivity|]);
    (split; [reflexivity|]);
    intros Hm; first [discriminate Hm | split; reflexivity].
Qed.

(** X4. [update_approval] never lists a record whose status is already
    APPROVED and that is not public, not even for a commissioned
    organisation: such sites are listed by [update_all] only. *)
Theorem update_approval_never_relists
    (sha256_hexdigest : string -> string) (current : request)
    (db : database) (site_id : Z) (commissioned : option bool)
    (facility : org_facility.row) (a : org_site_approval.row) :
  TestStation.record db site_id = Some facility ->
  TestStation.lookup_approval db site_id = Some a ->
  org_site_approval.status a = APPROVED ->
  org_site_approval.public a = N ->
  exists db' a',
    TestStation.update_approval sha256_hexdigest current db site_id
      commissioned = Return db'
    /\ TestStation.lookup_approval db' site_id = Some a'
    /\ org_site_approval.public a' = N.
Proof.
  intros Hrec Hl Hs Hp.
  destruct (update_approval_step sha256_hexdigest current db site_id
              commissioned facility Hrec) as (db' & Hret & Hl' & _).
  rewrite (approval_found db site_id a Hl) in Hl'. cbn [fst] in Hl'.
  eexists. eexists. split; [exact Hret|]. split; [exact Hl'|].
  apply approval_step_approved_unlisted; assumption.
Qed.

(** X3. When all three review dimensions are APPROVED and the status is
    REVISE or REVIEW, [update_approval] sets the status to APPROVED and
    stores the location hash; unless the record was de-listed by hand,
    the site is listed without reason when the organisation is
    commissioned, and de-listed with reason COMMISSION when it is
    not. *)
Theorem update_approval_decision
    (sha256_hexdigest : string -> string) (current : request)
    (db : database) (site_id : Z) (commissioned : option bool)
    (facility : org_facility.row) (a : org_site_approval.row) :
  TestStation.record db site_id = Some facility ->
  TestStation.lookup_approval db site_id = Some a ->
  org_site_approval.status a = REVISE \/ org_site_approval.status a = REVIEW ->
  TestStation.all_tags a RV_APPROVED = true ->
  exists db' a',
    TestStation.update_approval sha256_hexdigest current db site_id
      commissioned = Return db'
    /\ TestStation.lookup_approval db' site_id = Some a'
    /\ fully_approved a'
    /\ org_site_approval.dhash a'
       = Some (TestStation.location_hash sha256_hexdigest db facility)
    /\ (manually_unlisted a = false ->
        if commissioned_flag current db facility commissioned
        then org_site_approval.public a' = Y
             /\ org_site_approval.public_reason a' = None
        else org_site_approval.public a' = N
             /\ org_site_approval.public_reason a'
                = Some "COMMISSION"%string).
Proof.
  intros Hrec Hl Hs Hall.
  destruct (update_approval_step sha256_hexdigest current db site_id
              commissioned facility Hrec) as (db' & Hret & Hl' & _).
  rewrite (approval_found db site_id a Hl) in Hl'. cbn [fst] in Hl'.
  eexists. eexists. split; [exact Hret|]. split; [exact Hl'|].
  apply approval_step_decision; assumption.
Qed.

(** X7. When the history is ordered, after [update_approval] the last
    history entry of the site agrees with the approval record in all
    status fields. *)
Theorem update_approval_history_in_sync
    (sha256_hexdigest : string -> string) (current : request)
    (db : database) (site_id : Z) (commissioned : option bool)
    (facility : org_facility.row) :
  TestStation.record db site_id = Some facility ->
  history_ordered (utcnow current) (history_rows db) ->
  exists db' a' e,
    TestStation.update_approval sha256_hexdigest current db site_id
      commissioned = Return db'
    /\ TestStation.lookup_approval db' site_id = Some a'
    /\ TestStation.last_entry db' site_id = Some e
    /\ TestStation.status_changed e a' = false.
Proof.
  intros Hrec Hord.
  pose proof (update_approval_exact sha256_hexdigest current db site_id
                commissioned facility Hrec) as Hex.
  destruct (update_approval_step sha256_hexdigest current db site_id
              commissioned facility Hrec) as (db' & Hret & Hl & _).
  pose proof (approval_keeps_history db site_id) as Hh.
  destruct (TestStation.approval db site_id) as [a db0].
  cbn [fst snd] in *. cbv zeta in Hex.
  rewrite Hex in Hret. injection Hret as Hdb'.
  match type of Hdb' with
  | TestStation.update_approval_history _ ?d _ ?x = _ =>
      destruct (update_approval_history_last current d site_id x)
        as (e & He & Hch)
  end.
  { cbn [history_rows TestStation.update_record set_approval_rows].
    rewrite Hh. exact Hord. }
  rewrite Hdb' in He.
  eexists. eexists. exists e. split; [rewrite Hex, Hdb'; reflexivity|].
  split; [exact Hl|]. split; [exact He|exact Hch].
Qed.

(** X25. After [site_approval_onaccept] the saved approval record names
    the organisation of the facility of its site (none when the site
    has no facility); site, status, review dimensions and hash stay
    as they are, and so do the other approval records and the
    history. *)
Theorem site_approval_onaccept_organisation (db : database) (record_id : Z)
    (record : org_site_approval.row) :
  record_id <> 0 ->
  saved_approval db record_id = Some record ->
  let db' := TestStationModel.site_approval_onaccept db (Some record_id) in
  exists record',
    saved_approval db' record_id = Some record'
    /\ org_site_approval.organisation_id record'
       = TestStation.organisation_id db (org_site_approval.site_id record)
    /\ org_site_approval.site_id record' = org_site_approval.site_id record
    /\ org_site_approval.status record' = org_site_approval.status record
    /\ org_site_approval.mpav record' = org_site_approval.mpav record
    /\ org_site_approval.hygiene record' = org_site_approval.hygiene record
    /\ org_site_approval.layout record' = org_site_approval.layout record
    /\ org_site_approval.dhash record' = org_site_approval.dhash record
    /\ (forall a, In a (approval_rows db) ->
          org_site_approval.id a <> record_id -> In a (approval_rows db'))
    /\ history_rows db' = history_rows db.
Proof.
  intros Hid Hsaved. cbv zeta.
  assert (Hfind := Hsaved). apply find_some in Hfind.
  destruct Hfind as [_ Hmatch]. apply andb_prop in Hmatch.
  destruct Hmatch as [Hkey _]. apply Z.eqb_eq in Hkey.
  unfold TestStationModel.site_approval_onaccept.
  rewrite (ref_truthy_some record_id Hid).
  cbn [negb or_else]. unfold saved_approval in Hsaved. rewrite Hsaved.
  match goal with
  | |- context [if ?c then set_approval_rows db (map ?f _) else db] =>
      assert (Hwritten :
                saved_approval (set_approval_rows db (map f (approval_rows db)))
                  record_id = Some (f record));
      [unfold saved_approval; cbn [approval_rows set_approval_rows];
       rewrite find_map_stable;
       [rewrite Hsaved; reflexivity
       |intros x; destruct (org_site_approval.id x =? org_site_approval.id record);
        reflexivity]
      |];
      assert (Hothers :
                forall a, In a (approval_rows db) ->
                  org_site_approval.id a <> record_id ->
                  In a (map f (approval_rows db)))
  end.
  { intros a Hin Hne. apply in_map_iff. exists a. split; [|exact Hin].
    cbv beta.
    destruct (Z.eqb_spec (org_site_approval.id a)
                (org_site_approval.id record)); [|reflexivity].
    exfalso. apply Hne. congruence. }
  cbv beta in Hwritten. rewrite Z.eqb_refl in Hwritten.
  destruct (ref_eqb (org_site_approval.organisation_id record)
              (TestStation.organisation_id db
                 (org_site_approval.site_id record))) eqn:Horg;
    [apply ref_eqb_true in Horg|];
    destruct (org_site_approval.public record);
    destruct (str_truthy (org_site_approval.public_reason record));
    cbn [yesno_eqb andb negb is_some orb or_else] in *;
    first [ exists record; split; [exact Hsaved|];
            repeat split; auto; fail
          | eexists; split; [exact Hwritten|]; cbn;
            repeat split; auto ].
Qed.

Lemma commission_covers_query (current : request)
    (organisation_id : option Z) (c : org_commission.row) :
  org_commission.organisation_id c = organisation_id ->
  commission_covers current c ->
  TestProvider.current_commission_query current organisation_id c = true.
Proof.
  intros Horg (Hs & Hd & Hstart & Hend).
  unfold TestProvider.current_commission_query.
  rewrite Horg, Hs, Hd, ref_eqb_refl. cbn.
  unfold is_none, sql_ge.
  destruct (org_commission.date c) as [d|],
    (org_commission.end_date c) as [e|]; cbn;
    repeat rewrite (proj2 (Z.leb_le _ _)) by assumption; reflexivity.
Qed.

(** X16. [current_commission] finds a commission exactly when the
    organisation has a commission that is not deleted, has status
    CURRENT and covers today. *)
Theorem current_commission_exists (current : request) (db : database)
    (organisation_id : option Z) :
  (exists c,
     TestProvider.current_commission current db organisation_id = Some c)
  <-> (exists c,
         In c (commission_rows db)
         /\ org_commission.organisation_id c = organisation_id
         /\ commission_covers current c).
Proof.
  split.
  - intros [c Hc]. apply current_commission_found in Hc.
    destruct Hc as [Hin Hq]. apply current_commission_query_covers in Hq.
    exists c. tauto.
  - intros (c & Hin & Horg & Hcov).
    destruct (TestProvider.current_commission current db organisation_id)
      as [c'|] eqn:Hcur; [eauto|].
    exfalso.
    assert (Hq := commission_covers_query current organisation_id c Horg Hcov).
    revert Hcur. unfold TestProvider.current_commission.
    assert (Hgen : forall rows best,
               In c rows \/ best <> None ->
               fold_left
                 (fun best c =>
                    if TestProvider.current_commission_query current
                         organisation_id c
                    then match best with
                         | None => Some c
                         | Some b =>
                             if TestProvider.starts_later c b
                             then Some c else best
                         end
                    else best) rows best <> None).
    { induction rows as [|r rows IH]; intros best [H|H]; cbn.
      - destruct H.
      - exact H.
      - apply IH. destruct H as [->|H]; [right|left; exact H].
        rewrite Hq. destruct best as [b|]; [|discriminate].
        destruct (TestProvider.starts_later c b); discriminate.
      - apply IH. right.
        destruct (TestProvider.current_commission_query current
                    organisation_id r); [|exact H].
        destruct best as [b|]; [|discriminate].
        destruct (TestProvider.starts_later r b); discriminate. }
    apply Hgen. left. exact Hin.
Qed.

(* ------------------------------------------------------------------ *)
(** ** History of update_all *)

(** Rows of other sites do not matter to [last_entry]. *)
Lemma last_entry_map (db : database) (site_id : Z)
    (f : org_site_approval_status.row -> org_site_approval_status.row) :
  (forall h, In h (history_rows db) ->
     f h = h
     \/ (org_site_approval_status.site_id h <> site_id
         /\ org_site_approval_status.site_id (f h) <> site_id)) ->
  TestStation.last_entry (set_history_rows db (map f (history_rows db)))
    site_id
  = TestStation.last_entry db site_id.
Proof.
  unfold TestStation.last_entry. cbn [history_rows set_history_rows].
  generalize (@None org_site_approval_status.row).
  induction (history_rows db) as [|h rows IH]; intros best H;
    [reflexivity|].
  cbn [map fold_left].
  rewrite IH by (intros h' Hh'; apply H; right; exact Hh').
  f_equal.
  destruct (H h (or_introl eq_refl)) as [-> | [Hne Hne']]; [reflexivity|].
  apply Z.eqb_neq in Hne, Hne'. rewrite Hne, Hne'. reflexivity.
Qed.

Lemma last_entry_app_other (db : database) (site_id : Z)
    (new : org_site_approval_status.row) :
  org_site_approval_status.site_id new <> site_id ->
  TestStation.last_entry (set_history_rows db (history_rows db ++ [new]))
    site_id
  = TestStation.last_entry db site_id.
Proof.
  intros Hne. unfold TestStation.last_entry.
  cbn [history_rows set_history_rows]. rewrite fold_left_app. cbn.
  apply Z.eqb_neq in Hne. rewrite Hne. reflexivity.
Qed.

Lemma update_approval_history_other_site (current : request) (db : database)
    (site_id other : Z) (a : org_site_approval.row) :
  NoDup (map org_site_approval_status.id (history_rows db)) ->
  other <> site_id ->
  TestStation.last_entry
    (TestStation.update_approval_history current db site_id a) other
  = TestStation.last_entry db other.
Proof.
  intros Hnd Hne.
  pose proof (last_entry_greatest db site_id) as Hlast.
  unfold TestStation.update_approval_history.
  destruct (TestStation.last_entry db site_id) as [p|].
  - destruct Hlast as [Hin _].
    destruct (site_history_in _ _ _ Hin) as [Hinp Hsite].
    destruct (TestStation.status_changed p a); [|reflexivity].
    destruct (org_site_approval_status.timestmp p =? utcnow current).
    + apply last_entry_map. intros h Hh.
      destruct (Z.eqb_spec (org_site_approval_status.id h)
                  (org_site_approval_status.id p)) as [Heq|Hneq];
        [|left; reflexivity].
      right.
      assert (h = p)
        by exact (NoDup_map_eq org_site_approval_status.id _ h p Hnd Hh Hinp
                    Heq).
      subst h. cbn. split; congruence.
    + apply last_entry_app_other. cbn. congruence.
  - apply last_entry_app_other. cbn. congruence.
Qed.

Lemma update_approval_history_sync (current : request) (db : database)
    (site_id : Z) (a : org_site_approval.row) :
  history_ordered (utcnow current) (history_rows db) ->
  TestStation.lookup_approval db site_id = Some a ->
  let db' := TestStation.update_approval_history current db site_id a in
  history_in_sync db' site_id
  /\ (forall other, history_in_sync db other -> history_in_sync db' other).
Proof.
  intros Hord Hl. cbv zeta.
  destruct (update_approval_history_frame current db site_id a) as [_ Hrows].
  assert (Hlook : forall s,
             TestStation.lookup_approval
               (TestStation.update_approval_history current db site_id a) s
             = TestStation.lookup_approval db s).
  { intros s. unfold TestStation.lookup_approval. rewrite Hrows.
    reflexivity. }
  assert (Hsync : history_in_sync
                    (TestStation.update_approval_history current db site_id a)
                    site_id).
  { destruct (update_approval_history_last current db site_id a Hord)
      as (e & He & Hch).
    exists a, e. rewrite Hlook. auto. }
  split; [exact Hsync|].
  intros other (a' & e & Ha' & He & Hch).
  destruct (Z.eq_dec other site_id) as [->|Hne]; [exact Hsync|].
  exists a', e. rewrite Hlook.
  rewrite (update_approval_history_other_site current db site_id other a
             (proj1 Hord) Hne).
  auto.
Qed.

Lemma update_all_history_fold (current : request)
    (rows : list org_site_approval.row) (db : database) :
  history_ordered (utcnow current) (history_rows db) ->
  (forall row, In row rows ->
     TestStation.lookup_approval db (org_site_approval.site_id row) <> None) ->
  let db' :=
    fold_left
      (fun d row =>
         let site_id := org_site_approval.site_id row in
         let '(a, d1) := TestStation.approval d site_id in
         TestStation.update_approval_history current d1 site_id a)
      rows db in
  approval_rows db' = approval_rows db
  /\ (forall s, history_in_sync db s -> history_in_sync db' s)
  /\ (forall row, In row rows ->
        history_in_sync db' (org_site_approval.site_id row)).
Proof.
  cbv zeta. revert db.
  induction rows as [|row rows IH]; intros db Hord Hfound; cbn [fold_left].
  - split; [reflexivity|]. split; [auto|]. intros row [].
  - destruct (TestStation.lookup_approval db (org_site_approval.site_id row))
      as [a|] eqn:Hl;
      [|exfalso; exact (Hfound row (or_introl eq_refl) Hl)].
    rewrite (approval_found db _ a Hl).
    set (d := TestStation.update_approval_history current db
                (org_site_approval.site_id row) a).
    destruct (update_approval_history_frame current db
                (org_site_approval.site_id row) a) as [_ Hrows].
    fold d in Hrows.
    destruct (update_approval_history_sync current db
                (org_site_approval.site_id row) a Hord Hl) as [Hsync Hkeep].
    fold d in Hsync, Hkeep.
    destruct (IH d) as (Hrows' & Hkeep' & Hsync').
    { apply update_approval_history_ordered. exact Hord. }
    { intros r Hr. unfold TestStation.lookup_approval. rewrite Hrows.
      apply Hfound. right. exact Hr. }
    split; [congruence|]. split; [auto|].
    intros r [<-|Hr]; auto.
Qed.

(** X13. When the history is ordered, after [update_all] the last history
    entry of every site whose record it has changed agrees with the
    approval record of that site. *)
Theorem update_all_records_history (current : request) (db : database)
    (organisation_id : option Z) (public : yesno) (reason : option string) :
  (public = N -> str_truthy reason = true) ->
  history_ordered (utcnow current) (history_rows db) ->
  exists n db',
    TestStation.update_all current db organisation_id public reason
    = Return (n, db')
    /\ forall a, In a (approval_rows db) ->
         TestStation.update_all_query organisation_id public reason a = true ->
         history_in_sync db' (org_site_approval.site_id a).
Proof.
  intros Hreason Hord. unfold TestStation.update_all.
  assert (Hok : yesno_eqb public N && negb (str_truthy reason) = false).
  { destruct public; [reflexivity|]. rewrite (Hreason eq_refl). reflexivity. }
  rewrite Hok. eexists. eexists. split; [reflexivity|].
  intros a Hin Hq.
  set (query := TestStation.update_all_query organisation_id public reason)
    in *.
  match goal with
  | |- history_in_sync (fold_left _ _ ?d) _ => set (db1 := d)
  end.
  destruct (update_all_history_fold current
              (filter query (approval_rows db)) db1) as (_ & _ & Hsync).
  - exact Hord.
  - intros row Hrow. apply filter_In in Hrow. destruct Hrow as [Hrin Hrq].
    assert (Hdel : org_site_approval.deleted row = false).
    { unfold query, TestStation.update_all_query in Hrq.
      apply andb_prop in Hrq. destruct Hrq as [_ Hrq].
      apply negb_true_iff in Hrq. exact Hrq. }
    unfold TestStation.lookup_approval, db1.
    cbn [approval_rows set_approval_rows].
    intros Hnone.
    match type of Hnone with
    | find _ (map ?f _) = None =>
        pose proof (find_none _ _ Hnone (f row) (in_map f _ _ Hrin)) as Hf
    end.
    cbv beta in Hf. fold query in Hf. rewrite Hrq in Hf. cbn in Hf.
    rewrite Hdel, Z.eqb_refl in Hf. discriminate.
  - apply Hsync. apply filter_In. split; assumption.
Qed.

(* ------------------------------------------------------------------ *)
(** ** Status options and station instances *)

Lemma existsb_item_tuple (c l : string) (codes : list string) :
  existsb (item_eqb (ItemTuple c l)) (map ItemCode codes) = false.
Proof. induction codes; cbn; auto. Qed.

Lemma existsb_item_code (c : string) (codes : list string) :
  existsb (item_eqb (ItemCode c)) (map ItemCode codes) = true <-> In c codes.
Proof.
  rewrite existsb_exists. split.
  - intros (x & Hin & Heq). apply in_map_iff in Hin.
    destruct Hin as (c' & <- & Hin). cbn in Heq.
    apply String.eqb_eq in Heq. subst. exact Hin.
  - intros Hin. exists (ItemCode c). split; [apply in_map; exact Hin|].
    cbn. apply String.eqb_refl.
Qed.

(** X27. [orgtype_status_opts] returns no option for [selectable = True]
    and for every sequence of status codes that is not empty (it
    looks the (code, label) tuples up among the codes), and all
    options for an empty sequence. *)
Theorem orgtype_status_opts_empty :
  orgtype_status_opts SelectTrue = []
  /\ forall codes,
       orgtype_status_opts (SelectCodes codes)
       = match codes with
         | [] => orgtype_status_opts SelectFalse
         | _ :: _ => []
         end.
Proof.
  split; [reflexivity|].
  intros [|c codes]; [reflexivity|].
  unfold orgtype_status_opts. cbn [filter fst snd].
  rewrite !(existsb_item_tuple _ _ (c :: codes)). reflexivity.
Qed.

(** X28. [commission_status_opts] returns all four options for an empty
    sequence of codes; CURRENT, SUSPENDED and REVOKED for
    [selectable = True]; and for a sequence that is not empty the
    options whose code is in it, so that the result depends on the set
    of codes only. *)
Theorem commission_status_opts_selection :
  commission_status_opts (SelectCodes [])
  = commission_status_opts SelectFalse
  /\ map fst (commission_status_opts SelectTrue)
     = ["CURRENT"; "SUSPENDED"; "REVOKED"]%string
  /\ (forall codes, codes <> [] ->
        forall o,
          In o (commission_status_opts (SelectCodes codes))
          <-> In o (commission_status_opts SelectFalse)
              /\ In (fst o) codes)
  /\ (forall codes codes', codes <> [] -> codes' <> [] ->
        (forall c, In c codes <-> In c codes') ->
        commission_status_opts (SelectCodes codes)
        = commission_status_opts (SelectCodes codes')).
Proof.
  split; [reflexivity|]. split; [reflexivity|]. split.
  - intros [|c codes] Hne o; [contradiction|].
    unfold commission_status_opts.
    rewrite filter_In, (existsb_item_code _ (c :: codes)). reflexivity.
  - intros [|c codes] [|c' codes'] Hne Hne' Hsame; try contradiction.
    unfold commission_status_opts. apply filter_ext. intros o.
    destruct (existsb (item_eqb (ItemCode (fst o)))
                (map ItemCode (c' :: codes'))) eqn:He.
    + apply existsb_item_code. apply Hsame. apply existsb_item_code.
      exact He.
    + destruct (existsb (item_eqb (ItemCode (fst o)))
                  (map ItemCode (c :: codes))) eqn:He'; [|reflexivity].
      apply existsb_item_code in He'. apply Hsame in He'.
      apply existsb_item_code in He'. congruence.
Qed.

(** X26. For a [TestStation] made from a facility ID alone, the first read
    of [site_id] returns None although the facility exists: the
    property tests the local variable that was empty when the record
    was read. The read leaves the facility, its key and its site in
    the instance, and from then on [site_id] returns the site of the
    facility; [organisation_id] returns the organisation of the
    facility on the first read already. *)
Theorem station_site_id_after_record (db : database) (facility_id : Z)
    (facility : org_facility.row) :
  facility_by_id db facility_id = Some facility ->
  org_facility.site_id facility <> 0 ->
  let self := TestStationObject.init None (Some facility_id) in
  let self' :=
    TestStationObject.Station None (Some (org_facility.site_id facility))
      (Some (org_facility.id facility)) (Some facility) in
  TestStationObject.site_id db self = (None, self')
  /\ TestStationObject.site_id db self'
     = (Some (org_facility.site_id facility), self')
  /\ TestStationObject.organisation_id db self
     = (org_facility.organisation_id facility, self')
  /\ TestStationObject.organisation_id db self'
     = (org_facility.organisation_id facility, self').
Proof.
  intros Hf Hsite. cbv zeta.
  change (TestStationObject.init None (Some facility_id))
    with (TestStationObject.Station None None (Some facility_id) None).
  set (self := TestStationObject.Station None None (Some facility_id) None).
  set (self' := TestStationObject.Station None
                  (Some (org_facility.site_id facility))
                  (Some (org_facility.id facility)) (Some facility)).
  assert (Hrec : TestStationObject.record db self = (Some facility, self')).
  { unfold TestStationObject.record, self. cbn.
    change (find _ (facility_rows db)) with (facility_by_id db facility_id).
    rewrite Hf. reflexivity. }
  assert (Hs : TestStationObject.site_id db self = (None, self')).
  { unfold TestStationObject.site_id.
    change (TestStationObject._site_id self) with (@None Z).
    cbn [ref_truthy of_opt truthy negb]. rewrite Hrec. reflexivity. }
  assert (Hs' : TestStationObject.site_id db self'
                = (Some (org_facility.site_id facility), self')).
  { unfold TestStationObject.site_id.
    change (TestStationObject._site_id self')
      with (Some (org_facility.site_id facility)).
    rewrite (ref_truthy_some _ Hsite). reflexivity. }
  split; [exact Hs|]. split; [exact Hs'|]. split.
  - unfold TestStationObject.organisation_id. rewrite Hrec. reflexivity.
  - reflexivity.
Qed.

(** X29. [workflow_tag_represent] shows [None] like the option [none] when
    one is given, and else as the label - without colour or icon. The
    representation of [public] is built without [none], so that a
    missing value is shown as - and not as No. *)
Theorem workflow_tag_represent_none (options : list (string * string)) :
  (forall code, code <> ""%string ->
     workflow_tag_represent options (Some code) TagNone
     = workflow_tag_represent options (Some code) (TagStr code))
  /\ workflow_tag_represent options None TagNone
     = WorkflowLabel ["approve-workflow"%string] None "-"
  /\ binary_represent TagNone
     = WorkflowLabel ["approve-workflow"%string] None "-"
  /\ binary_represent (TagStr "N")
     = WorkflowLabel ["approve-workflow"; "workflow-red"]%string
         (Some "fa fa-minus-circle"%string) "No".
Proof.
  split; [|repeat split; reflexivity].
  intros code Hne. unfold workflow_tag_represent.
  assert (Ht : str_truthy (Some code) = true).
  { cbn. destruct (String.eqb_spec code ""); [contradiction|reflexivity]. }
  rewrite Ht. reflexivity.
Qed.

(** X11. The [approval] property returns the approval record of the site
    and leaves the database as it is; when there is none, it appends
    one record with a new key, status and dimensions REVISE, public N
    with reason NEW and the organisation of the facility. Afterwards
    the record is found, so that a second read creates nothing. *)
Theorem approval_get_or_create (db : database) (site_id : Z) :
  let '(a, db') := TestStation.approval db site_id in
  TestStation.lookup_approval db' site_id = Some a
  /\ TestStation.approval db' site_id = (a, db')
  /\ match TestStation.lookup_approval db site_id with
     | Some found => a = found /\ db' = db
     | None =>
         approval_rows db' = approval_rows db ++ [a]
         /\ ~ In (org_site_approval.id a)
              (map org_site_approval.id (approval_rows db))
         /\ a = org_site_approval.Row (org_site_approval.id a)
                  (TestStation.organisation_id db site_id) site_id None
                  REVISE RV_REVISE RV_REVISE RV_REVISE N
                  (Some "NEW"%string) None false
         /\ same_provider_tables db db'
         /\ history_rows db' = history_rows db
     end.
Proof.
  pose proof (approval_stored db site_id) as Hs.
  pose proof (approval_frame db site_id) as Hf.
  pose proof (approval_keeps_history db site_id) as Hh.
  unfold TestStation.approval in *.
  destruct (TestStation.lookup_approval db site_id) as [found|] eqn:Hl.
  - rewrite Hl. auto.
  - cbn [TestStation.add_approval_defaults fst snd] in *.
    unfold TestStation.add_approval_defaults in *. cbn [fst snd] in *.
    rewrite Hs. split; [reflexivity|]. split; [reflexivity|].
    split; [reflexivity|]. split.
    { cbn. intros Hin. exact (next_id_fresh _ _ Hin eq_refl). }
    split; [reflexivity|]. split; [exact Hf|exact Hh].
Qed.

(** X22. The [verification] property returns the verification record of
    the organisation and leaves the database as it is; when there is
    none, it adds one with a new key, the default type status, no
    hash, and [accepted] as the acceptance rule gives it. Afterwards
    the record is found, so that a second read adds nothing. *)
Theorem verification_get_or_create
    (sha256_hexdigest : string -> string) (current later : request)
    (db : database) (organisation_id : option Z) :
  let '(v, db') :=
    TestProvider.verification sha256_hexdigest current db organisation_id in
  TestProvider.lookup_verification db' organisation_id = Some v
  /\ TestProvider.verification sha256_hexdigest later db' organisation_id
     = (v, db')
  /\ match TestProvider.lookup_verification db organisation_id with
     | Some found => v = found /\ db' = db
     | None =>
         org_verification.organisation_id v = organisation_id
         /\ org_verification.dhash v = None
         /\ org_verification.orgtype v = default_orgtype db organisation_id
         /\ org_verification.deleted v = false
         /\ acceptance_invariant v
         /\ ~ In (org_verification.id v)
              (map org_verification.id (verification_rows db))
     end.
Proof.
  pose proof (verification_stored sha256_hexdigest current db organisation_id)
    as Hs.
  unfold TestProvider.verification in *.
  destruct (TestProvider.lookup_verification db organisation_id)
    as [found|] eqn:Hl.
  - rewrite Hl. auto.
  - pose proof (add_verification_defaults_stored sha256_hexdigest current db
                  organisation_id Hl) as Hadd.
    unfold TestProvider.add_verification_defaults in *.
    pose proof (verification_defaults_orgtype sha256_hexdigest current db
                  organisation_id) as (m & Hd).
    pose proof (verification_defaults_frame sha256_hexdigest current db
                  organisation_id) as Hf.
    destruct (TestProvider.verification_defaults sha256_hexdigest current db
                organisation_id) as [data db1].
    cbn [fst snd] in *. subst data. destruct Hf as (Hrows & _).
    destruct Hadd as (_ & _ & Hinv).
    rewrite Hs. split; [reflexivity|]. split; [reflexivity|].
    cbn. repeat split; auto.
    rewrite <- Hrows. intros Hin. exact (next_id_fresh _ _ Hin eq_refl).
Qed.

(* ------------------------------------------------------------------ *)
(** ** Examples *)

Lemma empty_history_ordered (now : Z) : history_ordered now [].
Proof.
  split; [constructor|]. split; [constructor|]. intros site_id. constructor.
Qed.

Lemma commission_onvalidation_accepts_witness :
  provider_accepted plain_digest sample_request verified_provider_database
    (Some 1) = true
  /\ today sample_request < 120.
Proof.
  destruct (commission_onvalidation_accepts plain_digest sample_request
              verified_provider_database later_commission_form
              (CommissionData (Some 1) (Some 110) (Some 120) CURRENT)
              verified_provider_database eq_refl eq_refl)
    as (_ & H & _).
  destruct (H CURRENT eq_refl) as (H1 & H2 & _).
  split; [exact (H1 eq_refl)|exact (H2 eq_refl 120 eq_refl)].
Defined.

Lemma commission_onaccept_stamps_status_change_witness :
  exists db' c',
    TestProviderModel.commission_onaccept plain_digest sample_request
      unverified_current_database saved_commission_3 = Return db'
    /\ TestProviderModel.lookup_commission db' 3 = Some c'
    /\ org_commission.status c' = SUSPENDED
    /\ org_commission.prev_status c' = Some SUSPENDED
    /\ org_commission.status_date c' = Some 100.
Proof.
  destruct (commission_onaccept_stamps_status_change plain_digest
              sample_request unverified_current_database 3
              (org_commission.Row 3 (Some 1) (Some 10) (Some 50) CURRENT
                 (Some CURRENT) (Some 10) None false))
    as (db' & c' & Hret & Hl & Hstamp & _).
  - lia.
  - reflexivity.
  - reflexivity.
  - exists db', c'. split; [exact Hret|]. split; [exact Hl|].
    assert (Hs : org_commission.status c' = SUSPENDED).
    { vm_compute in Hret. inversion Hret; subst db'.
      vm_compute in Hl. inversion Hl; subst c'. reflexivity. }
    split; [exact Hs|].
    destruct Hstamp as [Hp Hd]; [rewrite Hs; discriminate|].
    rewrite Hs in Hp, Hd. split; [exact Hp|].
    apply Hd. discriminate.
Defined.

Lemma suspend_commission_unlists_provider_witness :
  exists db',
    TestProvider.suspend_commission sample_request listed_site_database
      (Some 1) "N/V" = Return db'
    /\ TestProvider.current_commission sample_request db' (Some 1) = None
    /\ In (org_site_approval.Row 5 (Some 1) 9 None APPROVED RV_APPROVED
             RV_APPROVED RV_APPROVED N (Some "COMMISSION"%string) None false)
          (approval_rows db').
Proof.
  destruct (suspend_commission_unlists_provider sample_request
              listed_site_database (Some 1) "N/V")
    as (db' & Hret & _ & Hcur & _ & Hsites).
  - discriminate.
  - exists db'. split; [exact Hret|]. split; [exact Hcur|].
    apply (Hsites (org_site_approval.Row 5 (Some 1) 9 None APPROVED
                     RV_APPROVED RV_APPROVED RV_APPROVED Y None None false)).
    + left. reflexivity.
    + reflexivity.
    + reflexivity.
    + reflexivity.
Defined.

Lemma suspend_then_reinstate_witness :
  exists db1 db2,
    TestProvider.suspend_commission sample_request listed_site_database
      (Some 1) "N/V" = Return db1
    /\ TestProvider.reinstate_commission sample_request db1 (Some 1) "N/V"
       = Return db2
    /\ In (org_commission.Row 1 (Some 1) (Some 10) None CURRENT
             (Some CURRENT) (Some 100) None false) (commission_rows db2)
    /\ In (org_site_approval.Row 5 (Some 1) 9 None APPROVED RV_APPROVED
             RV_APPROVED RV_APPROVED Y None None false) (approval_rows db2).
Proof.
  destruct (suspend_then_reinstate sample_request listed_site_database
              (Some 1) "N/V")
    as (db1 & db2 & Hret1 & Hret2 & Hc & _ & Ha & _).
  - discriminate.
  - exists db1, db2. split; [exact Hret1|]. split; [exact Hret2|]. split.
    + apply (Hc (org_commission.Row 1 (Some 1) (Some 10) None CURRENT
                   (Some CURRENT) (Some 10) None false)).
      * left. reflexivity.
      * reflexivity.
      * reflexivity.
      * reflexivity.
    + apply (Ha (org_site_approval.Row 5 (Some 1) 9 None APPROVED
                   RV_APPROVED RV_APPROVED RV_APPROVED Y None None false)).
      * left. reflexivity.
      * reflexivity.
      * reflexivity.
      * reflexivity.
      * repeat split; reflexivity.
Defined.

Lemma update_verification_cascade_lags_witness :
  exists db1 v1,
    TestProvider.update_verification plain_digest sample_request
      retyped_provider_database (Some 1) = Return db1
    /\ TestProvider.lookup_verification db1 (Some 1) = Some v1
    /\ org_verification.accepted v1 = false
    /\ In (org_commission.Row 1 (Some 1) (Some 10) None CURRENT
             (Some CURRENT) (Some 10) None false) (commission_rows db1).
Proof.
  destruct (update_verification_cascade_lags plain_digest sample_request
              later_request retyped_provider_database (Some 1)
              (org_verification.Row 1 (Some 1) (Some "['4']"%string)
                 OT_VERIFIED (Some MI_ACCEPT) true false))
    as (db1 & v1 & Hret & Hl & _ & Hacc & Hkept & _).
  - reflexivity.
  - reflexivity.
  - vm_compute. discriminate.
  - reflexivity.
  - exists db1, v1. split; [exact Hret|]. split; [exact Hl|].
    split; [exact Hacc|]. apply Hkept; [left|]; reflexivity.
Defined.

Lemma update_approval_never_relists_witness :
  commissioned_flag sample_request unlisted_site_database
    (org_facility.Row 4 9 (Some 1) None false) None = true
  /\ exists db' a',
       TestStation.update_approval plain_digest sample_request
         unlisted_site_database 9 None = Return db'
       /\ TestStation.lookup_approval db' 9 = Some a'
       /\ org_site_approval.public a' = N.
Proof.
  split; [reflexivity|].
  exact (update_approval_never_relists plain_digest sample_request
           unlisted_site_database 9 None _ _ eq_refl eq_refl eq_refl eq_refl).
Defined.

Lemma update_approval_decision_witness :
  exists db' a',
    TestStation.update_approval plain_digest sample_request
      commissioned_site_database 9 None = Return db'
    /\ TestStation.lookup_approval db' 9 = Some a'
    /\ fully_approved a'
    /\ org_site_approval.public a' = Y
    /\ org_site_approval.public_reason a' = None.
Proof.
  destruct (update_approval_decision plain_digest sample_request
              commissioned_site_database 9 None _ _ eq_refl eq_refl
              (or_intror eq_refl) eq_refl)
    as (db' & a' & Hret & Hl & Hfull & _ & Hlist).
  exists db', a'. split; [exact Hret|]. split; [exact Hl|].
  split; [exact Hfull|]. exact (Hlist eq_refl).
Defined.

Lemma update_approval_history_in_sync_witness :
  exists db' a' e,
    TestStation.update_approval plain_digest sample_request
      commissioned_site_database 9 None = Return db'
    /\ TestStation.lookup_approval db' 9 = Some a'
    /\ TestStation.last_entry db' 9 = Some e
    /\ TestStation.status_changed e a' = false.
Proof.
  exact (update_approval_history_in_sync plain_digest sample_request
           commissioned_site_database 9 None _ eq_refl
           (empty_history_ordered _)).
Defined.

Lemma site_approval_onaccept_organisation_witness :
  exists record',
    saved_approval
      (TestStationModel.site_approval_onaccept unassigned_approval_database
         (Some 5)) 5 = Some record'
    /\ org_site_approval.organisation_id record' = Some 1.
Proof.
  destruct (site_approval_onaccept_organisation unassigned_approval_database
              5 (org_site_approval.Row 5 None 9 None REVISE RV_REVISE
                   RV_REVISE RV_REVISE N (Some "NEW"%string) None false))
    as (record' & Hs & Ho & _).
  - lia.
  - reflexivity.
  - exists record'. split; [exact Hs|exact Ho].
Defined.

Lemma update_all_records_history_witness :
  exists n db',
    TestStation.update_all sample_request listed_site_database (Some 1) N
      (Some "COMMISSION"%string) = Return (n, db')
    /\ history_in_sync db' 9.
Proof.
  destruct (update_all_records_history sample_request listed_site_database
              (Some 1) N (Some "COMMISSION"%string))
    as (n & db' & Hret & Hsync).
  - reflexivity.
  - apply empty_history_ordered.
  - exists n, db'. split; [exact Hret|].
    apply (Hsync (org_site_approval.Row 5 (Some 1) 9 None APPROVED
                    RV_APPROVED RV_APPROVED RV_APPROVED Y None None false)).
    + left. reflexivity.
    + reflexivity.
Defined.

Lemma station_site_id_after_record_witness :
  facility_by_id moved_site_database 4
  = Some (org_facility.Row 4 9 (Some 1) (Some 7) false)
  /\ fst (TestStationObject.site_id moved_site_database
            (TestStationObject.init None (Some 4))) = None
  /\ fst (TestStationObject.site_id moved_site_database
            (snd (TestStationObject.site_id moved_site_database
                    (TestStationObject.init None (Some 4))))) = Some 9
  /\ fst (TestStationObject.organisation_id moved_site_database
            (TestStationObject.init None (Some 4))) = Some 1.
Proof.
  split; [reflexivity|].
  destruct (station_site_id_after_record moved_site_database 4
              (org_facility.Row 4 9 (Some 1) (Some 7) false))
    as (H1 & H2 & H3 & _).
  - reflexivity.
  - cbn. lia.
  - rewrite H1. cbn [fst snd]. rewrite H2, H3. repeat split.
Defined.
